(** * logs-distributor: a shallow embedding of the distribution pipeline

    The development follows the Go packages of the repository:
    [config], [models], and the implementations of the packet validator,
    the retry handler, the weighted load balancer, the packet processor,
    the health monitor, the distributor (submission path, workers,
    snapshot and recovery) and the two HTTP handlers around it.

    Modelling conventions.
    - Go's [int], [int64] and [time.Duration] are 64-bit two's complement
      integers: values are [Z], and the additions and products of the
      source are followed by [wrap64].
    - Go strings are byte strings: [string], with [len] the number of bytes.
    - Go maps are stdpp [gmap]s; a missing key reads as the zero value.
    - [float64] weights are IEEE 754 binary64 values, [spec_float] of the
      Standard Library, with its rounded sum and difference and its
      comparisons; a decimal constant of the source is the nearest
      [float64].
    - Mutation is explicit state passing.  What the Go runtime decides (the
      branch taken by a [select], the order in which [range] walks a map,
      the clock, a random draw, the outcome of a file write) is an explicit
      argument of the function that depends on it.  A goroutine is a step
      function of its own; which one runs next is the caller's choice.
    - Logging is not modelled. *)

From Stdlib Require Import ZArith QArith Lqa SpecFloat String DecimalString List Permutation.
From stdpp Require Import gmap strings list fin_maps.

Local Open Scope Z_scope.

(** ** Machine integers *)

Module GoInt.

Definition min_int64 : Z := - 2 ^ 63.
Definition max_int64 : Z := 2 ^ 63 - 1.

(** Two's complement reduction to 64 bits. *)
Definition wrap64 (z : Z) : Z := (z + 2 ^ 63) mod 2 ^ 64 - 2 ^ 63.

Definition in_range (z : Z) : Prop := min_int64 <= z <= max_int64.

Definition add (a b : Z) : Z := wrap64 (a + b).
Definition mul (a b : Z) : Z := wrap64 (a * b).

(** [len] of a string and of a slice, as a Go [int]. *)
Definition len_string (s : string) : Z := Z.of_nat (String.length s).
Definition len {A} (l : list A) : Z := Z.of_nat (length l).

End GoInt.

(** ** [float64]

    IEEE 754 binary64 as the Standard Library specifies it: [SFadd],
    [SFsub] and [SFdiv] round to nearest, ties to even; comparisons with
    a NaN are false. *)

Module float64.

Definition t : Type := spec_float.

Definition prec : Z := 53.
Definition emax : Z := 1024.

Definition add (x y : t) : t := SFadd prec emax x y.
Definition sub (x y : t) : t := SFsub prec emax x y.

(** [x > y] and [x == y] *)
Definition gtb (x y : t) : bool := SFltb y x.
Definition eqb (x y : t) : bool := SFeqb x y.

(** The zero value of a [float64]. *)
Definition zero : t := S754_zero false.

(** The conversion of an integer constant, and of the decimal constant
    [n/d]: the nearest [float64]. *)
Definition ofZ (z : Z) : t := binary_normalize prec emax z 0 false.
Definition ofRatio (n d : Z) : t := SFdiv prec emax (ofZ n) (ofZ d).

(** Specification vocabulary: NaN, finiteness, and the number a finite
    [float64] stands for. *)
Definition isNaN (x : t) : bool :=
  match x with
  | S754_nan => true
  | _ => false
  end.

Definition isFinite (x : t) : bool :=
  match x with
  | S754_zero _ | S754_finite _ _ _ => true
  | S754_infinity _ | S754_nan => false
  end.

Definition toQ (x : t) : Q :=
  match x with
  | S754_finite s m e =>
      let n := if s then Z.neg m else Z.pos m in
      match e with
      | Z0 => n # 1
      | Z.pos p => (n * 2 ^ Z.pos p) # 1
      | Z.neg p => n # (2 ^ p)
      end
  | _ => 0%Q
  end.

(** [x] is a zero, a positive number or the positive infinity. *)
Definition nonneg (x : t) : bool :=
  match x with
  | S754_zero _ => true
  | S754_infinity s | S754_finite s _ _ => negb s
  | S754_nan => false
  end.

(** [x] is finite and stands for the number [q]. *)
Definition exact (x : t) (q : Q) : Prop := isFinite x = true /\ (toQ x == q)%Q.

End float64.

(** ** package config *)

Module config.

(** [time.Duration] counts nanoseconds. *)
Definition Second : Z := 1000000000.

Definition SubmissionTimeout : Z := 5 * Second.

Definition PacketChannelBuffer : Z := 2000.

Definition MaxRetries : Z := 3.
Definition BaseRetryDelay : Z := 2 * Second.
Definition RetryBackoffFactor : Z := 2.

Definition MaxPacketSizeBytes : Z := 1024 * 1024.
Definition MaxMessagesPerPacket : Z := 1000.
Definition MaxLogMessageLength : Z := 10000.

End config.

(** ** package models *)

Module models.

(** An [interface{}] value of a [Metadata] or [Results] map, kept as the
    JSON text it is decoded from and encoded to. *)
Definition JSONValue : Type := string.

(** [time.Time], as nanoseconds since the epoch. *)
Definition Time : Type := Z.

Record LogMessage : Type := mkLogMessage {
  msg_ID : string;
  Timestamp : Time;
  Level : string;
  Message : string;
  Source : string;
  Metadata : list (string * JSONValue)
}.

Record LogPacket : Type := mkLogPacket {
  ID : string;
  Messages : list LogMessage;
  RetryCount : Z
}.

Record Analyzer : Type := mkAnalyzer {
  analyzer_ID : string;
  Name : string;
  Weight : float64.t;
  ProcessingTimeMs : Z;
  IsHealthy : bool;
  LastHealthCheck : Time;
  ProcessedCount : Z;
  ErrorCount : Z
}.

Record AnalysisResult : Type := mkAnalysisResult {
  PacketID : string;
  AnalyzerID : string;
  Success : bool;
  ProcessedAt : Time;
  Results : list (string * JSONValue);
  Error : string
}.

(** [NewLogPacket]: the id comes from [uuid.New().String()], passed in as
    [uuid]; [RetryCount] keeps its zero value. *)
Definition NewLogPacket (uuid : string) (messages : list LogMessage) : LogPacket :=
  {| ID := uuid; Messages := messages; RetryCount := 0 |}.

(** The snapshot written at every checkpoint. *)
Record DistributorState : Type := mkDistributorState {
  Analyzers : gmap string Analyzer;
  PendingPackets : list LogPacket;
  LastCheckpoint : Time;
  TotalProcessed : Z
}.

End models.

Import models.

(** ** packet_validator.go *)

Module PacketValidator.

(** The four [fmt.Errorf] results of [ValidatePacket], with the numbers
    each message is formatted from. *)
Inductive ValidationError : Type :=
| EmptyMessages
| TooManyMessages (count maximum : Z)
| MessageTooLong (length maximum : Z)
| PacketTooLarge (size maximum : Z).

(** The [for _, msg := range packet.Messages] loop, started with the
    running [totalSize]: either the error of the first oversized message
    or the final [totalSize]. *)
Fixpoint sumSizes (msgs : list LogMessage) (totalSize : Z) : ValidationError + Z :=
  match msgs with
  | [] => inr totalSize
  | msg :: rest =>
      if GoInt.len_string (Message msg) >? config.MaxLogMessageLength
      then inl (MessageTooLong (GoInt.len_string (Message msg)) config.MaxLogMessageLength)
      else sumSizes rest (GoInt.add totalSize (GoInt.len_string (Message msg)))
  end.

(** [ValidatePacket]; [None] is the [nil] error. *)
Definition ValidatePacket (packet : LogPacket) : option ValidationError :=
  if GoInt.len (Messages packet) =? 0 then Some EmptyMessages
  else if GoInt.len (Messages packet) >? config.MaxMessagesPerPacket
  then Some (TooManyMessages (GoInt.len (Messages packet)) config.MaxMessagesPerPacket)
  else
    match sumSizes (Messages packet) 0 with
    | inl err => Some err
    | inr totalSize =>
        if totalSize >? config.MaxPacketSizeBytes
        then Some (PacketTooLarge totalSize config.MaxPacketSizeBytes)
        else None
    end.

(** The kind of an error, forgetting the formatted numbers. *)
Inductive ErrorKind : Type :=
| KEmptyMessages | KTooManyMessages | KMessageTooLong | KPacketTooLarge.

Definition kind (e : ValidationError) : ErrorKind :=
  match e with
  | EmptyMessages => KEmptyMessages
  | TooManyMessages _ _ => KTooManyMessages
  | MessageTooLong _ _ => KMessageTooLong
  | PacketTooLarge _ _ => KPacketTooLarge
  end.

(** Specification vocabulary: the exact sum of the body sizes and the
    per-message bound. *)
Definition bodyBytes (msgs : list LogMessage) : Z :=
  foldr (fun msg acc => GoInt.len_string (Message msg) + acc) 0 msgs.

Definition bodyFits (msg : LogMessage) : Prop :=
  GoInt.len_string (Message msg) <= config.MaxLogMessageLength.

#[export] Instance bodyFits_dec msg : Decision (bodyFits msg).
Proof. unfold bodyFits. apply _. Defined.

(** The three constraints of the data model on a packet. *)
Definition countOk (packet : LogPacket) : Prop :=
  1 <= GoInt.len (Messages packet) <= config.MaxMessagesPerPacket.

Definition bodiesOk (packet : LogPacket) : Prop :=
  Forall bodyFits (Messages packet).

Definition sizeOk (packet : LogPacket) : Prop :=
  bodyBytes (Messages packet) <= config.MaxPacketSizeBytes.

(** The kind of the returned error, if any. *)
Definition outcome (packet : LogPacket) : option ErrorKind :=
  kind <$> ValidatePacket packet.

(** The sizes of the bodies, in order. *)
Definition bodyLengths (msgs : list LogMessage) : list Z :=
  (fun msg => GoInt.len_string (Message msg)) <$> msgs.

End PacketValidator.

(** ** retry_handler.go *)

Module RetryHandler.

(** The anonymous struct written by [saveToDeadLetterFile]. *)
Record DeadLetterEntry : Type := mkDeadLetterEntry {
  Packet : LogPacket;
  FinalError : string;
  FailedAt : Time
}.

(** What is on disk under [config.DeadLetterFile]: nothing, bytes that
    do not parse as a JSON array, or an array of entries. *)
Inductive FileContent : Type :=
| Missing
| Corrupt
| Entries (entries : list DeadLetterEntry).

(** How the write-back ends: the file is replaced; nothing is written
    ([json.Marshal] fails or the file cannot be opened); or
    [ioutil.WriteFile] fails after it has truncated the file. *)
Inductive WriteOutcome : Type :=
| Written
| OpenFailed
| WriteFailed.

(** [ReadFile] followed by [json.Unmarshal]: both failures leave the
    slice [nil]. *)
Definition readEntries (file : FileContent) : list DeadLetterEntry :=
  match file with
  | Entries entries => entries
  | Missing | Corrupt => []
  end.

Definition maxDeadLetterEntries : Z := 10000.

(** [deadLetterEntries[len(deadLetterEntries)-maxDeadLetterEntries/2:]]
    under the guard [len(deadLetterEntries) >= maxDeadLetterEntries]. *)
Definition rotate (entries : list DeadLetterEntry) : list DeadLetterEntry :=
  if GoInt.len entries >=? maxDeadLetterEntries
  then drop (Z.to_nat (GoInt.len entries - maxDeadLetterEntries / 2)) entries
  else entries.

Definition saveToDeadLetterFile (now : Time) (wr : WriteOutcome)
    (file : FileContent) (packet : LogPacket) (finalError : string) : FileContent :=
  let deadLetterEntry :=
    {| Packet := packet; FinalError := finalError; FailedAt := now |} in
  let deadLetterEntries := rotate (readEntries file) ++ [deadLetterEntry] in
  match wr with
  | Written => Entries deadLetterEntries
  | OpenFailed => file
  | WriteFailed => Corrupt
  end.

(** The handler: the tracked packets, the retry channel, and the retry
    goroutines started so far, each with its packet and its delay in
    nanoseconds. *)
Record t : Type := mk {
  packetMap : gmap string LogPacket;
  retryChannel : list LogPacket;
  scheduled : list (LogPacket * Z)
}.

Definition NewRetryHandler : t :=
  {| packetMap := ∅; retryChannel := []; scheduled := [] |}.

Definition TrackPacket (r : t) (packet : LogPacket) : t :=
  {| packetMap := <[ID packet := packet]> (packetMap r);
     retryChannel := retryChannel r;
     scheduled := scheduled r |}.

Definition UntrackPacket (r : t) (packetID : string) : t :=
  {| packetMap := delete packetID (packetMap r);
     retryChannel := retryChannel r;
     scheduled := scheduled r |}.

(** [packet.RetryCount++] on the local copy. *)
Definition incrRetryCount (packet : LogPacket) : LogPacket :=
  {| ID := ID packet;
     Messages := Messages packet;
     RetryCount := GoInt.add (RetryCount packet) 1 |}.

(** [time.Duration(packet.RetryCount*config.RetryBackoffFactor) *
    config.BaseRetryDelay]: an [int] product, then a [Duration] product. *)
Definition backoffDuration (packet : LogPacket) : Z :=
  GoInt.mul (GoInt.mul (RetryCount packet) config.RetryBackoffFactor)
            config.BaseRetryDelay.

Definition HandleFailedPacket (now : Time) (wr : WriteOutcome)
    (r : t) (file : FileContent) (result : AnalysisResult) : t * FileContent :=
  match packetMap r !! PacketID result with
  | None => (r, file)
  | Some packet =>
      if RetryCount packet <? config.MaxRetries then
        let packet := incrRetryCount packet in
        ({| packetMap := <[PacketID result := packet]> (packetMap r);
            retryChannel := retryChannel r;
            scheduled := scheduled r ++ [(packet, backoffDuration packet)] |},
         file)
      else
        ({| packetMap := delete (PacketID result) (packetMap r);
            retryChannel := retryChannel r;
            scheduled := scheduled r |},
         saveToDeadLetterFile now wr file packet (Error result))
  end.

(** The branch taken by the two nested [select]s of
    [scheduleRetryWithCleanup]. *)
Inductive TimerOutcome : Type :=
| Fired_Sent
| Fired_ContextDone
| Fired_ChannelFull
| Aborted.

(** The oldest retry goroutine runs to completion. *)
Definition scheduleRetryWithCleanup (o : TimerOutcome) (r : t) : t :=
  match scheduled r with
  | [] => r
  | (packet, _) :: rest =>
      {| packetMap := packetMap r;
         retryChannel :=
           match o with
           | Fired_Sent => retryChannel r ++ [packet]
           | _ => retryChannel r
           end;
         scheduled := rest |}
  end.

(** The branch taken by the inner [select] of [ProcessRetries]. *)
Inductive ResubmitOutcome : Type :=
| Resubmitted
| ResubmitTimedOut
| ResubmitContextDone.

(** One round of the [ProcessRetries] loop that receives a packet. *)
Definition ProcessRetries_step (o : ResubmitOutcome) (r : t)
    (packetChannel : list LogPacket) : t * list LogPacket :=
  match retryChannel r with
  | [] => (r, packetChannel)
  | packet :: rest =>
      ({| packetMap := <[ID packet := packet]> (packetMap r);
          retryChannel := rest;
          scheduled := scheduled r |},
       match o with
       | Resubmitted => packetChannel ++ [packet]
       | _ => packetChannel
       end)
  end.

(** The same result is handed to [HandleFailedPacket] [n] times in a row. *)
Fixpoint failTimes (n : nat) (now : Time) (wr : WriteOutcome)
    (r : t) (file : FileContent) (result : AnalysisResult) : t * FileContent :=
  match n with
  | O => (r, file)
  | S k =>
      let '(r', file') := HandleFailedPacket now wr r file result in
      failTimes k now wr r' file' result
  end.

(** The delays of the retry goroutines started so far. *)
Definition delays (r : t) : list Z := snd <$> scheduled r.

(** The number of entries a reader finds in the store. *)
Definition storeSize (file : FileContent) : Z := GoInt.len (readEntries file).

(** A run of the save operation: one packet, error, clock value and
    write outcome per append. *)
Definition saveAll (appends : list (Time * WriteOutcome * LogPacket * string))
    (file : FileContent) : FileContent :=
  foldl (fun f '(now, wr, packet, finalError) =>
           saveToDeadLetterFile now wr f packet finalError)
        file appends.

End RetryHandler.

(** ** distributor.go: the submission path *)

Module Distributor.

Record t : Type := mk {
  retryHandler : RetryHandler.t;
  packetChannel : list LogPacket;
  totalPacketsReceived : Z
}.

(** The three errors of [SubmitPacket]. *)
Inductive SubmitError : Type :=
| ValidationFailed (err : PacketValidator.ValidationError)
| QueueFull
| ShuttingDown.

(** The branch taken by the [select] of [SubmitPacket]. *)
Inductive SelectOutcome : Type :=
| Enqueued
| TimedOut
| ContextDone.

(** [SubmitPacket]; the first component is the returned error, [None]
    for [nil]. *)
Definition SubmitPacket (o : SelectOutcome) (d : t) (packet : LogPacket)
    : option SubmitError * t :=
  match PacketValidator.ValidatePacket packet with
  | Some err => (Some (ValidationFailed err), d)
  | None =>
      let rh := RetryHandler.TrackPacket (retryHandler d) packet in
      let total := GoInt.add (totalPacketsReceived d) 1 in
      match o with
      | Enqueued =>
          (None,
           {| retryHandler := rh;
              packetChannel := packetChannel d ++ [packet];
              totalPacketsReceived := total |})
      | TimedOut =>
          (Some QueueFull,
           {| retryHandler := RetryHandler.UntrackPacket rh (ID packet);
              packetChannel := packetChannel d;
              totalPacketsReceived := total |})
      | ContextDone =>
          (Some ShuttingDown,
           {| retryHandler := rh;
              packetChannel := packetChannel d;
              totalPacketsReceived := total |})
      end
  end.

Definition inFlight (d : t) : gmap string LogPacket :=
  RetryHandler.packetMap (retryHandler d).

End Distributor.

(** ** api/handlers.go: the submission loop of [SubmitLogs] *)

Module api.

Record Tally : Type := mkTally {
  successCount : Z;
  failCount : Z;
  processedPackets : list string
}.

(** [if packets[i].ID == "" { packets[i] = models.NewLogPacket(...) }] *)
Definition assignID (uuid : string) (packet : LogPacket) : LogPacket :=
  if String.eqb (ID packet) "" then NewLogPacket uuid (Messages packet)
  else packet.

(** The body of the [for i := range packets] loop.  [uuid] is the string
    [uuid.New()] would return in this round, [o] the branch
    [SubmitPacket] takes. *)
Definition SubmitLogs_body (uuid : string) (o : Distributor.SelectOutcome)
    (d : Distributor.t) (tally : Tally) (packet : LogPacket)
    : Distributor.t * Tally :=
  if GoInt.len (Messages packet) =? 0 then
    (d, {| successCount := successCount tally;
           failCount := GoInt.add (failCount tally) 1;
           processedPackets := processedPackets tally |})
  else
    let packet := assignID uuid packet in
    match Distributor.SubmitPacket o d packet with
    | (Some _, d') =>
        (d', {| successCount := successCount tally;
                failCount := GoInt.add (failCount tally) 1;
                processedPackets := processedPackets tally |})
    | (None, d') =>
        (d', {| successCount := GoInt.add (successCount tally) 1;
                failCount := failCount tally;
                processedPackets := processedPackets tally ++ [ID packet] |})
    end.

(** The whole loop, with one [(uuid, outcome)] pair per packet. *)
Fixpoint SubmitLogs_loop (rounds : list (string * Distributor.SelectOutcome * LogPacket))
    (d : Distributor.t) (tally : Tally) : Distributor.t * Tally :=
  match rounds with
  | [] => (d, tally)
  | (uuid, o, packet) :: rest =>
      let '(d', tally') := SubmitLogs_body uuid o d tally packet in
      SubmitLogs_loop rest d' tally'
  end.

End api.

(** ** load_balancer.go *)

Module LoadBalancer.

Record t : Type := mk {
  analyzers : gmap string Analyzer;
  currentWeights : gmap string float64.t;
  originalWeights : gmap string float64.t
}.

(** Reading a Go map: a missing key yields the zero value. *)
Definition weightOf (m : gmap string float64.t) (id : string) : float64.t :=
  default float64.zero (m !! id).

(** [its] is the sequence in which a [range] over the analyzers map
    visits its entries: every entry once, in an order chosen by the
    runtime. *)
Definition iterationOf (m : gmap string Analyzer) (its : list Analyzer) : Prop :=
  Permutation its (snd <$> map_to_list m).

Definition NewLoadBalancer (its : list Analyzer) (analyzers : gmap string Analyzer) : t :=
  {| analyzers := analyzers;
     currentWeights :=
       foldl (fun cw a => <[analyzer_ID a := Weight a]> cw) ∅ its;
     originalWeights :=
       foldl (fun ow a => <[analyzer_ID a := Weight a]> ow) ∅ its |}.

(** First loop of [SelectAnalyzer]: the healthy analyzers in visiting
    order and the [float64] sum of their original weights, in a single
    pass. *)
Definition scanHealthy (originalWeights : gmap string float64.t) (its : list Analyzer)
    : list Analyzer * float64.t :=
  foldl (fun '(healthyAnalyzers, totalWeight) analyzer =>
           if IsHealthy analyzer
           then (healthyAnalyzers ++ [analyzer],
                 float64.add totalWeight (weightOf originalWeights (analyzer_ID analyzer)))
           else (healthyAnalyzers, totalWeight))
        ([], float64.zero) its.

(** Second loop: [lb.currentWeights[analyzer.ID] += lb.originalWeights[analyzer.ID]]. *)
Definition bumpWeights (originalWeights : gmap string float64.t)
    (healthyAnalyzers : list Analyzer) (currentWeights : gmap string float64.t)
    : gmap string float64.t :=
  foldl (fun cw analyzer =>
           <[analyzer_ID analyzer :=
               float64.add (weightOf cw (analyzer_ID analyzer))
                           (weightOf originalWeights (analyzer_ID analyzer))]> cw)
        currentWeights healthyAnalyzers.

(** Third loop: the running [selectedAnalyzer] and [maxWeight]. *)
Definition pickMax (currentWeights : gmap string float64.t)
    (healthyAnalyzers : list Analyzer)
    (start : option Analyzer * float64.t) : option Analyzer * float64.t :=
  foldl (fun '(selectedAnalyzer, maxWeight) analyzer =>
           let currentWeight := weightOf currentWeights (analyzer_ID analyzer) in
           if float64.gtb currentWeight maxWeight
           then (Some analyzer, currentWeight)
           else (selectedAnalyzer, maxWeight))
        start healthyAnalyzers.

(** [SelectAnalyzer]: the returned pointer ([None] for [nil]) and the
    balancer afterwards. *)
Definition SelectAnalyzer (its : list Analyzer) (lb : t) : option Analyzer * t :=
  if (size (analyzers lb) =? 0)%nat then (None, lb)
  else
    let '(healthyAnalyzers, totalWeight) := scanHealthy (originalWeights lb) its in
    if (GoInt.len healthyAnalyzers =? 0) || float64.eqb totalWeight float64.zero
    then (None, lb)
    else
      let cw := bumpWeights (originalWeights lb) healthyAnalyzers (currentWeights lb) in
      let '(selectedAnalyzer, _) := pickMax cw healthyAnalyzers (None, float64.ofZ (-1)) in
      match selectedAnalyzer with
      | Some selected =>
          (Some selected,
           {| analyzers := analyzers lb;
              currentWeights :=
                <[analyzer_ID selected :=
                    float64.sub (weightOf cw (analyzer_ID selected)) totalWeight]> cw;
              originalWeights := originalWeights lb |})
      | None =>
          (None,
           {| analyzers := analyzers lb;
              currentWeights := cw;
              originalWeights := originalWeights lb |})
      end.

Definition UpdateWeights (its : list Analyzer) (lb : t) : t :=
  {| analyzers := analyzers lb;
     currentWeights :=
       foldl (fun cw analyzer =>
                if IsHealthy analyzer
                then <[analyzer_ID analyzer :=
                         weightOf (originalWeights lb) (analyzer_ID analyzer)]> cw
                else cw)
             (currentWeights lb) its;
     originalWeights := originalWeights lb |}.

(** [checkAnalyzerHealth] of health_monitor.go writes the outcome of its
    probe into the analyzer, which the balancer sees through the pointer
    it shares with the monitor. *)
Definition probed (isHealthy : bool) (now : Time) (a : Analyzer) : Analyzer :=
  {| analyzer_ID := analyzer_ID a;
     Name := Name a;
     Weight := Weight a;
     ProcessingTimeMs := ProcessingTimeMs a;
     IsHealthy := isHealthy;
     LastHealthCheck := now;
     ProcessedCount := ProcessedCount a;
     ErrorCount := ErrorCount a |}.


(** Specification vocabulary. *)

(** Every analyzer is stored under its own id, as every registry of the
    repository is built. *)
Definition keyedByID (m : gmap string Analyzer) : Prop :=
  forall key a, m !! key = Some a -> analyzer_ID a = key.

(** The set H, in visiting order. *)
Definition healthy (its : list Analyzer) : list Analyzer :=
  List.filter IsHealthy its.

(** A [float64] sum as the code forms it: from zero, left to right. *)
Definition fsum (l : list float64.t) : float64.t := foldl float64.add float64.zero l.

(** The sum W of the original weights of H, as the first loop computes
    it on the visit [its]. *)
Definition totalOriginal (lb : t) (its : list Analyzer) : float64.t :=
  fsum ((fun a => weightOf (originalWeights lb) (analyzer_ID a)) <$> healthy its).

(** The [float64] sum of the current weights of H, in the same order. *)
Definition totalCurrent (lb : t) (its : list Analyzer) : float64.t :=
  fsum ((fun a => weightOf (currentWeights lb) (analyzer_ID a)) <$> healthy its).

(** The current weight of [a] once the second loop has run. *)
Definition bumped (lb : t) (a : Analyzer) : float64.t :=
  float64.add (weightOf (currentWeights lb) (analyzer_ID a))
              (weightOf (originalWeights lb) (analyzer_ID a)).

(** The sum of the current weights of H as a number: the exact sum of
    the values the [float64]s stand for. *)
Definition Qsum (l : list Q) : Q := foldr Qplus 0%Q l.


(** The exact sum of the original weights of H. *)
Definition exactOriginal (lb : t) (its : list Analyzer) : Q :=
  Qsum ((fun a => float64.toQ (weightOf (originalWeights lb) (analyzer_ID a)))
          <$> healthy its).

(** A call rounds nothing: the total of the first loop, each addition of
    the second loop and the subtraction from the selected analyzer are
    finite and exact. *)
Definition exactCall (its : list Analyzer) (lb : t) : Prop :=
  float64.exact (totalOriginal lb its) (exactOriginal lb its)
  /\ Forall (fun a =>
               float64.exact (bumped lb a)
                 (float64.toQ (weightOf (currentWeights lb) (analyzer_ID a))
                  + float64.toQ (weightOf (originalWeights lb) (analyzer_ID a)))%Q)
            (healthy its)
  /\ match (SelectAnalyzer its lb).1 with
     | Some j =>
         float64.exact (float64.sub (bumped lb j) (totalOriginal lb its))
           (float64.toQ (bumped lb j) - float64.toQ (totalOriginal lb its))%Q
     | None => True
     end.

(** A run of successful selections, one visiting order per call; [None]
    as soon as one call returns no analyzer. *)
Fixpoint selectMany (orders : list (list Analyzer)) (lb : t) : option (list Analyzer * t) :=
  match orders with
  | [] => Some ([], lb)
  | its :: rest =>
      match SelectAnalyzer its lb with
      | (Some a, lb') =>
          match selectMany rest lb' with
          | Some (picked, lb'') => Some (a :: picked, lb'')
          | None => None
          end
      | (None, _) => None
      end
  end.

(** Every call of a run rounds nothing. *)
Fixpoint exactRun (orders : list (list Analyzer)) (lb : t) : Prop :=
  match orders with
  | [] => True
  | its :: rest => exactCall its lb /\ exactRun rest (SelectAnalyzer its lb).2
  end.

(** How often the analyzer with the id of [a] occurs among the picked. *)
Definition timesPicked (a : Analyzer) (picked : list Analyzer) : nat :=
  length (List.filter (fun j => String.eqb (analyzer_ID j) (analyzer_ID a)) picked).

(** A natural number as a rational. *)
Definition ofNat (n : nat) : Q := inject_Z (Z.of_nat n).

End LoadBalancer.

(** ** Sample values

    Concrete packets, results and components, in the style of the
    repository's tests. *)

Module Samples.

Definition message : LogMessage :=
  {| msg_ID := "msg1"; Timestamp := 0; Level := "INFO";
     Message := "test"; Source := "test"; Metadata := [] |}.

Definition packet : LogPacket :=
  {| ID := "pkt-1"; Messages := [message]; RetryCount := 0 |}.

(** The same packet once its three retries are spent. *)
Definition exhausted : LogPacket :=
  {| ID := "pkt-1"; Messages := [message]; RetryCount := 3 |}.

(** A packet submitted without an id. *)
Definition anonymous : LogPacket :=
  {| ID := ""; Messages := [message]; RetryCount := 0 |}.

Definition uuid : string := "6ba7b810-9dad-11d1-80b4-00c04fd430c8".

Definition failure : AnalysisResult :=
  {| PacketID := "pkt-1"; AnalyzerID := "analyzer-a1"; Success := false;
     ProcessedAt := 0; Results := []; Error := "simulated processing error" |}.

Definition freshDistributor : Distributor.t :=
  {| Distributor.retryHandler := RetryHandler.NewRetryHandler;
     Distributor.packetChannel := [];
     Distributor.totalPacketsReceived := 0 |}.

Definition emptyTally : api.Tally :=
  {| api.successCount := 0; api.failCount := 0; api.processedPackets := [] |}.

(** Two healthy analyzers of equal weight. *)
Definition analyzerA : Analyzer :=
  {| analyzer_ID := "a"; Name := "Analyzer A"; Weight := float64.ofRatio 1 2;
     ProcessingTimeMs := 1; IsHealthy := true; LastHealthCheck := 0;
     ProcessedCount := 0; ErrorCount := 0 |}.

Definition analyzerB : Analyzer :=
  {| analyzer_ID := "b"; Name := "Analyzer B"; Weight := float64.ofRatio 1 2;
     ProcessingTimeMs := 1; IsHealthy := true; LastHealthCheck := 0;
     ProcessedCount := 0; ErrorCount := 0 |}.

Definition registry : gmap string Analyzer :=
  <["a" := analyzerA]> (<["b" := analyzerB]> ∅).

Definition balancer : LoadBalancer.t :=
  LoadBalancer.NewLoadBalancer [analyzerA; analyzerB] registry.






(** The registry of [createDistributor]: the analyzers of
    [config.GetDefaultAnalyzers], healthy, visited in the order of their
    ids. *)
Definition stockAnalyzer (id name : string) (n : Z) (ms : Z) : Analyzer :=
  {| analyzer_ID := id; Name := name; Weight := float64.ofRatio n 10;
     ProcessingTimeMs := ms; IsHealthy := true; LastHealthCheck := 0;
     ProcessedCount := 0; ErrorCount := 0 |}.

Definition stock : list Analyzer :=
  [stockAnalyzer "analyzer-a1" "Analyzer A" 4 100;
   stockAnalyzer "analyzer-a2" "Analyzer B" 3 150;
   stockAnalyzer "analyzer-a3" "Analyzer C" 2 80;
   stockAnalyzer "analyzer-a4" "Analyzer D" 1 200].

Definition stockRegistry : gmap string Analyzer :=
  list_to_map ((fun a => (analyzer_ID a, a)) <$> stock).

Definition stockBalancer : LoadBalancer.t :=
  LoadBalancer.NewLoadBalancer stock stockRegistry.


End Samples.

(** ** The fixtures of the repository's tests *)

Module tests.

(** [string(make([]byte, n))] *)
Fixpoint zeroBytes (n : nat) : string :=
  match n with
  | O => EmptyString
  | S k => String Ascii.zero (zeroBytes k)
  end.

Definition messageOf (body : string) : LogMessage :=
  {| msg_ID := "msg"; Timestamp := 0; Level := "INFO";
     Message := body; Source := "test"; Metadata := [] |}.

Definition packetOf (messages : list LogMessage) : LogPacket :=
  {| ID := "test"; Messages := messages; RetryCount := 0 |}.

Definition analyzerOf (id : string) (weight : float64.t) (isHealthy : bool) : Analyzer :=
  {| analyzer_ID := id; Name := id; Weight := weight;
     ProcessingTimeMs := 0; IsHealthy := isHealthy; LastHealthCheck := 0;
     ProcessedCount := 0; ErrorCount := 0 |}.

(** [TestLoadBalancer_WeightedSelection] *)
Definition weighted : list Analyzer :=
  [analyzerOf "analyzer-1" (float64.ofRatio 6 10) true; analyzerOf "analyzer-2" (float64.ofRatio 4 10) true].

Definition weightedBalancer : LoadBalancer.t :=
  LoadBalancer.NewLoadBalancer weighted
    (<["analyzer-1" := analyzerOf "analyzer-1" (float64.ofRatio 6 10) true]>
       (<["analyzer-2" := analyzerOf "analyzer-2" (float64.ofRatio 4 10) true]> ∅)).

(** [TestLoadBalancer_HealthyOnly] *)
Definition mixed : list Analyzer :=
  [analyzerOf "healthy" (float64.ofRatio 1 2) true; analyzerOf "unhealthy" (float64.ofRatio 1 2) false].

Definition mixedBalancer : LoadBalancer.t :=
  LoadBalancer.NewLoadBalancer mixed
    (<["healthy" := analyzerOf "healthy" (float64.ofRatio 1 2) true]>
       (<["unhealthy" := analyzerOf "unhealthy" (float64.ofRatio 1 2) false]> ∅)).

(** The ids returned by [n] calls of [SelectAnalyzer] that all visit the
    map in the order [its]. *)
Definition picks (n : nat) (its : list Analyzer) (lb : LoadBalancer.t) : option (list string) :=
  match LoadBalancer.selectMany (replicate n its) lb with
  | Some (picked, _) => Some (analyzer_ID <$> picked)
  | None => None
  end.

Definition countOf (id : string) (ids : list string) : nat :=
  length (List.filter (String.eqb id) ids).

End tests.

(** ** retry_handler.go: the read-only operations *)

Module RetryQueries.

(** A [range] over the packet map visits every tracked packet once. *)
Definition iterationOf (m : gmap string LogPacket) (its : list LogPacket) : Prop :=
  Permutation its (snd <$> map_to_list m).

(** [GetTrackedPackets]: the packets are appended in visiting order. *)
Definition GetTrackedPackets (its : list LogPacket) : list LogPacket :=
  foldl (fun packets packet => packets ++ [packet]) [] its.

(** [GetFailedPacketsCount]: the [int64] sum of the error counters of the
    visited analyzers. *)
Definition GetFailedPacketsCount (its : list Analyzer) : Z :=
  foldl (fun totalErrors analyzer => GoInt.add totalErrors (ErrorCount analyzer)) 0 its.

(** Specification vocabulary: the exact sum of the error counters. *)
Definition errorSum (its : list Analyzer) : Z :=
  foldr (fun a acc => ErrorCount a + acc) 0 its.

(** Every packet is stored under its own id. *)
Definition keyedByID (m : gmap string LogPacket) : Prop :=
  forall key packet, m !! key = Some packet -> ID packet = key.

(** Every tracked packet has a retry count in the range of the data
    model. *)
Definition withinBudget (m : gmap string LogPacket) : Prop :=
  forall key packet,
    m !! key = Some packet -> 0 <= RetryCount packet <= config.MaxRetries.

End RetryQueries.

(** ** packet_processor.go *)

Module PacketProcessor.

(** How [encoding/json] writes a Go [int] and a Go [string]. *)
Record Encoder : Type := mkEncoder {
  ofInt : Z -> JSONValue;
  ofString : string -> JSONValue
}.

(** [ProcessPacket].  [success] is the outcome of
    [rand.Float64() > config.AnalyzerFailureRate], [now] the clock; the
    second component is the analyzer behind the pointer afterwards. *)
Definition ProcessPacket (enc : Encoder) (success : bool) (now : Time)
    (analyzer : Analyzer) (packet : LogPacket) : AnalysisResult * Analyzer :=
  if success then
    ({| PacketID := ID packet;
        AnalyzerID := analyzer_ID analyzer;
        Success := true;
        ProcessedAt := now;
        Results :=
          [("processed_messages"%string, ofInt enc (GoInt.len (Messages packet)));
           ("analyzer_type"%string, ofString enc (Name analyzer));
           ("processing_time_ms"%string, ofInt enc (ProcessingTimeMs analyzer))];
        Error := "" |},
     {| analyzer_ID := analyzer_ID analyzer;
        Name := Name analyzer;
        Weight := Weight analyzer;
        ProcessingTimeMs := ProcessingTimeMs analyzer;
        IsHealthy := IsHealthy analyzer;
        LastHealthCheck := LastHealthCheck analyzer;
        ProcessedCount := GoInt.add (ProcessedCount analyzer) 1;
        ErrorCount := ErrorCount analyzer |})
  else
    ({| PacketID := ID packet;
        AnalyzerID := analyzer_ID analyzer;
        Success := false;
        ProcessedAt := now;
        Results := [];
        Error := "simulated processing error" |},
     {| analyzer_ID := analyzer_ID analyzer;
        Name := Name analyzer;
        Weight := Weight analyzer;
        ProcessingTimeMs := ProcessingTimeMs analyzer;
        IsHealthy := IsHealthy analyzer;
        LastHealthCheck := LastHealthCheck analyzer;
        ProcessedCount := ProcessedCount analyzer;
        ErrorCount := GoInt.add (ErrorCount analyzer) 1 |}).

End PacketProcessor.

(** ** health_monitor.go *)

Module HealthMonitor.

(** One round of [checkAnalyzerHealth].  [probes] lists, in visiting
    order, the key of each analyzer with the outcome of
    [rand.Float64() > config.HealthFailureRate] and the clock read for
    it.  The result is [healthChanged] and the analyzers afterwards. *)
Definition checkAnalyzerHealth (probes : list (string * bool * Time))
    (analyzers : gmap string Analyzer) : bool * gmap string Analyzer :=
  foldl (fun '(healthChanged, m) '(key, isHealthy, now) =>
           match m !! key with
           | Some analyzer =>
               (healthChanged || negb (Bool.eqb (IsHealthy analyzer) isHealthy),
                <[key := LoadBalancer.probed isHealthy now analyzer]> m)
           | None => (healthChanged, m)
           end)
        (false, analyzers) probes.

(** One tick of [healthChecker] with the callback the distributor
    installs, [d.loadBalancer.UpdateWeights]; [its] is the order in which
    the callback then visits the analyzers. *)
Definition tick (probes : list (string * bool * Time)) (its : list Analyzer)
    (lb : LoadBalancer.t) : LoadBalancer.t :=
  let '(healthChanged, m) := checkAnalyzerHealth probes (LoadBalancer.analyzers lb) in
  let lb' := {| LoadBalancer.analyzers := m;
                LoadBalancer.currentWeights := LoadBalancer.currentWeights lb;
                LoadBalancer.originalWeights := LoadBalancer.originalWeights lb |} in
  if healthChanged then LoadBalancer.UpdateWeights its lb' else lb'.

(** Each analyzer is probed once. *)
Definition probesOf (m : gmap string Analyzer) (probes : list (string * bool * Time)) : Prop :=
  Permutation (fst <$> (fst <$> probes)) (fst <$> map_to_list m).

End HealthMonitor.

(** ** distributor.go: workers, snapshot and recovery *)

Module Pipeline.

(** The distributor with what its workers touch: its own analyzers map
    (filled by [initializeAnalyzers]), the injected load balancer, whose
    registry holds the analyzers that are selected and processed, the
    [sendToAnalyzer] goroutines started and not yet run (the key of the
    analyzer pointed to, and the packet), the results queue, the routed
    counter, the dead-letter file and the running flag. *)
Record t : Type := mk {
  distributor : Distributor.t;
  analyzers : gmap string Analyzer;
  loadBalancer : LoadBalancer.t;
  dispatched : list (string * LogPacket);
  resultChannel : list AnalysisResult;
  totalMessagesRouted : Z;
  deadLetterFile : RetryHandler.FileContent;
  isRunning : bool
}.

Definition withDistributor (d : Distributor.t) (st : t) : t :=
  {| distributor := d; analyzers := analyzers st; loadBalancer := loadBalancer st;
     dispatched := dispatched st; resultChannel := resultChannel st;
     totalMessagesRouted := totalMessagesRouted st;
     deadLetterFile := deadLetterFile st; isRunning := isRunning st |}.

Definition withRetryHandler (r : RetryHandler.t) (st : t) : t :=
  withDistributor
    {| Distributor.retryHandler := r;
       Distributor.packetChannel := Distributor.packetChannel (distributor st);
       Distributor.totalPacketsReceived := Distributor.totalPacketsReceived (distributor st) |}
    st.

Definition withPacketChannel (ch : list LogPacket) (st : t) : t :=
  withDistributor
    {| Distributor.retryHandler := Distributor.retryHandler (distributor st);
       Distributor.packetChannel := ch;
       Distributor.totalPacketsReceived := Distributor.totalPacketsReceived (distributor st) |}
    st.

Definition withLoadBalancer (lb : LoadBalancer.t) (st : t) : t :=
  {| distributor := distributor st; analyzers := analyzers st; loadBalancer := lb;
     dispatched := dispatched st; resultChannel := resultChannel st;
     totalMessagesRouted := totalMessagesRouted st;
     deadLetterFile := deadLetterFile st; isRunning := isRunning st |}.

Definition retryHandler (st : t) : RetryHandler.t :=
  Distributor.retryHandler (distributor st).

Definition packetChannel (st : t) : list LogPacket :=
  Distributor.packetChannel (distributor st).

(** [d.retryHandler.HandleFailedPacket(result)], the handler writing to
    the dead-letter file. *)
Definition handleFailure (now : Time) (wr : RetryHandler.WriteOutcome)
    (result : AnalysisResult) (st : t) : t :=
  let '(r, file) :=
    RetryHandler.HandleFailedPacket now wr (retryHandler st) (deadLetterFile st) result in
  let st' := withRetryHandler r st in
  {| distributor := distributor st'; analyzers := analyzers st';
     loadBalancer := loadBalancer st'; dispatched := dispatched st';
     resultChannel := resultChannel st';
     totalMessagesRouted := totalMessagesRouted st';
     deadLetterFile := file; isRunning := isRunning st' |}.

(** The branch taken by the two nested [select]s of
    [requeuePacketWithDelay]. *)
Inductive RequeueOutcome : Type :=
| Requeue_Sent
| Requeue_ContextDone
| Requeue_QueueFull
| Requeue_Aborted.

Definition requeuePacketWithDelay (o : RequeueOutcome) (st : t) (packet : LogPacket) : t :=
  match o with
  | Requeue_Sent => withPacketChannel (packetChannel st ++ [packet]) st
  | _ => st
  end.

(** [distributePacket]: [its] is the order in which [SelectAnalyzer]
    visits its registry. *)
Definition distributePacket (its : list Analyzer) (o : RequeueOutcome)
    (st : t) (packet : LogPacket) : t :=
  match LoadBalancer.SelectAnalyzer its (loadBalancer st) with
  | (None, lb) => requeuePacketWithDelay o (withLoadBalancer lb st) packet
  | (Some selectedAnalyzer, lb) =>
      {| distributor := distributor st; analyzers := analyzers st; loadBalancer := lb;
         dispatched := dispatched st ++ [(analyzer_ID selectedAnalyzer, packet)];
         resultChannel := resultChannel st;
         totalMessagesRouted :=
           GoInt.add (totalMessagesRouted st) (GoInt.len (Messages packet));
         deadLetterFile := deadLetterFile st; isRunning := isRunning st |}
  end.

(** One round of the [processPackets] loop that receives a packet. *)
Definition processPackets_step (its : list Analyzer) (o : RequeueOutcome) (st : t) : t :=
  match packetChannel st with
  | [] => st
  | packet :: rest => distributePacket its o (withPacketChannel rest st) packet
  end.

(** The branch taken by the [select] of [sendToAnalyzer]. *)
Inductive DeliveryOutcome : Type :=
| Delivered
| Delivery_ContextDone
| Delivery_TimedOut.

Definition failureResult (packet : LogPacket) (analyzer : Analyzer)
    (now : Time) (error : string) : AnalysisResult :=
  {| PacketID := ID packet; AnalyzerID := analyzer_ID analyzer; Success := false;
     ProcessedAt := now; Results := []; Error := error |}.

(** The oldest [sendToAnalyzer] goroutine runs to completion.  The three
    clock readings are those of [ProcessPacket], of the synthesized
    failure result and of the dead-letter entry. *)
Definition sendToAnalyzer (enc : PacketProcessor.Encoder) (success : bool)
    (processedAt interruptedAt failedAt : Time)
    (o : DeliveryOutcome) (wr : RetryHandler.WriteOutcome) (st : t) : t :=
  match dispatched st with
  | [] => st
  | (key, packet) :: rest =>
      match LoadBalancer.analyzers (loadBalancer st) !! key with
      | None => st
      | Some analyzer =>
          let '(result, analyzer') :=
            PacketProcessor.ProcessPacket enc success processedAt analyzer packet in
          let lb :=
            {| LoadBalancer.analyzers :=
                 <[key := analyzer']> (LoadBalancer.analyzers (loadBalancer st));
               LoadBalancer.currentWeights := LoadBalancer.currentWeights (loadBalancer st);
               LoadBalancer.originalWeights := LoadBalancer.originalWeights (loadBalancer st) |} in
          let st' :=
            {| distributor := distributor st; analyzers := analyzers st; loadBalancer := lb;
               dispatched := rest; resultChannel := resultChannel st;
               totalMessagesRouted := totalMessagesRouted st;
               deadLetterFile := deadLetterFile st; isRunning := isRunning st |} in
          match o with
          | Delivered =>
              {| distributor := distributor st'; analyzers := analyzers st';
                 loadBalancer := loadBalancer st'; dispatched := dispatched st';
                 resultChannel := resultChannel st' ++ [result];
                 totalMessagesRouted := totalMessagesRouted st';
                 deadLetterFile := deadLetterFile st'; isRunning := isRunning st' |}
          | Delivery_ContextDone =>
              handleFailure failedAt wr
                (failureResult packet analyzer' interruptedAt
                   "processing interrupted by shutdown") st'
          | Delivery_TimedOut =>
              handleFailure failedAt wr
                (failureResult packet analyzer' interruptedAt
                   "result channel timeout - system overloaded") st'
          end
      end
  end.

(** One round of the [processResults] loop that receives a result. *)
Definition processResults_step (now : Time) (wr : RetryHandler.WriteOutcome) (st : t) : t :=
  match resultChannel st with
  | [] => st
  | result :: rest =>
      let st' :=
        {| distributor := distributor st; analyzers := analyzers st;
           loadBalancer := loadBalancer st; dispatched := dispatched st;
           resultChannel := rest;
           totalMessagesRouted := totalMessagesRouted st;
           deadLetterFile := deadLetterFile st; isRunning := isRunning st |} in
      if Success result
      then withRetryHandler (RetryHandler.UntrackPacket (retryHandler st') (PacketID result)) st'
      else handleFailure now wr result st'
  end.

(** [SubmitPacket] on the distributor inside. *)
Definition SubmitPacket (o : Distributor.SelectOutcome) (st : t) (packet : LogPacket)
    : option Distributor.SubmitError * t :=
  let '(err, d) := Distributor.SubmitPacket o (distributor st) packet in
  (err, withDistributor d st).

(** [getState]: [its] is the order in which [GetTrackedPackets] visits
    the packet map. *)
Definition getState (its : list LogPacket) (now : Time) (st : t) : DistributorState :=
  {| Analyzers := analyzers st;
     PendingPackets := RetryQueries.GetTrackedPackets its;
     LastCheckpoint := now;
     TotalProcessed := Distributor.totalPacketsReceived (distributor st) |}.

(** First loop of [recoverFromState]: the counters of a known analyzer
    grow by the snapshot's, its last health check is taken over. *)
Definition restoreAnalyzer (snapshot existing : Analyzer) : Analyzer :=
  {| analyzer_ID := analyzer_ID existing;
     Name := Name existing;
     Weight := Weight existing;
     ProcessingTimeMs := ProcessingTimeMs existing;
     IsHealthy := IsHealthy existing;
     LastHealthCheck := LastHealthCheck snapshot;
     ProcessedCount := GoInt.add (ProcessedCount existing) (ProcessedCount snapshot);
     ErrorCount := GoInt.add (ErrorCount existing) (ErrorCount snapshot) |}.

Definition restoreAnalyzers (visit : list (string * Analyzer))
    (analyzers : gmap string Analyzer) : gmap string Analyzer :=
  foldl (fun m '(id, analyzer) =>
           match m !! id with
           | Some existing => <[id := restoreAnalyzer analyzer existing]> m
           | None => m
           end)
        analyzers visit.

(** Second loop: every pending packet is tracked, and enqueued while the
    packets queue has room (the [select] with a [default] runs before any
    worker is started).  The third component is [restoredCount]. *)
Definition restorePacket (acc : RetryHandler.t * list LogPacket * Z) (packet : LogPacket)
    : RetryHandler.t * list LogPacket * Z :=
  let '(r, ch, restoredCount) := acc in
  let r' := RetryHandler.TrackPacket r packet in
  if GoInt.len ch <? config.PacketChannelBuffer
  then (r', ch ++ [packet], GoInt.add restoredCount 1)
  else (r', ch, restoredCount).

Definition restorePackets (pending : list LogPacket)
    (r : RetryHandler.t) (ch : list LogPacket) : RetryHandler.t * list LogPacket * Z :=
  foldl restorePacket (r, ch, 0) pending.

(** Specification vocabulary: the packets tracked one after the other. *)
Definition trackAll (pending : list LogPacket) (r : RetryHandler.t) : RetryHandler.t :=
  foldl RetryHandler.TrackPacket r pending.

(** [recoverFromState]: [visit] is the order in which the snapshot's
    analyzers are visited. *)
Definition recoverFromState (visit : list (string * Analyzer))
    (state : DistributorState) (st : t) : t :=
  let '(r, ch, _) :=
    restorePackets (PendingPackets state) (retryHandler st) (packetChannel st) in
  {| distributor :=
       {| Distributor.retryHandler := r;
          Distributor.packetChannel := ch;
          Distributor.totalPacketsReceived := TotalProcessed state |};
     analyzers := restoreAnalyzers visit (analyzers st);
     loadBalancer := loadBalancer st; dispatched := dispatched st;
     resultChannel := resultChannel st;
     totalMessagesRouted := totalMessagesRouted st;
     deadLetterFile := deadLetterFile st; isRunning := isRunning st |}.

(** The snapshot's analyzers are visited once each. *)
Definition visitOf (m : gmap string Analyzer) (visit : list (string * Analyzer)) : Prop :=
  Permutation visit (map_to_list m).

Inductive LifecycleError : Type :=
| AlreadyRunning
| NotRunning.

Definition setRunning (b : bool) (st : t) : t :=
  {| distributor := distributor st; analyzers := analyzers st;
     loadBalancer := loadBalancer st; dispatched := dispatched st;
     resultChannel := resultChannel st;
     totalMessagesRouted := totalMessagesRouted st;
     deadLetterFile := deadLetterFile st; isRunning := b |}.

(** [Start], up to the spawning of the workers.  [recovered] is what
    [RecoverState] returns, [None] for an error, with the visiting order
    of its analyzers. *)
Definition Start (recovered : option (list (string * Analyzer) * DistributorState))
    (st : t) : option LifecycleError * t :=
  if isRunning st then (Some AlreadyRunning, st)
  else
    let st' := setRunning true st in
    match recovered with
    | None => (None, st')
    | Some (visit, state) => (None, recoverFromState visit state st')
    end.

(** [Stop], up to the cancellation of the context: the third component
    is the snapshot handed to [SaveState]. *)
Definition Stop (its : list LogPacket) (now : Time) (st : t)
    : option LifecycleError * t * option DistributorState :=
  if isRunning st
  then (None, setRunning false st, Some (getState its now (setRunning false st)))
  else (Some NotRunning, st, None).

(** A fresh pipeline around a load balancer, as [NewDistributor] leaves
    it once its own analyzers are initialized. *)
Definition fresh (analyzers : gmap string Analyzer) (lb : LoadBalancer.t) : t :=
  {| distributor :=
       {| Distributor.retryHandler := RetryHandler.NewRetryHandler;
          Distributor.packetChannel := [];
          Distributor.totalPacketsReceived := 0 |};
     analyzers := analyzers; loadBalancer := lb; dispatched := [];
     resultChannel := []; totalMessagesRouted := 0;
     deadLetterFile := RetryHandler.Missing; isRunning := false |}.

End Pipeline.

(** ** api/handlers.go: the two handlers around the pipeline *)

Module handlers.

Definition StatusOK : Z := 200.
Definition StatusAccepted : Z := 202.
Definition StatusMultiStatus : Z := 207.
Definition StatusBadRequest : Z := 400.
Definition StatusInternalServerError : Z := 500.
Definition StatusServiceUnavailable : Z := 503.

(** The body [SubmitLogs] answers with, unless the request is refused. *)
Record SubmitResponse : Type := mkSubmitResponse {
  total_packets : Z;
  successful : Z;
  failed : Z;
  processed_packets : list string
}.

(** [SubmitLogs] on a body that binds to [packets].  Each round carries
    the packet with the uuid and the [select] branch the runtime has in
    store for it.  The result is the status, the body ([None] for the two
    400 answers) and the distributor afterwards. *)
Definition SubmitLogs (rounds : list (string * Distributor.SelectOutcome * LogPacket))
    (d : Distributor.t) : Z * option SubmitResponse * Distributor.t :=
  if GoInt.len rounds =? 0 then (StatusBadRequest, None, d)
  else if GoInt.len rounds >? config.MaxMessagesPerPacket then (StatusBadRequest, None, d)
  else
    let '(d', tally) :=
      api.SubmitLogs_loop rounds d
        {| api.successCount := 0; api.failCount := 0; api.processedPackets := [] |} in
    let status :=
      if (api.failCount tally >? 0) && (api.successCount tally =? 0)
      then StatusServiceUnavailable
      else if api.failCount tally >? 0 then StatusMultiStatus
      else StatusAccepted in
    (status,
     Some {| total_packets := GoInt.len rounds;
             successful := api.successCount tally;
             failed := api.failCount tally;
             processed_packets := api.processedPackets tally |},
     d').

Definition maxEntries : Z := 100.

(** What [GetDeadLetterPackets] answers: a status and, on success, the
    count and the listed entries. *)
Definition GetDeadLetterPackets (file : RetryHandler.FileContent)
    : Z * option (Z * list RetryHandler.DeadLetterEntry) :=
  match file with
  | RetryHandler.Missing => (StatusOK, Some (0, []))
  | RetryHandler.Corrupt => (StatusInternalServerError, None)
  | RetryHandler.Entries deadLetterEntries =>
      let deadLetterEntries :=
        if GoInt.len deadLetterEntries >? maxEntries
        then drop (Z.to_nat (GoInt.len deadLetterEntries - maxEntries)) deadLetterEntries
        else deadLetterEntries in
      (StatusOK, Some (GoInt.len deadLetterEntries, deadLetterEntries))
  end.

End handlers.

(** ** Sample states of the pipeline *)

Module Fixtures.

(** A retry handler that tracks the sample packet. *)
Definition tracking : RetryHandler.t :=
  RetryHandler.TrackPacket RetryHandler.NewRetryHandler Samples.packet.

(** An encoder standing in for [encoding/json]: decimal digits for an
    [int], the characters themselves for a [string]. *)
Definition encoder : PacketProcessor.Encoder :=
  {| PacketProcessor.ofInt := fun z => DecimalString.NilZero.string_of_int (Z.to_int z);
     PacketProcessor.ofString := fun s => s |}.

(** A fresh pipeline around the sample balancer; the same once the sample
    packet is submitted; and once a worker has handed that packet to the
    selected analyzer. *)
Definition pipeline : Pipeline.t :=
  Pipeline.fresh Samples.registry Samples.balancer.

Definition submitted : Pipeline.t :=
  (Pipeline.SubmitPacket Distributor.Enqueued pipeline Samples.packet).2.

Definition handedOver : Pipeline.t :=
  Pipeline.processPackets_step [Samples.analyzerA; Samples.analyzerB]
    Pipeline.Requeue_Sent submitted.

(** A pipeline whose only analyzer is unhealthy, with the sample packet
    submitted. *)
Definition unhealthy : Analyzer := tests.analyzerOf "unhealthy" (float64.ofZ 1) false.

Definition stalled : Pipeline.t :=
  (Pipeline.SubmitPacket Distributor.Enqueued
     (Pipeline.fresh (<["unhealthy" := unhealthy]> ∅)
        (LoadBalancer.NewLoadBalancer [unhealthy] (<["unhealthy" := unhealthy]> ∅)))
     Samples.packet).2.

(** A health round that finds analyzer A down and analyzer B up, and the
    analyzers as a later visit finds them. *)
Definition probes : list (string * bool * Time) :=
  [("a"%string, false, 5); ("b"%string, true, 5)].

Definition probedVisit : list Analyzer :=
  [LoadBalancer.probed false 5 Samples.analyzerA;
   LoadBalancer.probed true 5 Samples.analyzerB].

(** A snapshot with one pending packet and the counters of analyzer A
    after seven packets. *)
Definition veteranA : Analyzer :=
  {| analyzer_ID := "a"; Name := "Analyzer A"; Weight := float64.ofRatio 1 2;
     ProcessingTimeMs := 1; IsHealthy := true; LastHealthCheck := 4;
     ProcessedCount := 7; ErrorCount := 2 |}.

Definition snapshot : DistributorState :=
  {| Analyzers := <["a" := veteranA]> ∅;
     PendingPackets := [Samples.packet];
     LastCheckpoint := 4;
     TotalProcessed := 9 |}.

End Fixtures.

(** * Properties *)

(** ** Machine integers *)

Lemma wrap64_in_range (z : Z) :
  GoInt.in_range z -> GoInt.wrap64 z = z.
Proof.
  unfold GoInt.in_range, GoInt.wrap64, GoInt.min_int64, GoInt.max_int64.
  intros Hz. rewrite Z.mod_small; lia.
Qed.

Lemma len_nonneg {A} (l : list A) : 0 <= GoInt.len l.
Proof. unfold GoInt.len. lia. Qed.

Lemma len_string_nonneg (s : string) : 0 <= GoInt.len_string s.
Proof. unfold GoInt.len_string. lia. Qed.

(** ** The packet validator *)

Section Validator.

Import PacketValidator.

Lemma bodyBytes_nonneg msgs : 0 <= bodyBytes msgs.
Proof.
  induction msgs as [|msg rest IH]; simpl; [lia|].
  pose proof (len_string_nonneg (Message msg)). lia.
Qed.

Lemma bodyBytes_bound msgs :
  Forall bodyFits msgs ->
  bodyBytes msgs <= config.MaxLogMessageLength * GoInt.len msgs.
Proof.
  unfold GoInt.len.
  induction 1 as [|msg rest Hfit _ IH]; simpl length; [simpl; lia|].
  simpl bodyBytes. unfold bodyFits in Hfit. lia.
Qed.

(** While every body fits, the loop adds the sizes without overflow. *)
Lemma sumSizes_fits msgs :
  forall totalSize,
    0 <= totalSize ->
    totalSize + config.MaxLogMessageLength * GoInt.len msgs <= GoInt.max_int64 ->
    Forall bodyFits msgs ->
    sumSizes msgs totalSize = inr (totalSize + bodyBytes msgs).
Proof.
  induction msgs as [|msg rest IH]; intros totalSize Hpos Hroom Hall.
  - simpl. f_equal. lia.
  - apply Forall_cons in Hall as [Hfit Hall].
    pose proof (len_string_nonneg (Message msg)) as Hlen.
    unfold bodyFits in Hfit.
    assert (Hcons : GoInt.len (msg :: rest) = GoInt.len rest + 1)
      by (unfold GoInt.len; simpl length; lia).
    rewrite Hcons in Hroom.
    pose proof (len_nonneg rest) as Hrest.
    unfold config.MaxLogMessageLength in *.
    simpl sumSizes.
    destruct (Z.gtb_spec (GoInt.len_string (Message msg)) config.MaxLogMessageLength)
      as [Hgt|_]; [unfold config.MaxLogMessageLength in Hgt; lia|].
    unfold GoInt.add. rewrite wrap64_in_range.
    + rewrite IH; [f_equal; simpl bodyBytes; lia|lia| |assumption].
      unfold config.MaxLogMessageLength. lia.
    + unfold GoInt.in_range, GoInt.min_int64. unfold GoInt.max_int64 in *. lia.
Qed.

(** The loop stops at the first oversized body, whatever it has summed. *)
Lemma sumSizes_too_long msgs :
  forall totalSize,
    ~ Forall bodyFits msgs ->
    exists size,
      sumSizes msgs totalSize = inl (MessageTooLong size config.MaxLogMessageLength).
Proof.
  induction msgs as [|msg rest IH]; intros totalSize Hnot.
  - exfalso. apply Hnot. constructor.
  - simpl sumSizes.
    destruct (Z.gtb_spec (GoInt.len_string (Message msg)) config.MaxLogMessageLength)
      as [Hgt|Hle].
    + eauto.
    + apply IH. intros Hrest. apply Hnot. constructor; assumption.
Qed.

(** The five ways [ValidatePacket] can end. *)
Lemma ValidatePacket_cases packet :
  (GoInt.len (Messages packet) = 0 /\ ValidatePacket packet = Some EmptyMessages)
  \/ (GoInt.len (Messages packet) > config.MaxMessagesPerPacket
      /\ ValidatePacket packet
         = Some (TooManyMessages (GoInt.len (Messages packet)) config.MaxMessagesPerPacket))
  \/ (countOk packet /\ ~ bodiesOk packet
      /\ exists size, ValidatePacket packet
                      = Some (MessageTooLong size config.MaxLogMessageLength))
  \/ (countOk packet /\ bodiesOk packet /\ ~ sizeOk packet
      /\ ValidatePacket packet
         = Some (PacketTooLarge (bodyBytes (Messages packet)) config.MaxPacketSizeBytes))
  \/ (countOk packet /\ bodiesOk packet /\ sizeOk packet
      /\ ValidatePacket packet = None).
Proof.
  unfold ValidatePacket, countOk, bodiesOk, sizeOk.
  pose proof (len_nonneg (Messages packet)) as Hn.
  destruct (Z.eqb_spec (GoInt.len (Messages packet)) 0) as [Hz|Hnz]; [by left|].
  destruct (Z.gtb_spec (GoInt.len (Messages packet)) config.MaxMessagesPerPacket)
    as [Hmany|Hfew]; [right; left; split; [lia|done]|].
  right; right.
  destruct (decide (Forall bodyFits (Messages packet))) as [Hall|Hnot].
  - right.
    rewrite sumSizes_fits; [|lia| |assumption].
    + rewrite Z.add_0_l.
      destruct (Z.gtb_spec (bodyBytes (Messages packet)) config.MaxPacketSizeBytes)
        as [Hbig|Hsmall].
      * left. repeat split; try lia; assumption.
      * right. repeat split; try lia; assumption.
    + unfold config.MaxMessagesPerPacket in Hfew.
      unfold config.MaxLogMessageLength, GoInt.max_int64. lia.
  - left. destruct (sumSizes_too_long _ 0 Hnot) as [size Hsize].
    rewrite Hsize. repeat split; try lia; eauto.
Qed.

End Validator.

(** C6.  [ValidatePacket] accepts a packet exactly when the message count
    lies in [1, MaxMessagesPerPacket], every body is at most
    [MaxLogMessageLength] bytes and the bodies sum to at most
    [MaxPacketSizeBytes]; otherwise it returns one error, decided by the
    checks in their order: [EmptyMessages] exactly when the count is zero,
    [TooManyMessages] exactly when the count exceeds the maximum,
    [MessageTooLong] exactly when the count is in range and some body is
    oversized, [PacketTooLarge] exactly when count and bodies are in range
    and the summed bodies are not. *)
Theorem ValidatePacket_accepts_iff_within_limits (packet : LogPacket) :
  (PacketValidator.ValidatePacket packet = None
   <-> PacketValidator.countOk packet /\ PacketValidator.bodiesOk packet
       /\ PacketValidator.sizeOk packet)
  /\ (PacketValidator.outcome packet = Some PacketValidator.KEmptyMessages
      <-> GoInt.len (Messages packet) = 0)
  /\ (PacketValidator.outcome packet = Some PacketValidator.KTooManyMessages
      <-> GoInt.len (Messages packet) > config.MaxMessagesPerPacket)
  /\ (PacketValidator.outcome packet = Some PacketValidator.KMessageTooLong
      <-> PacketValidator.countOk packet /\ ~ PacketValidator.bodiesOk packet)
  /\ (PacketValidator.outcome packet = Some PacketValidator.KPacketTooLarge
      <-> PacketValidator.countOk packet /\ PacketValidator.bodiesOk packet
          /\ ~ PacketValidator.sizeOk packet).
Proof.
  unfold PacketValidator.outcome.
  pose proof (len_nonneg (Messages packet)) as Hn.
  destruct (ValidatePacket_cases packet)
    as [[Hc Hv]|[[Hc Hv]|[(Hc & Hb & size & Hv)|[(Hc & Hb & Hs & Hv)|(Hc & Hb & Hs & Hv)]]]];
    rewrite Hv; simpl; unfold PacketValidator.countOk in *;
    unfold config.MaxMessagesPerPacket in *;
    repeat split; intros; try discriminate; try tauto; try lia.
Qed.

(** ** The dead-letter store *)

Section DeadLetter.

Import RetryHandler.

Lemma rotate_below entries :
  GoInt.len entries < maxDeadLetterEntries -> rotate entries = entries.
Proof.
  unfold rotate. intros Hlt.
  destruct (Z.geb_spec (GoInt.len entries) maxDeadLetterEntries); [lia|done].
Qed.

(** At or above the cap, [rotate] keeps the last 5000 entries. *)
Lemma rotate_at_cap entries :
  maxDeadLetterEntries <= GoInt.len entries ->
  exists older,
    entries = older ++ rotate entries /\ GoInt.len (rotate entries) = 5000.
Proof.
  unfold rotate. intros Hge.
  destruct (Z.geb_spec (GoInt.len entries) maxDeadLetterEntries) as [_|Hlt]; [|lia].
  exists (take (Z.to_nat (GoInt.len entries - maxDeadLetterEntries / 2)) entries).
  split; [by rewrite take_drop|].
  unfold GoInt.len in *. rewrite length_drop.
  unfold maxDeadLetterEntries in *.
  change (10000 / 2) with 5000. lia.
Qed.

Lemma rotate_bounded entries :
  GoInt.len (rotate entries) < maxDeadLetterEntries.
Proof.
  destruct (Z_lt_le_dec (GoInt.len entries) maxDeadLetterEntries) as [Hlt|Hge].
  - by rewrite rotate_below.
  - destruct (rotate_at_cap entries Hge) as (_ & _ & Hlen).
    rewrite Hlen. unfold maxDeadLetterEntries. lia.
Qed.

(** One append never leaves more than the cap behind, whatever it found. *)
Lemma saveToDeadLetterFile_bounded now wr file packet finalError :
  storeSize (saveToDeadLetterFile now wr file packet finalError)
  <= Z.max (storeSize file) maxDeadLetterEntries.
Proof.
  unfold saveToDeadLetterFile, storeSize.
  destruct wr; simpl readEntries.
  - pose proof (rotate_bounded (readEntries file)) as Hrot.
    unfold GoInt.len in *. rewrite length_app. simpl length. lia.
  - lia.
  - unfold GoInt.len, maxDeadLetterEntries. simpl. lia.
Qed.

Lemma saveAll_bounded appends :
  forall file,
    storeSize file <= maxDeadLetterEntries ->
    storeSize (saveAll appends file) <= maxDeadLetterEntries.
Proof.
  unfold saveAll.
  induction appends as [|[[[now wr] packet] finalError] rest IH]; intros file Hfile.
  - exact Hfile.
  - simpl foldl. apply IH.
    pose proof (saveToDeadLetterFile_bounded now wr file packet finalError). lia.
Qed.

End DeadLetter.

(** C8.  From an empty dead-letter store (no file, or an empty array),
    after any run of appends the store holds at most
    [maxDeadLetterEntries] = 10000 entries; and an append that finds the
    store at or above the cap keeps its 5000 most recent entries and
    writes them back followed by the new entry. *)
Theorem dead_letter_store_never_exceeds_cap
    (appends : list (Time * RetryHandler.WriteOutcome * LogPacket * string))
    (now : Time) (file : RetryHandler.FileContent)
    (packet : LogPacket) (finalError : string) :
  RetryHandler.maxDeadLetterEntries = 10000
  /\ RetryHandler.storeSize (RetryHandler.saveAll appends RetryHandler.Missing)
     <= RetryHandler.maxDeadLetterEntries
  /\ RetryHandler.storeSize (RetryHandler.saveAll appends (RetryHandler.Entries []))
     <= RetryHandler.maxDeadLetterEntries
  /\ (RetryHandler.maxDeadLetterEntries <= RetryHandler.storeSize file ->
      exists older recent,
        RetryHandler.readEntries file = older ++ recent
        /\ GoInt.len recent = 5000
        /\ RetryHandler.saveToDeadLetterFile now RetryHandler.Written file packet finalError
           = RetryHandler.Entries
               (recent ++ [RetryHandler.mkDeadLetterEntry packet finalError now])).
Proof.
  split; [reflexivity|].
  split; [apply saveAll_bounded; by vm_compute|].
  split; [apply saveAll_bounded; by vm_compute|].
  intros Hcap.
  destruct (rotate_at_cap (RetryHandler.readEntries file) Hcap) as (older & Hsplit & Hlen).
  exists older, (RetryHandler.rotate (RetryHandler.readEntries file)).
  split; [exact Hsplit|]. split; [exact Hlen|]. reflexivity.
Qed.

(** ** The retry state machine *)

Section RetryStateMachine.

Import RetryHandler.

Variables (now : Time) (wr : WriteOutcome).

Lemma HandleFailedPacket_absent r file result :
  packetMap r !! PacketID result = None ->
  HandleFailedPacket now wr r file result = (r, file).
Proof. unfold HandleFailedPacket. by intros ->. Qed.

Lemma HandleFailedPacket_retry r file result packet :
  packetMap r !! PacketID result = Some packet ->
  RetryCount packet < config.MaxRetries ->
  HandleFailedPacket now wr r file result
  = ({| packetMap := <[PacketID result := incrRetryCount packet]> (packetMap r);
        retryChannel := retryChannel r;
        scheduled := scheduled r
                     ++ [(incrRetryCount packet, backoffDuration (incrRetryCount packet))] |},
     file).
Proof.
  unfold HandleFailedPacket. intros -> Hlt.
  destruct (Z.ltb_spec (RetryCount packet) config.MaxRetries); [done|lia].
Qed.

Lemma HandleFailedPacket_exhausted r file result packet :
  packetMap r !! PacketID result = Some packet ->
  config.MaxRetries <= RetryCount packet ->
  HandleFailedPacket now wr r file result
  = ({| packetMap := delete (PacketID result) (packetMap r);
        retryChannel := retryChannel r;
        scheduled := scheduled r |},
     saveToDeadLetterFile now wr file packet (Error result)).
Proof.
  unfold HandleFailedPacket. intros -> Hge.
  destruct (Z.ltb_spec (RetryCount packet) config.MaxRetries); [lia|done].
Qed.

Lemma incrRetryCount_below packet :
  GoInt.in_range (RetryCount packet) ->
  RetryCount packet < config.MaxRetries ->
  RetryCount (incrRetryCount packet) = RetryCount packet + 1.
Proof.
  unfold incrRetryCount, GoInt.add, config.MaxRetries. simpl.
  intros Hrange Hlt. apply wrap64_in_range.
  unfold GoInt.in_range, GoInt.min_int64, GoInt.max_int64 in *. lia.
Qed.

(** Where the two products do not overflow, the delay is the plain
    product. *)
Lemma backoffDuration_exact packet :
  - 2 ^ 31 <= RetryCount packet <= 2 ^ 31 ->
  backoffDuration packet
  = RetryCount packet * config.RetryBackoffFactor * config.BaseRetryDelay.
Proof.
  unfold backoffDuration, GoInt.mul, config.RetryBackoffFactor,
    config.BaseRetryDelay, config.Second.
  intros Hrc.
  rewrite (wrap64_in_range (RetryCount packet * 2)).
  - apply wrap64_in_range.
    unfold GoInt.in_range, GoInt.min_int64, GoInt.max_int64. lia.
  - unfold GoInt.in_range, GoInt.min_int64, GoInt.max_int64. lia.
Qed.

End RetryStateMachine.

(** C3.  A failure of a tracked packet whose retry count is below
    [MaxRetries] stores the packet back with the count incremented by
    exactly one and starts one retry goroutine for it, whose delay is the
    product (new retry count) * [RetryBackoffFactor] * [BaseRetryDelay] as
    Go computes it, which is the exact product for every count from
    -2^31 on; with the stock constants, three failures in a row of a fresh
    packet are scheduled after 4s, 8s and 12s. *)
Theorem HandleFailedPacket_increments_and_schedules_backoff
    (now : Time) (wr : RetryHandler.WriteOutcome) (r : RetryHandler.t)
    (file : RetryHandler.FileContent) (result : AnalysisResult) (packet : LogPacket) :
  RetryHandler.packetMap r !! PacketID result = Some packet ->
  GoInt.in_range (RetryCount packet) ->
  RetryCount packet < config.MaxRetries ->
  RetryHandler.packetMap (RetryHandler.HandleFailedPacket now wr r file result).1
    !! PacketID result = Some (RetryHandler.incrRetryCount packet)
  /\ RetryCount (RetryHandler.incrRetryCount packet) = RetryCount packet + 1
  /\ ID (RetryHandler.incrRetryCount packet) = ID packet
  /\ Messages (RetryHandler.incrRetryCount packet) = Messages packet
  /\ RetryHandler.scheduled (RetryHandler.HandleFailedPacket now wr r file result).1
     = RetryHandler.scheduled r
       ++ [(RetryHandler.incrRetryCount packet,
            RetryHandler.backoffDuration (RetryHandler.incrRetryCount packet))]
  /\ (- 2 ^ 31 <= RetryCount packet ->
      RetryHandler.backoffDuration (RetryHandler.incrRetryCount packet)
      = (RetryCount packet + 1) * config.RetryBackoffFactor * config.BaseRetryDelay)
  /\ (RetryCount packet = 0 ->
      RetryHandler.delays (RetryHandler.failTimes 3 now wr r file result).1
      = RetryHandler.delays r
        ++ [4 * config.Second; 8 * config.Second; 12 * config.Second]).
Proof.
  intros Htracked Hrange Hlt.
  pose proof (incrRetryCount_below packet Hrange Hlt) as Hincr.
  rewrite (HandleFailedPacket_retry now wr r file result packet Htracked Hlt).
  simpl.
  split; [apply lookup_insert_eq|].
  split; [exact Hincr|].
  split; [reflexivity|]. split; [reflexivity|]. split; [reflexivity|].
  split.
  - intros Hlow. rewrite <- Hincr. apply backoffDuration_exact.
    unfold config.MaxRetries in Hlt. lia.
  - intros Hzero.
    set (p1 := RetryHandler.incrRetryCount packet).
    set (p2 := RetryHandler.incrRetryCount p1).
    set (p3 := RetryHandler.incrRetryCount p2).
    assert (H1 : RetryCount p1 = 1).
    { change (RetryCount p1) with (GoInt.add (RetryCount packet) 1).
      by rewrite Hzero. }
    assert (H2 : RetryCount p2 = 2).
    { change (RetryCount p2) with (GoInt.add (RetryCount p1) 1).
      by rewrite H1. }
    assert (H3 : RetryCount p3 = 3).
    { change (RetryCount p3) with (GoInt.add (RetryCount p2) 1).
      by rewrite H2. }
    unfold RetryHandler.failTimes.
    rewrite (HandleFailedPacket_retry now wr r file result packet Htracked Hlt).
    fold p1.
    erewrite (HandleFailedPacket_retry now wr _ file result p1);
      [|simpl; apply lookup_insert_eq|rewrite H1; by vm_compute].
    fold p2.
    erewrite (HandleFailedPacket_retry now wr _ file result p2);
      [|simpl; apply lookup_insert_eq|rewrite H2; by vm_compute].
    fold p3.
    unfold RetryHandler.delays. simpl.
    rewrite !fmap_app. simpl. rewrite <- !app_assoc. simpl.
    fold p1 p2 p3. unfold RetryHandler.backoffDuration.
    rewrite H1, H2, H3. reflexivity.
Qed.

(** C5.  What [HandleFailedPacket] does with a failed result: an unknown
    packet id changes neither the map nor the dead-letter store; a packet
    tracked with a retry count below [MaxRetries] stays in the map with the
    count incremented and the store is untouched; a packet tracked with a
    retry count equal to [MaxRetries] is removed from the map and, the
    write succeeding, an entry with that packet and the result's error
    string is appended to the store. *)
Theorem HandleFailedPacket_retries_or_dead_letters
    (now : Time) (wr : RetryHandler.WriteOutcome) (r : RetryHandler.t)
    (file : RetryHandler.FileContent) (result : AnalysisResult) :
  Success result = false ->
  (RetryHandler.packetMap r !! PacketID result = None ->
   RetryHandler.HandleFailedPacket now wr r file result = (r, file))
  /\ (forall packet,
        RetryHandler.packetMap r !! PacketID result = Some packet ->
        GoInt.in_range (RetryCount packet) ->
        RetryCount packet < config.MaxRetries ->
        RetryHandler.packetMap (RetryHandler.HandleFailedPacket now wr r file result).1
        = <[PacketID result := RetryHandler.incrRetryCount packet]> (RetryHandler.packetMap r)
        /\ RetryHandler.packetMap (RetryHandler.HandleFailedPacket now wr r file result).1
             !! PacketID result
           = Some (mkLogPacket (ID packet) (Messages packet) (RetryCount packet + 1))
        /\ (RetryHandler.HandleFailedPacket now wr r file result).2 = file)
  /\ (forall packet,
        RetryHandler.packetMap r !! PacketID result = Some packet ->
        RetryCount packet = config.MaxRetries ->
        RetryHandler.packetMap (RetryHandler.HandleFailedPacket now wr r file result).1
        = delete (PacketID result) (RetryHandler.packetMap r)
        /\ RetryHandler.packetMap (RetryHandler.HandleFailedPacket now wr r file result).1
             !! PacketID result = None
        /\ (wr = RetryHandler.Written ->
            RetryHandler.readEntries (RetryHandler.HandleFailedPacket now wr r file result).2
            = RetryHandler.rotate (RetryHandler.readEntries file)
              ++ [RetryHandler.mkDeadLetterEntry packet (Error result) now])
        /\ (wr = RetryHandler.Written ->
            RetryHandler.storeSize file < RetryHandler.maxDeadLetterEntries ->
            RetryHandler.readEntries (RetryHandler.HandleFailedPacket now wr r file result).2
            = RetryHandler.readEntries file
              ++ [RetryHandler.mkDeadLetterEntry packet (Error result) now])).
Proof.
  intros _. split; [apply HandleFailedPacket_absent|]. split.
  - intros packet Htracked Hrange Hlt.
    rewrite (HandleFailedPacket_retry now wr r file result packet Htracked Hlt).
    simpl. split; [reflexivity|]. split; [|reflexivity].
    rewrite lookup_insert_eq. f_equal.
    unfold RetryHandler.incrRetryCount. f_equal.
    apply (incrRetryCount_below packet Hrange Hlt).
  - intros packet Htracked Heq.
    rewrite (HandleFailedPacket_exhausted now wr r file result packet Htracked);
      [|lia].
    simpl. split; [reflexivity|]. split; [apply lookup_delete_eq|].
    split.
    + intros ->. reflexivity.
    + intros -> Hsmall. simpl. by rewrite rotate_below.
Qed.

(** ** Submission *)

Section Submission.

Import Distributor.

Lemma SubmitPacket_rejected o d packet err :
  PacketValidator.ValidatePacket packet = Some err ->
  SubmitPacket o d packet = (Some (ValidationFailed err), d).
Proof. unfold SubmitPacket. by intros ->. Qed.

Lemma SubmitPacket_enqueued d packet :
  PacketValidator.ValidatePacket packet = None ->
  SubmitPacket Enqueued d packet
  = (None,
     {| retryHandler := RetryHandler.TrackPacket (retryHandler d) packet;
        packetChannel := packetChannel d ++ [packet];
        totalPacketsReceived := GoInt.add (totalPacketsReceived d) 1 |}).
Proof. unfold SubmitPacket. by intros ->. Qed.

Lemma SubmitPacket_timed_out d packet :
  PacketValidator.ValidatePacket packet = None ->
  SubmitPacket TimedOut d packet
  = (Some QueueFull,
     {| retryHandler :=
          RetryHandler.UntrackPacket
            (RetryHandler.TrackPacket (retryHandler d) packet) (ID packet);
        packetChannel := packetChannel d;
        totalPacketsReceived := GoInt.add (totalPacketsReceived d) 1 |}).
Proof. unfold SubmitPacket. by intros ->. Qed.

Lemma SubmitPacket_context_done d packet :
  PacketValidator.ValidatePacket packet = None ->
  SubmitPacket ContextDone d packet
  = (Some ShuttingDown,
     {| retryHandler := RetryHandler.TrackPacket (retryHandler d) packet;
        packetChannel := packetChannel d;
        totalPacketsReceived := GoInt.add (totalPacketsReceived d) 1 |}).
Proof. unfold SubmitPacket. by intros ->. Qed.

(** The half of the atomicity property that the code keeps: after a
    [QueueFull] the packet is not tracked. *)
Lemma SubmitPacket_queue_full_untracks d packet :
  PacketValidator.ValidatePacket packet = None ->
  (SubmitPacket TimedOut d packet).1 = Some QueueFull
  /\ inFlight (SubmitPacket TimedOut d packet).2 !! ID packet = None.
Proof.
  intros Hvalid. rewrite (SubmitPacket_timed_out d packet Hvalid).
  split; [reflexivity|]. unfold inFlight. simpl. apply lookup_delete_eq.
Qed.

(** The other half: after a [ShuttingDown] the packet is still tracked. *)
Lemma SubmitPacket_shutting_down_tracks d packet :
  PacketValidator.ValidatePacket packet = None ->
  (SubmitPacket ContextDone d packet).1 = Some ShuttingDown
  /\ inFlight (SubmitPacket ContextDone d packet).2 !! ID packet = Some packet.
Proof.
  intros Hvalid. rewrite (SubmitPacket_context_done d packet Hvalid).
  split; [reflexivity|]. unfold inFlight. simpl. apply lookup_insert_eq.
Qed.

Lemma SubmitPacket_total o d packet :
  PacketValidator.ValidatePacket packet = None ->
  totalPacketsReceived (SubmitPacket o d packet).2
  = GoInt.add (totalPacketsReceived d) 1.
Proof. unfold SubmitPacket. intros ->. by destruct o. Qed.

Lemma sample_packet_valid :
  PacketValidator.ValidatePacket Samples.packet = None.
Proof. reflexivity. Qed.

Lemma anonymous_packet_valid :
  PacketValidator.ValidatePacket Samples.anonymous = None.
Proof. reflexivity. Qed.

End Submission.

(** C1.  [SubmitPacket] evaluated on a valid packet while the context is
    cancelled: the call fails with [ShuttingDown] and the packet, which was
    not tracked before, is in the in-flight map afterwards; on the
    [QueueFull] path the same packet is untracked again. *)
Theorem SubmitPacket_shutting_down_leaves_packet_in_flight :
  PacketValidator.ValidatePacket Samples.packet = None
  /\ Distributor.inFlight Samples.freshDistributor !! ID Samples.packet = None
  /\ (Distributor.SubmitPacket Distributor.ContextDone
        Samples.freshDistributor Samples.packet).1
     = Some Distributor.ShuttingDown
  /\ Distributor.inFlight
       (Distributor.SubmitPacket Distributor.ContextDone
          Samples.freshDistributor Samples.packet).2
       !! ID Samples.packet
     = Some Samples.packet
  /\ (Distributor.SubmitPacket Distributor.TimedOut
        Samples.freshDistributor Samples.packet).1
     = Some Distributor.QueueFull
  /\ Distributor.inFlight
       (Distributor.SubmitPacket Distributor.TimedOut
          Samples.freshDistributor Samples.packet).2
       !! ID Samples.packet
     = None.
Proof.
  pose proof sample_packet_valid as Hvalid.
  split; [exact Hvalid|].
  split; [apply lookup_empty|].
  destruct (SubmitPacket_shutting_down_tracks Samples.freshDistributor _ Hvalid)
    as [Herr Htracked].
  destruct (SubmitPacket_queue_full_untracks Samples.freshDistributor _ Hvalid)
    as [Herr' Huntracked].
  repeat split; assumption.
Qed.

(** C2, as stated, fails: a valid packet whose submission times out is
    rejected with [QueueFull] and yet the counter has moved from 0 to 1. *)
Lemma SubmitPacket_counts_a_rejected_packet :
  PacketValidator.ValidatePacket Samples.packet = None
  /\ (Distributor.SubmitPacket Distributor.TimedOut
        Samples.freshDistributor Samples.packet).1
     = Some Distributor.QueueFull
  /\ Distributor.totalPacketsReceived Samples.freshDistributor = 0
  /\ Distributor.totalPacketsReceived
       (Distributor.SubmitPacket Distributor.TimedOut
          Samples.freshDistributor Samples.packet).2
     = 1.
Proof. repeat split. Qed.

(** C2, amended.  For every packet that passes validation, [SubmitPacket]
    adds one to [totalPacketsReceived] right after tracking the packet,
    whichever way the call then ends (ok, [QueueFull] or [ShuttingDown]);
    only a packet that fails validation leaves the counter, and the whole
    distributor, unchanged. *)
Theorem SubmitPacket_counts_every_validated_packet
    (o : Distributor.SelectOutcome) (d : Distributor.t) (packet : LogPacket) :
  (PacketValidator.ValidatePacket packet = None ->
   Distributor.totalPacketsReceived (Distributor.SubmitPacket o d packet).2
   = GoInt.add (Distributor.totalPacketsReceived d) 1
   /\ (GoInt.in_range (Distributor.totalPacketsReceived d) ->
       Distributor.totalPacketsReceived d < GoInt.max_int64 ->
       Distributor.totalPacketsReceived (Distributor.SubmitPacket o d packet).2
       = Distributor.totalPacketsReceived d + 1))
  /\ (forall err,
        PacketValidator.ValidatePacket packet = Some err ->
        Distributor.SubmitPacket o d packet
        = (Some (Distributor.ValidationFailed err), d)).
Proof.
  split.
  - intros Hvalid. rewrite (SubmitPacket_total o d packet Hvalid).
    split; [reflexivity|]. intros Hrange Hmax.
    unfold GoInt.add. apply wrap64_in_range.
    unfold GoInt.in_range, GoInt.min_int64, GoInt.max_int64 in *. lia.
  - intros err. apply SubmitPacket_rejected.
Qed.

(** C7, as stated, fails: [SubmitPacket] given a valid packet with an
    empty id tracks it under the empty key and enqueues it as it is. *)
Lemma SubmitPacket_keeps_an_empty_id :
  ID Samples.anonymous = ""%string
  /\ (Distributor.SubmitPacket Distributor.Enqueued
        Samples.freshDistributor Samples.anonymous).1 = None
  /\ Distributor.inFlight
       (Distributor.SubmitPacket Distributor.Enqueued
          Samples.freshDistributor Samples.anonymous).2 !! ""%string
     = Some Samples.anonymous
  /\ Distributor.packetChannel
       (Distributor.SubmitPacket Distributor.Enqueued
          Samples.freshDistributor Samples.anonymous).2
     = [Samples.anonymous].
Proof.
  rewrite (SubmitPacket_enqueued _ _ anonymous_packet_valid).
  split; [reflexivity|]. split; [reflexivity|]. split; [|reflexivity].
  unfold Distributor.inFlight. simpl. apply lookup_insert_eq.
Qed.

(** C7, amended.  [SubmitPacket] never assigns an id: an accepted packet
    enters the in-flight map and the packets queue under the id it
    carries.  The id is assigned one level up: for a packet with an empty
    id and at least one message, the loop of [SubmitLogs] submits
    [NewLogPacket] of its messages instead, whose id is the generated
    uuid, so that through the handler the packet is tracked and enqueued
    under that uuid, which is non-empty whenever the generator's string
    is. *)
Theorem SubmitLogs_assigns_the_id_before_SubmitPacket
    (uuid : string) (d : Distributor.t) (tally : api.Tally) (packet : LogPacket) :
  ID packet = ""%string ->
  uuid <> ""%string ->
  PacketValidator.ValidatePacket packet = None ->
  (forall d0 p,
     PacketValidator.ValidatePacket p = None ->
     Distributor.inFlight (Distributor.SubmitPacket Distributor.Enqueued d0 p).2 !! ID p
     = Some p
     /\ Distributor.packetChannel (Distributor.SubmitPacket Distributor.Enqueued d0 p).2
        = Distributor.packetChannel d0 ++ [p])
  /\ api.assignID uuid packet = NewLogPacket uuid (Messages packet)
  /\ ID (api.assignID uuid packet) <> ""%string
  /\ api.SubmitLogs_body uuid Distributor.Enqueued d tally packet
     = ((Distributor.SubmitPacket Distributor.Enqueued d
           (NewLogPacket uuid (Messages packet))).2,
        {| api.successCount := GoInt.add (api.successCount tally) 1;
           api.failCount := api.failCount tally;
           api.processedPackets := api.processedPackets tally ++ [uuid] |})
  /\ Distributor.inFlight
       (api.SubmitLogs_body uuid Distributor.Enqueued d tally packet).1 !! uuid
     = Some (NewLogPacket uuid (Messages packet))
  /\ Distributor.packetChannel
       (api.SubmitLogs_body uuid Distributor.Enqueued d tally packet).1
     = Distributor.packetChannel d ++ [NewLogPacket uuid (Messages packet)].
Proof.
  intros Hid Huuid Hvalid.
  assert (Hgeneric : forall d0 p,
     PacketValidator.ValidatePacket p = None ->
     Distributor.inFlight (Distributor.SubmitPacket Distributor.Enqueued d0 p).2 !! ID p
     = Some p
     /\ Distributor.packetChannel (Distributor.SubmitPacket Distributor.Enqueued d0 p).2
        = Distributor.packetChannel d0 ++ [p]).
  { intros d0 p Hp. rewrite (SubmitPacket_enqueued d0 p Hp).
    split; [|reflexivity]. unfold Distributor.inFlight. simpl.
    apply lookup_insert_eq. }
  assert (Hassign : api.assignID uuid packet = NewLogPacket uuid (Messages packet)).
  { unfold api.assignID. by rewrite Hid. }
  assert (Hvalid' : PacketValidator.ValidatePacket (NewLogPacket uuid (Messages packet)) = None).
  { exact Hvalid. }
  assert (Hnonempty : (GoInt.len (Messages packet) =? 0) = false).
  { destruct (ValidatePacket_cases packet) as [[Hz Hv]|_]; [congruence|].
    revert Hvalid. unfold PacketValidator.ValidatePacket.
    by destruct (GoInt.len (Messages packet) =? 0). }
  assert (Hbody : api.SubmitLogs_body uuid Distributor.Enqueued d tally packet
     = ((Distributor.SubmitPacket Distributor.Enqueued d
           (NewLogPacket uuid (Messages packet))).2,
        {| api.successCount := GoInt.add (api.successCount tally) 1;
           api.failCount := api.failCount tally;
           api.processedPackets := api.processedPackets tally ++ [uuid] |})).
  { unfold api.SubmitLogs_body. rewrite Hnonempty, Hassign.
    by rewrite (SubmitPacket_enqueued d _ Hvalid'). }
  split; [exact Hgeneric|]. split; [exact Hassign|].
  split; [by rewrite Hassign|]. split; [exact Hbody|].
  rewrite Hbody. simpl.
  destruct (Hgeneric d _ Hvalid') as [Hmap Hchan]. split; assumption.
Qed.

(** ** [float64] comparisons *)

Section Float.

Import float64.

Implicit Types x y z : float64.t.

(** A comparison that holds has no NaN on either side. *)
Lemma gtb_not_NaN x y : gtb x y = true -> isNaN x = false /\ isNaN y = false.
Proof. by destruct x, y. Qed.

Ltac order_cases :=
  change (Pos.compare_cont Eq) with Pos.compare in *;
  repeat match goal with
         | |- context [(?a ?= ?b)%Z] => destruct (Z.compare_spec a b); subst
         | H : context [(?a ?= ?b)%Z] |- _ => destruct (Z.compare_spec a b); subst
         | |- context [(?a ?= ?b)%positive] => destruct (Pos.compare_spec a b); subst
         | H : context [(?a ?= ?b)%positive] |- _ => destruct (Pos.compare_spec a b); subst
         end;
  cbn in *; first [done | lia | tauto].

(** [x < y < z] gives [x < z]. *)
Lemma gtb_trans x y z : gtb y x = true -> gtb z y = true -> gtb z x = true.
Proof.
  unfold gtb, SFltb.
  destruct x as [sx|sx| |sx mx ex], y as [sy|sy| |sy my ey], z as [sz|sz| |sz mz ez];
    try destruct sx; try destruct sy; try destruct sz; cbn; try done;
    intros H1 H2; order_cases.
Qed.

(** [a] not above [m] and [m < j] give [a < j], unless [a] is a NaN. *)
Lemma gtb_false_trans a m j :
  gtb a m = false -> isNaN m = false -> gtb j m = true ->
  gtb j a = true \/ isNaN a = true.
Proof.
  unfold gtb, SFltb.
  destruct a as [sa|sa| |sa ma ea], m as [sm|sm| |sm mm em], j as [sj|sj| |sj mj ej];
    try destruct sa; try destruct sm; try destruct sj; cbn; try done;
    try (intros; by right); try (intros; by left);
    intros H1 H2 H3; left; order_cases.
Qed.

Lemma gtb_irrefl x : gtb x x = false.
Proof.
  unfold gtb, SFltb.
  destruct x as [[]|[]| |[] m e]; cbn; try done;
    by rewrite Z.compare_refl, Pos.compare_cont_refl.
Qed.

Lemma gtb_asym x y : gtb x y = true -> gtb y x = false.
Proof.
  intros Hgt. destruct (gtb y x) eqn:Hback; [|done].
  by rewrite <- (gtb_irrefl x), <- (gtb_trans x y x Hback Hgt).
Qed.

Lemma gtb_NaN x y : isNaN x = true -> gtb x y = false.
Proof. destruct x; try done. by destruct y. Qed.

End Float.

(** ** Weighted selection *)

Section Selection.

Import LoadBalancer.

Implicit Types (a j : Analyzer) (cw ow : gmap string float64.t) (H its : list Analyzer).

(** *** Rational sums *)

Local Open Scope Q_scope.

Lemma Qsum_cons (x : Q) (l : list Q) : Qsum (x :: l) = x + Qsum l.
Proof. reflexivity. Qed.


Lemma Qsum_perm (l1 l2 : list Q) : Permutation l1 l2 -> Qsum l1 == Qsum l2.
Proof.
  induction 1 as [|x l1 l2 _ IH|x y l|l1 l2 l3 _ IH1 _ IH2].
  - reflexivity.
  - rewrite !Qsum_cons, IH. reflexivity.
  - rewrite !Qsum_cons. lra.
  - rewrite IH1. exact IH2.
Qed.



Local Close Scope Q_scope.

(** *** The three loops *)

(** The running [totalWeight] of the first loop. *)
Lemma scanHealthy_acc ow its :
  forall healthyAnalyzers totalWeight,
    foldl (fun '(hs, total) analyzer =>
             if IsHealthy analyzer
             then (hs ++ [analyzer],
                   float64.add total (weightOf ow (analyzer_ID analyzer)))
             else (hs, total))
          (healthyAnalyzers, totalWeight) its
    = (healthyAnalyzers ++ healthy its,
       foldl float64.add totalWeight
             ((fun a => weightOf ow (analyzer_ID a)) <$> healthy its)).
Proof.
  induction its as [|a its IH]; intros hs total; simpl.
  - by rewrite app_nil_r.
  - destruct (IsHealthy a); simpl; rewrite IH; [|done].
    by rewrite <- app_assoc.
Qed.

Lemma scanHealthy_spec lb its :
  scanHealthy (originalWeights lb) its = (healthy its, totalOriginal lb its).
Proof. unfold scanHealthy. by rewrite scanHealthy_acc. Qed.

(** After the second loop every listed id has gained its original weight
    once, the ids being distinct; the other ids are untouched. *)
Lemma bumpWeights_lookup ow H :
  NoDup (analyzer_ID <$> H) ->
  forall cw id,
    weightOf (bumpWeights ow H cw) id
    = if decide (id ∈ analyzer_ID <$> H)
      then float64.add (weightOf cw id) (weightOf ow id)
      else weightOf cw id.
Proof.
  unfold bumpWeights.
  induction H as [|a H IH]; intros Hnodup cw id.
  - rewrite decide_False; [done|]. apply not_elem_of_nil.
  - rewrite fmap_cons in Hnodup. apply NoDup_cons in Hnodup as [Hfresh Hnodup].
    simpl foldl. rewrite (IH Hnodup). rewrite fmap_cons.
    destruct (decide (id = analyzer_ID a)) as [->|Hne].
    + rewrite (decide_False (P := analyzer_ID a ∈ analyzer_ID <$> H)); [|done].
      rewrite decide_True; [|by left].
      unfold weightOf at 1. by rewrite lookup_insert_eq.
    + assert (Hlook : forall v, weightOf (<[analyzer_ID a := v]> cw) id = weightOf cw id).
      { intros v. unfold weightOf. by rewrite lookup_insert_ne. }
      rewrite !Hlook.
      destruct (decide (id ∈ analyzer_ID <$> H)) as [Hin|Hout].
      * rewrite decide_True; [done|by right].
      * rewrite decide_False; [done|].
        intros Hcons. apply elem_of_cons in Hcons as [?|?]; done.
Qed.

(** The third loop either never beats the starting maximum, or ends on
    the first analyzer, in visiting order, whose weight no other one
    exceeds; a NaN beats nothing. *)
Lemma pickMax_spec cw H :
  forall selected0 max0,
    float64.isNaN max0 = false ->
    (Forall (fun a => float64.gtb (weightOf cw (analyzer_ID a)) max0 = false) H
     /\ pickMax cw H (selected0, max0) = (selected0, max0))
    \/ (exists before j after,
          H = before ++ j :: after
          /\ pickMax cw H (selected0, max0) = (Some j, weightOf cw (analyzer_ID j))
          /\ float64.gtb (weightOf cw (analyzer_ID j)) max0 = true
          /\ Forall (fun a =>
                       float64.gtb (weightOf cw (analyzer_ID j))
                                   (weightOf cw (analyzer_ID a)) = true
                       \/ float64.isNaN (weightOf cw (analyzer_ID a)) = true) before
          /\ Forall (fun a =>
                       float64.gtb (weightOf cw (analyzer_ID a))
                                   (weightOf cw (analyzer_ID j)) = false) after).
Proof.
  unfold pickMax.
  induction H as [|a H IH]; intros selected0 max0 Hmax.
  - left. split; [constructor|done].
  - simpl foldl.
    destruct (float64.gtb (weightOf cw (analyzer_ID a)) max0) eqn:Hcmp.
    + destruct (gtb_not_NaN _ _ Hcmp) as [Ha _].
      destruct (IH (Some a) (weightOf cw (analyzer_ID a)) Ha)
        as [[Hall Hres]|(before & j & after & Hsplit & Hres & Hlt & Hbefore & Hafter)].
      * right. exists [], a, H.
        split; [done|]. split; [exact Hres|]. split; [exact Hcmp|].
        split; [constructor|exact Hall].
      * right. exists (a :: before), j, after.
        split; [by rewrite Hsplit|]. split; [exact Hres|].
        split; [by apply (gtb_trans _ (weightOf cw (analyzer_ID a)))|].
        split; [constructor; [by left|exact Hbefore]|exact Hafter].
    + destruct (IH selected0 max0 Hmax)
        as [[Hall Hres]|(before & j & after & Hsplit & Hres & Hlt & Hbefore & Hafter)].
      * left. split; [by constructor|exact Hres].
      * right. exists (a :: before), j, after.
        split; [by rewrite Hsplit|]. split; [exact Hres|]. split; [exact Hlt|].
        split; [|exact Hafter].
        constructor; [|exact Hbefore].
        by apply (gtb_false_trans _ max0).
Qed.

(** *** The registry and its visits *)

Lemma healthy_elem_of its a :
  a ∈ healthy its <-> a ∈ its /\ IsHealthy a = true.
Proof.
  unfold healthy. rewrite !list_elem_of_In. apply filter_In.
Qed.

Lemma healthy_perm its its' :
  Permutation its its' -> Permutation (healthy its) (healthy its').
Proof.
  unfold healthy.
  induction 1 as [|x l1 l2 _ IH|x y l|l1 l2 l3 _ IH1 _ IH2]; simpl.
  - constructor.
  - destruct (IsHealthy x); [by constructor|done].
  - destruct (IsHealthy x), (IsHealthy y); try done; constructor.
  - by etrans.
Qed.

Lemma healthy_ids_NoDup its :
  NoDup (analyzer_ID <$> its) -> NoDup (analyzer_ID <$> healthy its).
Proof.
  unfold healthy.
  induction its as [|a its IH]; [done|].
  rewrite fmap_cons. intros [Hfresh Hnodup]%NoDup_cons. simpl.
  destruct (IsHealthy a); [|by apply IH].
  rewrite fmap_cons. apply NoDup_cons. split; [|by apply IH].
  intros Hin. apply Hfresh.
  apply list_elem_of_fmap in Hin as (b & -> & Hb).
  apply list_elem_of_fmap. exists b. split; [done|].
  apply list_elem_of_In in Hb. apply filter_In in Hb as [Hb _].
  by apply list_elem_of_In.
Qed.

(** A visit of a registry keyed by id meets distinct ids, each stored
    under itself. *)
Lemma iteration_ids m its :
  keyedByID m -> iterationOf m its ->
  NoDup (analyzer_ID <$> its)
  /\ forall a, a ∈ its -> m !! analyzer_ID a = Some a.
Proof.
  unfold keyedByID, iterationOf. intros Hkeyed Hperm.
  assert (Hids : analyzer_ID <$> (snd <$> map_to_list m) = fst <$> map_to_list m).
  { rewrite <- list_fmap_compose. apply list_fmap_ext.
    intros i [key a] Hlook. simpl. apply Hkeyed.
    apply elem_of_map_to_list. by eapply list_elem_of_lookup_2. }
  split.
  - rewrite Hperm, Hids. apply NoDup_fst_map_to_list.
  - intros a Ha. rewrite Hperm in Ha.
    apply list_elem_of_fmap in Ha as ([key b] & -> & Hin). simpl.
    apply elem_of_map_to_list in Hin. by rewrite (Hkeyed _ _ Hin).
Qed.

Lemma iteration_nonempty m its :
  iterationOf m its -> its <> [] -> (size m =? 0)%nat = false.
Proof.
  unfold iterationOf. intros Hperm Hne.
  apply Nat.eqb_neq. intros Hsize. apply Hne.
  apply map_size_empty_iff in Hsize. subst m.
  rewrite map_to_list_empty in Hperm. by apply Permutation_nil_r in Hperm.
Qed.

(** *** The whole call *)

Lemma SelectAnalyzer_analyzers its lb :
  analyzers (SelectAnalyzer its lb).2 = analyzers lb
  /\ originalWeights (SelectAnalyzer its lb).2 = originalWeights lb.
Proof.
  unfold SelectAnalyzer.
  destruct (size (analyzers lb) =? 0)%nat; [done|].
  destruct (scanHealthy (originalWeights lb) its) as [hs total].
  destruct ((GoInt.len hs =? 0)%Z || float64.eqb total float64.zero); [done|].
  destruct (pickMax _ hs _) as [[selected|] ?]; done.
Qed.

Lemma SelectAnalyzer_none lb its :
  healthy its = [] \/ float64.eqb (totalOriginal lb its) float64.zero = true ->
  SelectAnalyzer its lb = (None, lb).
Proof.
  intros Hnone. unfold SelectAnalyzer.
  destruct (size (analyzers lb) =? 0)%nat; [done|].
  rewrite scanHealthy_spec.
  destruct Hnone as [Hempty|Hzero].
  - by rewrite Hempty.
  - rewrite Hzero. by rewrite orb_true_r.
Qed.

(** Past the two guards, [SelectAnalyzer] runs its second and third
    loops. *)
Lemma SelectAnalyzer_run lb its :
  iterationOf (analyzers lb) its ->
  healthy its <> [] ->
  float64.eqb (totalOriginal lb its) float64.zero = false ->
  (Forall (fun a =>
             float64.gtb
               (weightOf (bumpWeights (originalWeights lb) (healthy its) (currentWeights lb))
                         (analyzer_ID a))
               (float64.ofZ (-1)) = false)
          (healthy its)
   /\ SelectAnalyzer its lb
      = (None,
         {| analyzers := analyzers lb;
            currentWeights :=
              bumpWeights (originalWeights lb) (healthy its) (currentWeights lb);
            originalWeights := originalWeights lb |}))
  \/ (exists before j after,
        healthy its = before ++ j :: after
        /\ SelectAnalyzer its lb
           = (Some j,
              {| analyzers := analyzers lb;
                 currentWeights :=
                   <[analyzer_ID j :=
                       float64.sub
                         (weightOf (bumpWeights (originalWeights lb) (healthy its)
                                                (currentWeights lb)) (analyzer_ID j))
                         (totalOriginal lb its)]>
                     (bumpWeights (originalWeights lb) (healthy its) (currentWeights lb));
                 originalWeights := originalWeights lb |})
        /\ float64.gtb
             (weightOf (bumpWeights (originalWeights lb) (healthy its)
                                    (currentWeights lb)) (analyzer_ID j))
             (float64.ofZ (-1)) = true
        /\ Forall (fun a =>
                     float64.gtb
                       (weightOf (bumpWeights (originalWeights lb) (healthy its)
                                              (currentWeights lb)) (analyzer_ID j))
                       (weightOf (bumpWeights (originalWeights lb) (healthy its)
                                              (currentWeights lb)) (analyzer_ID a)) = true
                     \/ float64.isNaN
                          (weightOf (bumpWeights (originalWeights lb) (healthy its)
                                                 (currentWeights lb)) (analyzer_ID a))
                        = true)
                  before
        /\ Forall (fun a =>
                     float64.gtb
                       (weightOf (bumpWeights (originalWeights lb) (healthy its)
                                              (currentWeights lb)) (analyzer_ID a))
                       (weightOf (bumpWeights (originalWeights lb) (healthy its)
                                              (currentWeights lb)) (analyzer_ID j)) = false)
                  after).
Proof.
  intros Hiter Hsome Hweight. unfold SelectAnalyzer.
  assert (Hits : its <> []).
  { intros ->. by apply Hsome. }
  rewrite (iteration_nonempty _ _ Hiter Hits).
  rewrite scanHealthy_spec.
  assert (Hlen : (GoInt.len (healthy its) =? 0)%Z = false).
  { apply Z.eqb_neq. unfold GoInt.len. destruct (healthy its); [done|simpl; lia]. }
  rewrite Hlen, Hweight. simpl orb. cbv iota.
  set (cwb := bumpWeights (originalWeights lb) (healthy its) (currentWeights lb)).
  destruct (pickMax_spec cwb (healthy its) None (float64.ofZ (-1)) eq_refl)
    as [[Hall Hres]|(before & j & after & Hsplit & Hres & Hlt & Hbefore & Hafter)];
    rewrite Hres.
  - left. split; [exact Hall|done].
  - right. exists before, j, after. repeat split; assumption.
Qed.

Lemma bumped_lookup lb its a :
  NoDup (analyzer_ID <$> healthy its) ->
  a ∈ healthy its ->
  weightOf (bumpWeights (originalWeights lb) (healthy its) (currentWeights lb))
           (analyzer_ID a)
  = bumped lb a.
Proof.
  intros Hnodup Hin. rewrite (bumpWeights_lookup _ _ Hnodup).
  rewrite decide_True; [done|]. apply list_elem_of_fmap. by exists a.
Qed.

Lemma Forall_bumped lb its (P : float64.t -> Prop) H :
  NoDup (analyzer_ID <$> healthy its) ->
  H ⊆ healthy its ->
  Forall (fun a =>
            P (weightOf (bumpWeights (originalWeights lb) (healthy its) (currentWeights lb))
                        (analyzer_ID a))) H ->
  Forall (fun a => P (bumped lb a)) H.
Proof.
  intros Hnodup Hsub Hall. apply Forall_forall. intros a Ha.
  rewrite <- (bumped_lookup lb its a Hnodup); [|by apply Hsub].
  revert a Ha. by apply Forall_forall.
Qed.


Lemma weightOf_insert_ne cw id id' v :
  id <> id' -> weightOf (<[id := v]> cw) id' = weightOf cw id'.
Proof. intros Hne. unfold weightOf. by rewrite lookup_insert_ne. Qed.

Lemma weightOf_insert_eq cw id v : weightOf (<[id := v]> cw) id = v.
Proof. unfold weightOf. by rewrite lookup_insert_eq. Qed.

(** What a successful call did, read off its three loops. *)
Lemma SelectAnalyzer_some lb its j :
  keyedByID (analyzers lb) ->
  iterationOf (analyzers lb) its ->
  (SelectAnalyzer its lb).1 = Some j ->
  j ∈ healthy its
  /\ float64.eqb (totalOriginal lb its) float64.zero = false
  /\ float64.gtb (bumped lb j) (float64.ofZ (-1)) = true
  /\ (forall a, a ∈ healthy its -> float64.gtb (bumped lb a) (bumped lb j) = false)
  /\ weightOf (currentWeights (SelectAnalyzer its lb).2) (analyzer_ID j)
     = float64.sub (bumped lb j) (totalOriginal lb its)
  /\ (forall a, a ∈ healthy its -> analyzer_ID a <> analyzer_ID j ->
                weightOf (currentWeights (SelectAnalyzer its lb).2) (analyzer_ID a)
                = bumped lb a).
Proof.
  intros Hkeyed Hiter Hsel.
  destruct (iteration_ids _ _ Hkeyed Hiter) as [Hnodup _].
  apply healthy_ids_NoDup in Hnodup.
  destruct (decide (healthy its = [])) as [Hempty|Hsome].
  { rewrite SelectAnalyzer_none in Hsel; [done|by left]. }
  destruct (float64.eqb (totalOriginal lb its) float64.zero) eqn:Hweight.
  { rewrite SelectAnalyzer_none in Hsel; [done|by right]. }
  destruct (SelectAnalyzer_run lb its Hiter Hsome Hweight)
    as [[_ Hres]|(before & j' & after & Hsplit & Hres & Hlt & Hbefore & Hafter)];
    rewrite Hres in Hsel |- *; [done|].
  injection Hsel as <-. cbn [fst snd currentWeights].
  assert (Hj : j' ∈ healthy its).
  { rewrite Hsplit. apply elem_of_app. right. by left. }
  pose proof (bumped_lookup lb its j' Hnodup Hj) as Hbj.
  split; [exact Hj|]. split; [done|]. split; [by rewrite <- Hbj|]. split.
  - intros a Ha. rewrite <- Hbj, <- (bumped_lookup lb its a Hnodup Ha).
    rewrite Hsplit in Ha. apply elem_of_app in Ha as [Ha|Ha].
    + assert (Hcase := proj1 (Forall_forall _ _) Hbefore a Ha). cbn beta in Hcase.
      destruct Hcase as [Hgt|Hnan]; [by apply gtb_asym|by apply gtb_NaN].
    + apply elem_of_cons in Ha as [->|Ha]; [apply gtb_irrefl|].
      * revert a Ha. by apply Forall_forall.
  - split.
    + by rewrite weightOf_insert_eq, Hbj.
    + intros a Ha Hne. rewrite weightOf_insert_ne; [|done]. by apply bumped_lookup.
Qed.

(** The weights of the ids outside H survive every call. *)
Lemma SelectAnalyzer_outside lb its id :
  keyedByID (analyzers lb) ->
  iterationOf (analyzers lb) its ->
  id ∉ analyzer_ID <$> healthy its ->
  weightOf (currentWeights (SelectAnalyzer its lb).2) id = weightOf (currentWeights lb) id.
Proof.
  intros Hkeyed Hiter Hout.
  destruct (iteration_ids _ _ Hkeyed Hiter) as [Hnodup _].
  apply healthy_ids_NoDup in Hnodup.
  destruct (decide (healthy its = [])) as [Hempty|Hsome].
  { rewrite SelectAnalyzer_none; [done|by left]. }
  destruct (float64.eqb (totalOriginal lb its) float64.zero) eqn:Hweight.
  { rewrite SelectAnalyzer_none; [done|by right]. }
  destruct (SelectAnalyzer_run lb its Hiter Hsome Hweight)
    as [[_ Hres]|(before & j & after & Hsplit & Hres & _)];
    rewrite Hres; cbn [snd currentWeights].
  - rewrite (bumpWeights_lookup _ _ Hnodup). by rewrite decide_False.
  - rewrite weightOf_insert_ne.
    + rewrite (bumpWeights_lookup _ _ Hnodup). by rewrite decide_False.
    + intros <-. apply Hout. apply list_elem_of_fmap_2.
      rewrite Hsplit. apply elem_of_app. right. by left.
Qed.

End Selection.

Section Conservation.

Import LoadBalancer.

Implicit Types (a j : Analyzer) (cw ow : gmap string float64.t) (H its : list Analyzer).

Local Open Scope Q_scope.



End Conservation.




Lemma stock_registry_visit :
  LoadBalancer.iterationOf Samples.stockRegistry Samples.stock.
Proof.
  unfold LoadBalancer.iterationOf.
  replace (map_to_list Samples.stockRegistry).*2
    with [Samples.stockAnalyzer "analyzer-a3" "Analyzer C" 2 80;
          Samples.stockAnalyzer "analyzer-a1" "Analyzer A" 4 100;
          Samples.stockAnalyzer "analyzer-a2" "Analyzer B" 3 150;
          Samples.stockAnalyzer "analyzer-a4" "Analyzer D" 1 200]
    by (vm_compute; reflexivity).
  symmetry.
  apply (Permutation_cons_app
           [Samples.stockAnalyzer "analyzer-a1" "Analyzer A" 4 100;
            Samples.stockAnalyzer "analyzer-a2" "Analyzer B" 3 150]
           [Samples.stockAnalyzer "analyzer-a4" "Analyzer D" 1 200]).
  reflexivity.
Qed.




(** ** The repository's tests, replayed on the embedding *)

(** [TestPacketValidator_EmptyPacket] *)
Example TestPacketValidator_EmptyPacket :
  PacketValidator.ValidatePacket (tests.packetOf [])
  = Some PacketValidator.EmptyMessages.
Proof. reflexivity. Qed.

(** [TestPacketValidator_OversizedMessage] *)
Example TestPacketValidator_OversizedMessage :
  PacketValidator.ValidatePacket
    (tests.packetOf
       [tests.messageOf (tests.zeroBytes (Z.to_nat (config.MaxLogMessageLength + 1)))])
  = Some (PacketValidator.MessageTooLong 10001 10000).
Proof. vm_compute. reflexivity. Qed.

(** [TestPacketValidator_TooManyMessages] *)
Example TestPacketValidator_TooManyMessages :
  PacketValidator.ValidatePacket
    (tests.packetOf
       (replicate (Z.to_nat (config.MaxMessagesPerPacket + 1)) (tests.messageOf "test")))
  = Some (PacketValidator.TooManyMessages 1001 1000).
Proof. vm_compute. reflexivity. Qed.

(** [TestPacketValidator_PacketTooLarge]: 210 messages of 5000 bytes. *)
Example TestPacketValidator_PacketTooLarge :
  PacketValidator.ValidatePacket
    (tests.packetOf
       (replicate
          (Z.to_nat (config.MaxPacketSizeBytes / (config.MaxLogMessageLength / 2) + 1))
          (tests.messageOf (tests.zeroBytes (Z.to_nat (config.MaxLogMessageLength / 2))))))
  = Some (PacketValidator.PacketTooLarge 1050000 1048576).
Proof. vm_compute. reflexivity. Qed.

(** [TestRetryHandler_TrackUntrack] *)
Example TestRetryHandler_TrackUntrack :
  size (RetryHandler.packetMap
          (RetryHandler.TrackPacket RetryHandler.NewRetryHandler Samples.packet)) = 1%nat
  /\ size (RetryHandler.packetMap
             (RetryHandler.UntrackPacket
                (RetryHandler.TrackPacket RetryHandler.NewRetryHandler Samples.packet)
                (ID Samples.packet))) = 0%nat.
Proof. split; vm_compute; reflexivity. Qed.

(** [TestRetryHandler_HandleFailedPacket]: still tracked after one failure. *)
Example TestRetryHandler_HandleFailedPacket :
  size (RetryHandler.packetMap
          (RetryHandler.HandleFailedPacket 0 RetryHandler.Written
             (RetryHandler.TrackPacket RetryHandler.NewRetryHandler Samples.packet)
             RetryHandler.Missing Samples.failure).1) = 1%nat.
Proof. vm_compute. reflexivity. Qed.

(** [TestLoadBalancer_WeightedSelection]: of 100 selections, weights 0.6
    and 0.4 get 60 and 40. *)
Example TestLoadBalancer_WeightedSelection :
  option_map (fun ids => (tests.countOf "analyzer-1" ids, tests.countOf "analyzer-2" ids))
             (tests.picks 100 tests.weighted tests.weightedBalancer)
  = Some (60%nat, 40%nat).
Proof. vm_compute. reflexivity. Qed.

(** The first ten of them: rounding has analyzer-2 picked on the fourth
    call, where exact arithmetic ties the two and returns the first
    visited. *)
Example TestLoadBalancer_WeightedSelection_first_ten :
  tests.picks 10 tests.weighted tests.weightedBalancer
  = Some ["analyzer-1"; "analyzer-2"; "analyzer-1"; "analyzer-2"; "analyzer-1";
          "analyzer-1"; "analyzer-2"; "analyzer-1"; "analyzer-2"; "analyzer-1"]%string.
Proof. vm_compute. reflexivity. Qed.

(** The decimal constants of the source as [float64] values. *)
Example float64_constants :
  float64.ofRatio 4 10 = S754_finite false 7205759403792794 (-54)
  /\ float64.ofRatio 3 10 = S754_finite false 5404319552844595 (-54)
  /\ float64.ofRatio 2 10 = S754_finite false 7205759403792794 (-55)
  /\ float64.ofRatio 1 10 = S754_finite false 7205759403792794 (-56)
  /\ float64.ofRatio 1 2 = S754_finite false 4503599627370496 (-53)
  /\ float64.ofZ 1 = S754_finite false 4503599627370496 (-52)
  /\ float64.ofZ (-1) = S754_finite true 4503599627370496 (-52).
Proof. repeat split; vm_compute; reflexivity. Qed.

(** [TestLoadBalancer_HealthyOnly] *)
Example TestLoadBalancer_HealthyOnly :
  tests.picks 10 tests.mixed tests.mixedBalancer = Some (replicate 10 "healthy"%string).
Proof. vm_compute. reflexivity. Qed.

(** [TestLoadBalancer_NoHealthyAnalyzers] *)
Example TestLoadBalancer_NoHealthyAnalyzers :
  (LoadBalancer.SelectAnalyzer [tests.analyzerOf "unhealthy" (float64.ofZ 1) false]
     (LoadBalancer.NewLoadBalancer [tests.analyzerOf "unhealthy" (float64.ofZ 1) false]
        (<["unhealthy" := tests.analyzerOf "unhealthy" (float64.ofZ 1) false]> ∅))).1
  = None.
Proof. vm_compute. reflexivity. Qed.

(** ** The theorems at concrete inputs *)

Lemma sample_registry_keyed : LoadBalancer.keyedByID Samples.registry.
Proof.
  intros key a. unfold Samples.registry.
  rewrite lookup_insert. case_decide as Ha; [intros [= <-]; by rewrite <- Ha|].
  rewrite lookup_insert. case_decide as Hb; [intros [= <-]; by rewrite <- Hb|].
  by rewrite lookup_empty.
Qed.

Lemma sample_registry_visit :
  LoadBalancer.iterationOf Samples.registry [Samples.analyzerA; Samples.analyzerB].
Proof.
  unfold LoadBalancer.iterationOf.
  replace (map_to_list Samples.registry).*2
    with [Samples.analyzerA; Samples.analyzerB] by (vm_compute; reflexivity).
  reflexivity.
Qed.

(** C2, amended, at the sample packet: the counter of a fresh distributor
    reads 1 after an accepted submission. *)
Lemma SubmitPacket_counts_every_validated_packet_witness :
  Distributor.totalPacketsReceived
    (Distributor.SubmitPacket Distributor.Enqueued
       Samples.freshDistributor Samples.packet).2 = 1.
Proof.
  destruct (SubmitPacket_counts_every_validated_packet
              Distributor.Enqueued Samples.freshDistributor Samples.packet)
    as [Hcount _].
  destruct (Hcount ltac:(reflexivity)) as [_ Hplain].
  apply Hplain; vm_compute; [split; discriminate|reflexivity].
Defined.

(** C3 at the sample packet: three failures in a row wait 4s, 8s, 12s. *)
Lemma HandleFailedPacket_increments_and_schedules_backoff_witness :
  RetryHandler.delays
    (RetryHandler.failTimes 3 0 RetryHandler.Written
       (RetryHandler.TrackPacket RetryHandler.NewRetryHandler Samples.packet)
       RetryHandler.Missing Samples.failure).1
  = [4000000000; 8000000000; 12000000000].
Proof.
  destruct (HandleFailedPacket_increments_and_schedules_backoff
              0 RetryHandler.Written
              (RetryHandler.TrackPacket RetryHandler.NewRetryHandler Samples.packet)
              RetryHandler.Missing Samples.failure Samples.packet)
    as (_ & _ & _ & _ & _ & _ & Hseq).
  - vm_compute. reflexivity.
  - vm_compute. split; discriminate.
  - vm_compute. reflexivity.
  - exact (Hseq eq_refl).
Defined.


(** C5 at the sample packet with its retries spent: the packet leaves the
    map and its entry is the only one in a store that did not exist. *)
Lemma HandleFailedPacket_retries_or_dead_letters_witness :
  RetryHandler.packetMap
    (RetryHandler.HandleFailedPacket 7 RetryHandler.Written
       (RetryHandler.TrackPacket RetryHandler.NewRetryHandler Samples.exhausted)
       RetryHandler.Missing Samples.failure).1 !! "pkt-1"%string = None
  /\ RetryHandler.readEntries
       (RetryHandler.HandleFailedPacket 7 RetryHandler.Written
          (RetryHandler.TrackPacket RetryHandler.NewRetryHandler Samples.exhausted)
          RetryHandler.Missing Samples.failure).2
     = [RetryHandler.mkDeadLetterEntry Samples.exhausted
          "simulated processing error" 7].
Proof.
  destruct (HandleFailedPacket_retries_or_dead_letters
              7 RetryHandler.Written
              (RetryHandler.TrackPacket RetryHandler.NewRetryHandler Samples.exhausted)
              RetryHandler.Missing Samples.failure)
    as (_ & _ & Hdead).
  - reflexivity.
  - destruct (Hdead Samples.exhausted) as (_ & Hgone & _ & Hstore).
    + vm_compute. reflexivity.
    + reflexivity.
    + split; [exact Hgone|]. apply Hstore; [reflexivity|vm_compute; reflexivity].
Defined.

(** C7, amended, at the sample packet without id: through the handler it
    is tracked under the generated uuid. *)
Lemma SubmitLogs_assigns_the_id_before_SubmitPacket_witness :
  Distributor.inFlight
    (api.SubmitLogs_body Samples.uuid Distributor.Enqueued
       Samples.freshDistributor Samples.emptyTally Samples.anonymous).1
    !! Samples.uuid
  = Some (NewLogPacket Samples.uuid [Samples.message]).
Proof.
  destruct (SubmitLogs_assigns_the_id_before_SubmitPacket
              Samples.uuid Samples.freshDistributor Samples.emptyTally Samples.anonymous)
    as (_ & _ & _ & _ & Hmap & _).
  - reflexivity.
  - discriminate.
  - reflexivity.
  - exact Hmap.
Defined.

(** C8 at a store of exactly 10000 entries: the next append leaves 5001. *)
Lemma dead_letter_store_never_exceeds_cap_witness :
  RetryHandler.storeSize
    (RetryHandler.saveToDeadLetterFile 7 RetryHandler.Written
       (RetryHandler.Entries
          (replicate (Z.to_nat 10000) (RetryHandler.mkDeadLetterEntry Samples.exhausted "old" 1)))
       Samples.exhausted "simulated processing error")
  = 5001.
Proof.
  destruct (dead_letter_store_never_exceeds_cap [] 7
              (RetryHandler.Entries
                 (replicate (Z.to_nat 10000) (RetryHandler.mkDeadLetterEntry Samples.exhausted "old" 1)))
              Samples.exhausted "simulated processing error")
    as (_ & _ & _ & Hrotate).
  destruct Hrotate as (older & recent & _ & Hlen & Hsave).
  - vm_compute. discriminate.
  - rewrite Hsave. unfold RetryHandler.storeSize, RetryHandler.readEntries.
    unfold GoInt.len in *. rewrite length_app. simpl length. lia.
Defined.

Lemma sample_call_exact :
  LoadBalancer.exactCall [Samples.analyzerA; Samples.analyzerB] Samples.balancer.
Proof.
  split; [split; vm_compute; reflexivity|].
  split.
  - apply Forall_cons_2; [split; vm_compute; reflexivity|].
    apply Forall_cons_2; [split; vm_compute; reflexivity|]. apply Forall_nil_2.
  - vm_compute. split; reflexivity.
Qed.

(** * Further properties of the pipeline *)

(** ** Retry handler: what is tracked, and for how long *)

(** ** The retry handler as a store *)

Section Tracking.

Import RetryHandler RetryQueries.

Lemma incrRetryCount_ID packet : ID (incrRetryCount packet) = ID packet.
Proof. reflexivity. Qed.

Lemma keyedByID_insert (m : gmap string LogPacket) packet :
  keyedByID m -> keyedByID (<[ID packet := packet]> m).
Proof.
  intros Hkeyed key p. rewrite lookup_insert. case_decide as Hkey.
  - intros [= <-]. exact Hkey.
  - apply Hkeyed.
Qed.

Lemma keyedByID_delete (m : gmap string LogPacket) id :
  keyedByID m -> keyedByID (delete id m).
Proof.
  intros Hkeyed key p Hlook. apply lookup_delete_Some in Hlook as [_ Hlook].
  by apply Hkeyed.
Qed.

Lemma HandleFailedPacket_keyed now wr r file result :
  keyedByID (packetMap r) ->
  keyedByID (packetMap (HandleFailedPacket now wr r file result).1).
Proof.
  intros Hkeyed. unfold HandleFailedPacket.
  destruct (packetMap r !! PacketID result) as [packet|] eqn:Hlook; [|done].
  destruct (RetryCount packet <? config.MaxRetries); simpl.
  - rewrite <- (Hkeyed _ _ Hlook), <- (incrRetryCount_ID packet).
    by apply keyedByID_insert.
  - by apply keyedByID_delete.
Qed.

Lemma HandleFailedPacket_channel now wr r file result :
  retryChannel (HandleFailedPacket now wr r file result).1 = retryChannel r.
Proof.
  unfold HandleFailedPacket.
  destruct (packetMap r !! PacketID result) as [packet|]; [|done].
  by destruct (RetryCount packet <? config.MaxRetries).
Qed.

Lemma HandleFailedPacket_other now wr r file result id :
  id <> PacketID result ->
  packetMap (HandleFailedPacket now wr r file result).1 !! id = packetMap r !! id.
Proof.
  intros Hne. unfold HandleFailedPacket.
  destruct (packetMap r !! PacketID result) as [packet|]; [|done].
  destruct (RetryCount packet <? config.MaxRetries); simpl.
  - by rewrite lookup_insert_ne.
  - by rewrite lookup_delete_ne.
Qed.

End Tracking.

(** X1.  Every operation of the retry handler keeps each tracked packet
    stored under its own id: tracking, untracking, the handling of a
    failure, the firing of a retry timer and a round of the retry pump
    all preserve it, and it holds of a new handler. *)
Theorem retry_handler_stores_packets_under_their_ids (r : RetryHandler.t) :
  RetryQueries.keyedByID (RetryHandler.packetMap r) ->
  RetryQueries.keyedByID (RetryHandler.packetMap RetryHandler.NewRetryHandler)
  /\ (forall packet,
        RetryQueries.keyedByID
          (RetryHandler.packetMap (RetryHandler.TrackPacket r packet)))
  /\ (forall packetID,
        RetryQueries.keyedByID
          (RetryHandler.packetMap (RetryHandler.UntrackPacket r packetID)))
  /\ (forall now wr file result,
        RetryQueries.keyedByID
          (RetryHandler.packetMap
             (RetryHandler.HandleFailedPacket now wr r file result).1))
  /\ (forall o,
        RetryQueries.keyedByID
          (RetryHandler.packetMap (RetryHandler.scheduleRetryWithCleanup o r)))
  /\ (forall o packetChannel,
        RetryQueries.keyedByID
          (RetryHandler.packetMap
             (RetryHandler.ProcessRetries_step o r packetChannel).1)).
Proof.
  intros Hkeyed.
  split; [intros key p Hp; simpl in Hp; by rewrite lookup_empty in Hp|].
  split; [intros packet; by apply keyedByID_insert|].
  split; [intros packetID; by apply keyedByID_delete|].
  split; [intros now wr file result; by apply HandleFailedPacket_keyed|].
  split.
  - intros o. unfold RetryHandler.scheduleRetryWithCleanup.
    by destruct (RetryHandler.scheduled r) as [|[packet delay] rest].
  - intros o packetChannel. unfold RetryHandler.ProcessRetries_step.
    destruct (RetryHandler.retryChannel r) as [|packet rest]; [done|].
    simpl. by apply keyedByID_insert.
Qed.

(** X2.  [HandleFailedPacket] keeps every tracked retry count within
    [0, MaxRetries]; a retry it schedules carries a count between 1 and
    [MaxRetries] and waits that count times 4 seconds, so never more than
    12 seconds. *)
Theorem HandleFailedPacket_keeps_retry_counts_within_budget
    (now : Time) (wr : RetryHandler.WriteOutcome) (r : RetryHandler.t)
    (file : RetryHandler.FileContent) (result : AnalysisResult) :
  RetryQueries.withinBudget (RetryHandler.packetMap r) ->
  RetryQueries.withinBudget
    (RetryHandler.packetMap (RetryHandler.HandleFailedPacket now wr r file result).1)
  /\ (RetryHandler.scheduled (RetryHandler.HandleFailedPacket now wr r file result).1
      = RetryHandler.scheduled r
      \/ exists packet,
           RetryHandler.scheduled (RetryHandler.HandleFailedPacket now wr r file result).1
           = RetryHandler.scheduled r ++ [(packet, RetryCount packet * (4 * config.Second))]
           /\ 1 <= RetryCount packet <= config.MaxRetries
           /\ RetryCount packet * (4 * config.Second) <= 12 * config.Second).
Proof.
  intros Hbudget. unfold RetryHandler.HandleFailedPacket.
  destruct (RetryHandler.packetMap r !! PacketID result) as [packet|] eqn:Hlook;
    [|split; [done|by left]].
  pose proof (Hbudget _ _ Hlook) as Hrc.
  destruct (Z.ltb_spec (RetryCount packet) config.MaxRetries) as [Hlt|Hge]; simpl.
  - assert (Hincr : RetryCount (RetryHandler.incrRetryCount packet) = RetryCount packet + 1).
    { apply incrRetryCount_below; [|done].
      unfold GoInt.in_range, GoInt.min_int64, GoInt.max_int64, config.MaxRetries in *. lia. }
    split.
    + intros key p. rewrite lookup_insert. case_decide; [|apply Hbudget].
      intros [= <-]. rewrite Hincr. lia.
    + right. exists (RetryHandler.incrRetryCount packet).
      assert (Hdelay : RetryHandler.backoffDuration (RetryHandler.incrRetryCount packet)
                       = RetryCount (RetryHandler.incrRetryCount packet) * (4 * config.Second)).
      { rewrite backoffDuration_exact; [|rewrite Hincr; unfold config.MaxRetries in *; lia].
        unfold config.RetryBackoffFactor, config.BaseRetryDelay. lia. }
      rewrite Hdelay, Hincr.
      unfold config.MaxRetries, config.Second in *.
      split; [reflexivity|lia].
  - split; [|by left].
    intros key p Hp. apply lookup_delete_Some in Hp as [_ Hp]. by apply (Hbudget key).
Qed.

(** X3.  [HandleFailedPacket] touches nothing but the packet the result
    names: every other id keeps its entry, the retry channel is left
    alone, and the dead-letter file changes only when that packet was
    tracked and no longer is. *)
Theorem HandleFailedPacket_only_touches_the_failed_packet
    (now : Time) (wr : RetryHandler.WriteOutcome) (r : RetryHandler.t)
    (file : RetryHandler.FileContent) (result : AnalysisResult) :
  (forall packetID,
     packetID <> PacketID result ->
     RetryHandler.packetMap (RetryHandler.HandleFailedPacket now wr r file result).1
       !! packetID
     = RetryHandler.packetMap r !! packetID)
  /\ RetryHandler.retryChannel (RetryHandler.HandleFailedPacket now wr r file result).1
     = RetryHandler.retryChannel r
  /\ ((RetryHandler.HandleFailedPacket now wr r file result).2 = file
      \/ (is_Some (RetryHandler.packetMap r !! PacketID result)
          /\ RetryHandler.packetMap (RetryHandler.HandleFailedPacket now wr r file result).1
               !! PacketID result = None)).
Proof.
  split; [intros packetID; apply HandleFailedPacket_other|].
  split; [apply HandleFailedPacket_channel|].
  unfold RetryHandler.HandleFailedPacket.
  destruct (RetryHandler.packetMap r !! PacketID result) as [packet|] eqn:Hlook;
    [|by left].
  destruct (RetryCount packet <? config.MaxRetries); simpl; [by left|].
  right. split; [by eexists|apply lookup_delete_eq].
Qed.

Section RetryRuns.

Import RetryHandler.

Variables (now : Time) (wr : WriteOutcome).

(** The last of [S n] failures is handled after the first [n]. *)
Lemma failTimes_last n :
  forall r file result,
    failTimes (S n) now wr r file result
    = HandleFailedPacket now wr (failTimes n now wr r file result).1
        (failTimes n now wr r file result).2 result.
Proof.
  induction n as [|n IH]; intros r file result.
  - simpl. by destruct (HandleFailedPacket now wr r file result).
  - change (failTimes (S (S n)) now wr r file result)
      with (let '(r', file') := HandleFailedPacket now wr r file result in
            failTimes (S n) now wr r' file' result).
    destruct (HandleFailedPacket now wr r file result) as [r' file'] eqn:Hstep.
    rewrite IH. simpl. by rewrite Hstep.
Qed.

(** While the budget lasts, each failure adds one to the count and one
    retry to the schedule, and leaves the dead-letter file alone. *)
Lemma failTimes_within_budget n :
  forall r file result packet,
    packetMap r !! PacketID result = Some packet ->
    GoInt.in_range (RetryCount packet) ->
    RetryCount packet + Z.of_nat n <= config.MaxRetries ->
    packetMap (failTimes n now wr r file result).1 !! PacketID result
    = Some (mkLogPacket (ID packet) (Messages packet) (RetryCount packet + Z.of_nat n))
    /\ length (scheduled (failTimes n now wr r file result).1)
       = (length (scheduled r) + n)%nat
    /\ (failTimes n now wr r file result).2 = file.
Proof.
  induction n as [|n IH]; intros r file result packet Hlook Hrange Hroom.
  - simpl. rewrite Hlook, Z.add_0_r. split; [by destruct packet|]. split; [lia|done].
  - simpl failTimes.
    assert (Hlt : RetryCount packet < config.MaxRetries) by lia.
    rewrite (HandleFailedPacket_retry now wr r file result packet Hlook Hlt).
    pose proof (incrRetryCount_below packet Hrange Hlt) as Hincr.
    destruct (IH {| packetMap := <[PacketID result := incrRetryCount packet]> (packetMap r);
                    retryChannel := retryChannel r;
                    scheduled := scheduled r
                      ++ [(incrRetryCount packet, backoffDuration (incrRetryCount packet))] |}
                 file result (incrRetryCount packet))
      as (Hmap & Hlen & Hfile).
    + simpl. apply lookup_insert_eq.
    + rewrite Hincr. unfold GoInt.in_range, GoInt.min_int64, GoInt.max_int64,
        config.MaxRetries in *. lia.
    + rewrite Hincr. lia.
    + rewrite Hmap, Hlen, Hfile, Hincr. cbn [scheduled]. rewrite length_app.
      cbn [length ID Messages incrRetryCount].
      split; [do 2 f_equal; lia|]. split; [lia|done].
Qed.

End RetryRuns.

(** X4.  The retry budget of a tracked packet whose count does not
    exceed [MaxRetries]: each of its first [MaxRetries] - count failures
    raises the count by one, starts one retry and leaves the dead-letter
    store untouched; the next failure removes the packet and, the write
    succeeding, appends it to the store with the count [MaxRetries] and
    the error of that last result. *)
Theorem retry_budget_is_spent_then_dead_lettered
    (now : Time) (wr : RetryHandler.WriteOutcome) (r : RetryHandler.t)
    (file : RetryHandler.FileContent) (result : AnalysisResult)
    (packet : LogPacket) (n : nat) :
  RetryHandler.packetMap r !! PacketID result = Some packet ->
  GoInt.in_range (RetryCount packet) ->
  RetryCount packet + Z.of_nat n = config.MaxRetries ->
  (forall k,
     (k <= n)%nat ->
     RetryHandler.packetMap (RetryHandler.failTimes k now wr r file result).1
       !! PacketID result
     = Some (mkLogPacket (ID packet) (Messages packet) (RetryCount packet + Z.of_nat k))
     /\ length (RetryHandler.scheduled (RetryHandler.failTimes k now wr r file result).1)
        = (length (RetryHandler.scheduled r) + k)%nat
     /\ (RetryHandler.failTimes k now wr r file result).2 = file)
  /\ RetryHandler.packetMap (RetryHandler.failTimes (S n) now wr r file result).1
       !! PacketID result = None
  /\ length (RetryHandler.scheduled (RetryHandler.failTimes (S n) now wr r file result).1)
     = (length (RetryHandler.scheduled r) + n)%nat
  /\ (RetryHandler.failTimes (S n) now wr r file result).2
     = RetryHandler.saveToDeadLetterFile now wr file
         (mkLogPacket (ID packet) (Messages packet) config.MaxRetries) (Error result).
Proof.
  intros Hlook Hrange Hbudget.
  assert (Hruns : forall k,
     (k <= n)%nat ->
     RetryHandler.packetMap (RetryHandler.failTimes k now wr r file result).1
       !! PacketID result
     = Some (mkLogPacket (ID packet) (Messages packet) (RetryCount packet + Z.of_nat k))
     /\ length (RetryHandler.scheduled (RetryHandler.failTimes k now wr r file result).1)
        = (length (RetryHandler.scheduled r) + k)%nat
     /\ (RetryHandler.failTimes k now wr r file result).2 = file).
  { intros k Hk. apply failTimes_within_budget; [done|done|lia]. }
  split; [exact Hruns|].
  destruct (Hruns n (Nat.le_refl n)) as (Hmap & Hlen & Hfile).
  rewrite failTimes_last.
  rewrite (HandleFailedPacket_exhausted now wr _ _ result _ Hmap); [|simpl; lia].
  simpl. rewrite Hfile, Hbudget.
  split; [apply lookup_delete_eq|]. split; [exact Hlen|reflexivity].
Qed.

(** X5.  Validation does not look at [retry_count]: a packet submitted
    with a count of [MaxRetries] or more is accepted, and its first
    failure removes it and hands it to the dead-letter store without
    starting any retry. *)
Theorem over_budget_submission_is_dead_lettered_at_first_failure
    (now : Time) (wr : RetryHandler.WriteOutcome) (d : Distributor.t)
    (file : RetryHandler.FileContent) (packet : LogPacket) (result : AnalysisResult) :
  PacketValidator.ValidatePacket packet = None ->
  PacketID result = ID packet ->
  config.MaxRetries <= RetryCount packet ->
  (Distributor.SubmitPacket Distributor.Enqueued d packet).1 = None
  /\ Distributor.inFlight (Distributor.SubmitPacket Distributor.Enqueued d packet).2
       !! ID packet = Some packet
  /\ RetryHandler.packetMap
       (RetryHandler.HandleFailedPacket now wr
          (Distributor.retryHandler
             (Distributor.SubmitPacket Distributor.Enqueued d packet).2)
          file result).1 !! ID packet = None
  /\ RetryHandler.scheduled
       (RetryHandler.HandleFailedPacket now wr
          (Distributor.retryHandler
             (Distributor.SubmitPacket Distributor.Enqueued d packet).2)
          file result).1
     = RetryHandler.scheduled (Distributor.retryHandler d)
  /\ (RetryHandler.HandleFailedPacket now wr
        (Distributor.retryHandler
           (Distributor.SubmitPacket Distributor.Enqueued d packet).2)
        file result).2
     = RetryHandler.saveToDeadLetterFile now wr file packet (Error result).
Proof.
  intros Hvalid Hid Hover.
  rewrite (SubmitPacket_enqueued d packet Hvalid). simpl.
  assert (Hlook : RetryHandler.packetMap
                    (RetryHandler.TrackPacket (Distributor.retryHandler d) packet)
                    !! PacketID result = Some packet).
  { rewrite Hid. simpl. apply lookup_insert_eq. }
  rewrite (HandleFailedPacket_exhausted now wr _ file result packet Hlook Hover).
  simpl. rewrite Hid.
  split; [reflexivity|].
  split; [unfold Distributor.inFlight; simpl; apply lookup_insert_eq|].
  split; [apply lookup_delete_eq|]. split; reflexivity.
Qed.

(** X6.  A retry that goes through: after the failure of a tracked packet
    with budget left, on a handler with no other retry pending, the timer
    fires into the retry channel and the pump moves the packet to the
    packets queue; the queue then ends with the packet carrying the
    incremented count, the same packet is the one tracked under its id,
    and no retry is left pending. *)
Theorem retry_round_requeues_the_incremented_packet
    (now : Time) (wr : RetryHandler.WriteOutcome) (r : RetryHandler.t)
    (file : RetryHandler.FileContent) (result : AnalysisResult)
    (packet : LogPacket) (packetChannel : list LogPacket) :
  RetryHandler.packetMap r !! PacketID result = Some packet ->
  ID packet = PacketID result ->
  GoInt.in_range (RetryCount packet) ->
  RetryCount packet < config.MaxRetries ->
  RetryHandler.scheduled r = [] ->
  RetryHandler.retryChannel r = [] ->
  RetryHandler.ProcessRetries_step RetryHandler.Resubmitted
    (RetryHandler.scheduleRetryWithCleanup RetryHandler.Fired_Sent
       (RetryHandler.HandleFailedPacket now wr r file result).1)
    packetChannel
  = ({| RetryHandler.packetMap :=
          <[ID packet := mkLogPacket (ID packet) (Messages packet) (RetryCount packet + 1)]>
            (RetryHandler.packetMap r);
        RetryHandler.retryChannel := [];
        RetryHandler.scheduled := [] |},
     packetChannel
       ++ [mkLogPacket (ID packet) (Messages packet) (RetryCount packet + 1)]).
Proof.
  intros Hlook Hid Hrange Hlt Hsched Hchan.
  rewrite (HandleFailedPacket_retry now wr r file result packet Hlook Hlt).
  assert (Hincr : RetryHandler.incrRetryCount packet
                  = mkLogPacket (ID packet) (Messages packet) (RetryCount packet + 1)).
  { unfold RetryHandler.incrRetryCount. f_equal.
    apply (incrRetryCount_below packet Hrange Hlt). }
  rewrite Hincr, Hsched, Hchan, <- Hid. simpl.
  unfold RetryHandler.scheduleRetryWithCleanup, RetryHandler.ProcessRetries_step. simpl.
  by rewrite insert_insert_eq.
Qed.

(** X7.  A retry that is dropped: if the timer's send finds the retry
    channel full or the context done, or the wait is aborted, the packet
    is in no queue and no retry is pending for it, yet it stays tracked
    with its incremented count. *)
Theorem dropped_retry_leaves_the_packet_tracked
    (now : Time) (wr : RetryHandler.WriteOutcome) (r : RetryHandler.t)
    (file : RetryHandler.FileContent) (result : AnalysisResult)
    (packet : LogPacket) (o : RetryHandler.TimerOutcome) :
  RetryHandler.packetMap r !! PacketID result = Some packet ->
  GoInt.in_range (RetryCount packet) ->
  RetryCount packet < config.MaxRetries ->
  RetryHandler.scheduled r = [] ->
  o <> RetryHandler.Fired_Sent ->
  RetryHandler.scheduleRetryWithCleanup o
    (RetryHandler.HandleFailedPacket now wr r file result).1
  = {| RetryHandler.packetMap :=
         <[PacketID result :=
             mkLogPacket (ID packet) (Messages packet) (RetryCount packet + 1)]>
           (RetryHandler.packetMap r);
       RetryHandler.retryChannel := RetryHandler.retryChannel r;
       RetryHandler.scheduled := [] |}.
Proof.
  intros Hlook Hrange Hlt Hsched Hdrop.
  rewrite (HandleFailedPacket_retry now wr r file result packet Hlook Hlt).
  assert (Hincr : RetryHandler.incrRetryCount packet
                  = mkLogPacket (ID packet) (Messages packet) (RetryCount packet + 1)).
  { unfold RetryHandler.incrRetryCount. f_equal.
    apply (incrRetryCount_below packet Hrange Hlt). }
  rewrite Hincr, Hsched. unfold RetryHandler.scheduleRetryWithCleanup. simpl.
  by destruct o.
Qed.

(** X8.  A submission that times out untracks by id: the in-flight map
    afterwards is the map before without the packet's id.  It is the map
    before when that id was not in flight; when an earlier packet with
    the same id was, that packet is no longer tracked. *)
Theorem SubmitPacket_queue_full_untracks_by_id
    (d : Distributor.t) (packet : LogPacket) :
  PacketValidator.ValidatePacket packet = None ->
  Distributor.inFlight (Distributor.SubmitPacket Distributor.TimedOut d packet).2
  = delete (ID packet) (Distributor.inFlight d)
  /\ (Distributor.inFlight d !! ID packet = None ->
      Distributor.inFlight (Distributor.SubmitPacket Distributor.TimedOut d packet).2
      = Distributor.inFlight d)
  /\ (forall earlier,
        Distributor.inFlight d !! ID packet = Some earlier ->
        Distributor.inFlight (Distributor.SubmitPacket Distributor.TimedOut d packet).2
          !! ID packet = None).
Proof.
  intros Hvalid. rewrite (SubmitPacket_timed_out d packet Hvalid).
  unfold Distributor.inFlight. simpl.
  assert (Hdel : delete (ID packet)
                   (<[ID packet := packet]> (RetryHandler.packetMap (Distributor.retryHandler d)))
                 = delete (ID packet) (RetryHandler.packetMap (Distributor.retryHandler d))).
  { apply delete_insert_eq. }
  rewrite Hdel. split; [reflexivity|]. split.
  - intros Hnone. by apply delete_id.
  - intros earlier _. apply lookup_delete_eq.
Qed.

(** ** Snapshot and recovery *)

(** ** Snapshot and recovery *)

Section Recovery.

Import RetryHandler RetryQueries.
Import Pipeline (trackAll, restorePacket, restorePackets).

Lemma GetTrackedPackets_acc (its : list LogPacket) :
  forall packets : list LogPacket,
    foldl (fun packets packet => packets ++ [packet]) packets its = packets ++ its.
Proof.
  induction its as [|p its IH]; intros packets; simpl.
  - by rewrite app_nil_r.
  - rewrite IH. by rewrite <- app_assoc.
Qed.

Lemma GetTrackedPackets_visit (its : list LogPacket) : GetTrackedPackets its = its.
Proof. unfold GetTrackedPackets. by rewrite GetTrackedPackets_acc. Qed.

(** A visit of a packet map keyed by id meets distinct ids, each stored
    under itself. *)
Lemma tracked_ids (m : gmap string LogPacket) its :
  keyedByID m -> iterationOf m its ->
  NoDup (ID <$> its)
  /\ (forall packet, packet ∈ its -> m !! ID packet = Some packet)
  /\ (forall key packet, m !! key = Some packet -> packet ∈ its).
Proof.
  unfold keyedByID, iterationOf. intros Hkeyed Hperm.
  assert (Hids : ID <$> (snd <$> map_to_list m) = fst <$> map_to_list m).
  { rewrite <- list_fmap_compose. apply list_fmap_ext.
    intros i [key p] Hlook. simpl. apply Hkeyed.
    apply elem_of_map_to_list. by eapply list_elem_of_lookup_2. }
  split; [rewrite Hperm, Hids; apply NoDup_fst_map_to_list|]. split.
  - intros p Hp. rewrite Hperm in Hp.
    apply list_elem_of_fmap in Hp as ([key q] & -> & Hin). simpl.
    apply elem_of_map_to_list in Hin. by rewrite (Hkeyed _ _ Hin).
  - intros key p Hlook. rewrite Hperm. apply list_elem_of_fmap.
    exists (key, p). split; [done|]. by apply elem_of_map_to_list.
Qed.

Lemma trackAll_lookup pending :
  forall r,
    NoDup (ID <$> pending) ->
    (forall packet, packet ∈ pending -> packetMap (trackAll pending r) !! ID packet = Some packet)
    /\ (forall id, id ∉ ID <$> pending ->
                   packetMap (trackAll pending r) !! id = packetMap r !! id).
Proof.
  unfold trackAll.
  induction pending as [|p pending IH]; intros r Hnodup.
  - split; [intros packet Hin; by apply elem_of_nil in Hin|done].
  - rewrite fmap_cons in Hnodup. apply NoDup_cons in Hnodup as [Hfresh Hnodup].
    simpl foldl. destruct (IH (TrackPacket r p) Hnodup) as [Hin Hout]. split.
    + intros packet Hpacket. apply elem_of_cons in Hpacket as [->|Hpacket].
      * rewrite (Hout _ Hfresh). simpl. apply lookup_insert_eq.
      * by apply Hin.
    + intros id Hid. rewrite fmap_cons in Hid.
      apply not_elem_of_cons in Hid as [Hne Hid].
      rewrite (Hout _ Hid). simpl. by rewrite lookup_insert_ne.
Qed.

Lemma trackAll_queues pending :
  forall r,
    retryChannel (trackAll pending r) = retryChannel r
    /\ scheduled (trackAll pending r) = scheduled r.
Proof.
  unfold trackAll. induction pending as [|p pending IH]; intros r; [done|].
  simpl foldl. by destruct (IH (TrackPacket r p)) as [-> ->].
Qed.

Lemma restorePacket_eq r ch restoredCount packet :
  restorePacket (r, ch, restoredCount) packet
  = if GoInt.len ch <? config.PacketChannelBuffer
    then (TrackPacket r packet, ch ++ [packet], GoInt.add restoredCount 1)
    else (TrackPacket r packet, ch, restoredCount).
Proof. reflexivity. Qed.

(** The second loop of [recoverFromState], in closed form: every
    pending packet is tracked, and the queue takes the first ones while
    it has room. *)
Lemma restorePackets_acc pending :
  forall r ch restoredCount,
    GoInt.len ch <= config.PacketChannelBuffer ->
    (foldl restorePacket (r, ch, restoredCount) pending).1
    = (trackAll pending r,
       ch ++ take (Z.to_nat (config.PacketChannelBuffer - GoInt.len ch)) pending).
Proof.
  unfold trackAll, GoInt.len.
  induction pending as [|p pending IH]; intros r ch restoredCount Hroom.
  - simpl. rewrite take_nil. by rewrite app_nil_r.
  - cbn [foldl]. rewrite restorePacket_eq. unfold GoInt.len.
    destruct (Z.ltb_spec (Z.of_nat (length ch)) config.PacketChannelBuffer) as [Hlt|Hge].
    + rewrite IH; [|rewrite length_app; simpl; lia].
      rewrite length_app. simpl length.
      replace (Z.to_nat (config.PacketChannelBuffer - Z.of_nat (length ch)))
        with (S (Z.to_nat (config.PacketChannelBuffer - Z.of_nat (length ch + 1)))) by lia.
      simpl take. by rewrite <- app_assoc.
    + rewrite IH; [|done].
      replace (Z.to_nat (config.PacketChannelBuffer - Z.of_nat (length ch))) with 0%nat by lia.
      by rewrite !take_0.
Qed.

End Recovery.

Section Recovery2.

Import RetryHandler RetryQueries.
Import Pipeline (trackAll, restorePacket, restorePackets).

Lemma trackAll_snoc pending packet r :
  trackAll (pending ++ [packet]) r = TrackPacket (trackAll pending r) packet.
Proof. unfold trackAll. by rewrite foldl_app. Qed.

(** Tracking a list keeps, for each id in it, the last packet with that
    id, and leaves the other ids alone. *)
Lemma trackAll_member pending r :
  forall packet,
    packet ∈ pending ->
    exists latest,
      latest ∈ pending /\ ID latest = ID packet
      /\ packetMap (trackAll pending r) !! ID packet = Some latest.
Proof.
  induction pending as [|x pending IH] using rev_ind; intros packet Hin.
  - by apply elem_of_nil in Hin.
  - rewrite trackAll_snoc. simpl.
    destruct (decide (ID x = ID packet)) as [Heq|Hne].
    + exists x. split; [apply elem_of_app; right; by left|].
      split; [done|]. rewrite <- Heq. apply lookup_insert_eq.
    + apply elem_of_app in Hin as [Hin|Hin].
      * destruct (IH packet Hin) as (latest & Hl & Hid & Hlook).
        exists latest. split; [apply elem_of_app; by left|]. split; [done|].
        by rewrite lookup_insert_ne.
      * apply list_elem_of_singleton in Hin. by subst.
Qed.

Lemma trackAll_other pending r id :
  id ∉ ID <$> pending ->
  packetMap (trackAll pending r) !! id = packetMap r !! id.
Proof.
  induction pending as [|x pending IH] using rev_ind; intros Hout; [done|].
  rewrite trackAll_snoc. simpl. rewrite fmap_app in Hout.
  apply not_elem_of_app in Hout as [Hout Hx].
  rewrite lookup_insert_ne; [by apply IH|].
  intros Heq. apply Hx. subst id. apply list_elem_of_fmap_2. by left.
Qed.

(** Tracking every packet of a visit of a map keyed by id rebuilds the
    map. *)
Lemma trackAll_rebuilds (m : gmap string LogPacket) its :
  keyedByID m -> iterationOf m its ->
  packetMap (trackAll its NewRetryHandler) = m.
Proof.
  intros Hkeyed Hiter.
  destruct (tracked_ids m its Hkeyed Hiter) as (Hnodup & Hstored & Hlisted).
  destruct (trackAll_lookup its NewRetryHandler Hnodup) as [Hin Hout].
  apply map_eq. intros key.
  destruct (m !! key) as [p|] eqn:Hlook.
  - rewrite <- (Hkeyed _ _ Hlook). apply Hin. by eapply Hlisted.
  - rewrite Hout; [apply lookup_empty|].
    intros Hkey. apply list_elem_of_fmap in Hkey as (p & -> & Hp).
    by rewrite (Hstored p Hp) in Hlook.
Qed.

Lemma restoreAnalyzers_lookup (visit : list (string * Analyzer)) :
  NoDup visit.*1 ->
  forall (registry : gmap string Analyzer) id,
    Pipeline.restoreAnalyzers visit registry !! id
    = match registry !! id with
      | Some existing =>
          Some (match (list_to_map visit : gmap string Analyzer) !! id with
                | Some snapshot => Pipeline.restoreAnalyzer snapshot existing
                | None => existing
                end)
      | None => None
      end.
Proof.
  unfold Pipeline.restoreAnalyzers.
  induction visit as [|[id0 s] visit IH]; intros Hnodup registry id.
  - simpl. rewrite lookup_empty. by destruct (registry !! id).
  - rewrite fmap_cons in Hnodup. apply NoDup_cons in Hnodup as [Hfresh Hnodup].
    simpl in Hfresh. cbn [foldl list_to_map foldr]. simpl.
    assert (Hnone : (list_to_map visit : gmap string Analyzer) !! id0 = None).
    { by apply not_elem_of_list_to_map_1. }
    destruct (decide (id = id0)) as [->|Hne].
    + rewrite lookup_insert_eq.
      destruct (registry !! id0) as [e|] eqn:He.
      * rewrite (IH Hnodup), lookup_insert_eq. by rewrite Hnone.
      * rewrite (IH Hnodup). by rewrite He.
    + rewrite lookup_insert_ne; [|done].
      destruct (registry !! id0) as [e|] eqn:He.
      * rewrite (IH Hnodup), lookup_insert_ne; done.
      * by rewrite (IH Hnodup).
Qed.

(** Adding mod 2^64 after each step or once at the end is the same. *)
Lemma wrap64_add_l x y : GoInt.wrap64 (GoInt.wrap64 x + y) = GoInt.wrap64 (x + y).
Proof.
  unfold GoInt.wrap64.
  replace ((x + 2 ^ 63) mod 2 ^ 64 - 2 ^ 63 + y + 2 ^ 63)
    with ((x + 2 ^ 63) mod 2 ^ 64 + y) by lia.
  rewrite Zplus_mod_idemp_l. f_equal. f_equal. lia.
Qed.

Lemma wrap64_idem x : GoInt.wrap64 (GoInt.wrap64 x) = GoInt.wrap64 x.
Proof.
  pose proof (wrap64_add_l x 0) as H. by rewrite !Z.add_0_r in H.
Qed.

Lemma GetFailedPacketsCount_acc its :
  forall totalErrors,
    GoInt.wrap64
      (foldl (fun totalErrors analyzer => GoInt.add totalErrors (ErrorCount analyzer))
             totalErrors its)
    = GoInt.wrap64 (totalErrors + errorSum its).
Proof.
  induction its as [|a its IH]; intros totalErrors; simpl.
  - by rewrite Z.add_0_r.
  - rewrite IH. unfold GoInt.add. rewrite wrap64_add_l. f_equal. lia.
Qed.

Lemma errorSum_perm its its' : Permutation its its' -> errorSum its = errorSum its'.
Proof.
  induction 1 as [|x l1 l2 _ IH|x y l|l1 l2 l3 _ IH1 _ IH2]; simpl; lia.
Qed.

End Recovery2.

(** X9.  Restart: a new distributor that recovers from the snapshot
    [getState] composes tracks exactly the packets that were in flight,
    takes over the received counter, and finds in its packets queue the
    snapshot's pending packets in their order, as many as the queue
    holds. *)
Theorem recovery_from_a_snapshot_restores_the_in_flight_set
    (visit : list (string * Analyzer)) (its : list LogPacket) (now : Time)
    (st : Pipeline.t) (analyzers : gmap string Analyzer) (lb : LoadBalancer.t) :
  RetryQueries.keyedByID (Distributor.inFlight (Pipeline.distributor st)) ->
  RetryQueries.iterationOf (Distributor.inFlight (Pipeline.distributor st)) its ->
  Distributor.inFlight
    (Pipeline.distributor
       (Pipeline.recoverFromState visit (Pipeline.getState its now st)
          (Pipeline.fresh analyzers lb)))
  = Distributor.inFlight (Pipeline.distributor st)
  /\ Distributor.totalPacketsReceived
       (Pipeline.distributor
          (Pipeline.recoverFromState visit (Pipeline.getState its now st)
             (Pipeline.fresh analyzers lb)))
     = Distributor.totalPacketsReceived (Pipeline.distributor st)
  /\ Pipeline.packetChannel
       (Pipeline.recoverFromState visit (Pipeline.getState its now st)
          (Pipeline.fresh analyzers lb))
     = take (Z.to_nat config.PacketChannelBuffer) its.
Proof.
  intros Hkeyed Hiter.
  unfold Pipeline.recoverFromState, Pipeline.getState, Pipeline.restorePackets.
  cbn [PendingPackets TotalProcessed].
  rewrite GetTrackedPackets_visit.
  assert (Hroom : GoInt.len (Pipeline.packetChannel (Pipeline.fresh analyzers lb))
                  <= config.PacketChannelBuffer) by (by vm_compute).
  pose proof (restorePackets_acc its
                (Pipeline.retryHandler (Pipeline.fresh analyzers lb))
                (Pipeline.packetChannel (Pipeline.fresh analyzers lb)) 0 Hroom) as Hloop.
  destruct (foldl Pipeline.restorePacket _ its) as [[r ch] restoredCount].
  simpl in Hloop. injection Hloop as -> ->.
  unfold Pipeline.packetChannel, Distributor.inFlight. simpl.
  split; [|split; [reflexivity|]].
  - by apply trackAll_rebuilds.
  - by rewrite Z.sub_0_r.
Qed.

(** X10.  Recovery into any distributor whose packets queue is within
    its capacity: every pending packet of the snapshot is tracked (under
    its id, the last pending packet with that id is), ids that are not
    pending keep their entry, the queue receives the first pending
    packets while it has room and stays within its capacity, and the
    received counter becomes the snapshot's. *)
Theorem recoverFromState_tracks_all_and_enqueues_while_room
    (visit : list (string * Analyzer)) (state : DistributorState) (st : Pipeline.t) :
  GoInt.len (Pipeline.packetChannel st) <= config.PacketChannelBuffer ->
  (forall packet,
     packet ∈ PendingPackets state ->
     exists latest,
       latest ∈ PendingPackets state /\ ID latest = ID packet
       /\ Distributor.inFlight
            (Pipeline.distributor (Pipeline.recoverFromState visit state st))
            !! ID packet = Some latest)
  /\ (forall id,
        id ∉ ID <$> PendingPackets state ->
        Distributor.inFlight
          (Pipeline.distributor (Pipeline.recoverFromState visit state st)) !! id
        = Distributor.inFlight (Pipeline.distributor st) !! id)
  /\ Pipeline.packetChannel (Pipeline.recoverFromState visit state st)
     = Pipeline.packetChannel st
       ++ take (Z.to_nat (config.PacketChannelBuffer
                          - GoInt.len (Pipeline.packetChannel st)))
               (PendingPackets state)
  /\ GoInt.len (Pipeline.packetChannel (Pipeline.recoverFromState visit state st))
     <= config.PacketChannelBuffer
  /\ Distributor.totalPacketsReceived
       (Pipeline.distributor (Pipeline.recoverFromState visit state st))
     = TotalProcessed state.
Proof.
  intros Hroom.
  unfold Pipeline.recoverFromState, Pipeline.restorePackets.
  pose proof (restorePackets_acc (PendingPackets state)
                (Pipeline.retryHandler st) (Pipeline.packetChannel st) 0 Hroom) as Hloop.
  destruct (foldl Pipeline.restorePacket _ (PendingPackets state))
    as [[r ch] restoredCount].
  simpl in Hloop. injection Hloop as -> ->.
  unfold Pipeline.packetChannel, Distributor.inFlight in *. simpl.
  split; [intros packet Hin; by apply trackAll_member|].
  split; [intros id Hout; by apply trackAll_other|].
  split; [reflexivity|]. split; [|reflexivity].
  unfold GoInt.len in *. rewrite length_app, length_take. lia.
Qed.

(** X11.  The first loop of recovery, whatever the order in which the
    snapshot's analyzers are visited: an analyzer known to the
    distributor and present in the snapshot has the snapshot's counters
    added to its own and takes over the snapshot's last health check; an
    analyzer absent from the snapshot is unchanged; an analyzer only the
    snapshot knows is not added. *)
Theorem recoverFromState_adds_the_snapshot_counters
    (visit : list (string * Analyzer)) (state : DistributorState)
    (st : Pipeline.t) (id : string) :
  Pipeline.visitOf (Analyzers state) visit ->
  Pipeline.analyzers (Pipeline.recoverFromState visit state st) !! id
  = match Pipeline.analyzers st !! id with
    | Some existing =>
        Some (match Analyzers state !! id with
              | Some snapshot =>
                  {| analyzer_ID := analyzer_ID existing;
                     Name := Name existing;
                     Weight := Weight existing;
                     ProcessingTimeMs := ProcessingTimeMs existing;
                     IsHealthy := IsHealthy existing;
                     LastHealthCheck := LastHealthCheck snapshot;
                     ProcessedCount :=
                       GoInt.add (ProcessedCount existing) (ProcessedCount snapshot);
                     ErrorCount :=
                       GoInt.add (ErrorCount existing) (ErrorCount snapshot) |}
              | None => existing
              end)
    | None => None
    end.
Proof.
  unfold Pipeline.visitOf. intros Hvisit.
  assert (Hnodup : NoDup visit.*1).
  { rewrite Hvisit. apply NoDup_fst_map_to_list. }
  assert (Hmap : (list_to_map visit : gmap string Analyzer) = Analyzers state).
  { rewrite (list_to_map_proper visit (map_to_list (Analyzers state)) Hnodup Hvisit).
    apply list_to_map_to_list. }
  unfold Pipeline.recoverFromState.
  destruct (Pipeline.restorePackets _ _ _) as [[r ch] restoredCount].
  cbn [Pipeline.analyzers].
  rewrite (restoreAnalyzers_lookup visit Hnodup), Hmap.
  reflexivity.
Qed.

Lemma GetFailedPacketsCount_fixed its :
  forall totalErrors,
    GoInt.wrap64 totalErrors = totalErrors ->
    GoInt.wrap64
      (foldl (fun totalErrors analyzer => GoInt.add totalErrors (ErrorCount analyzer))
             totalErrors its)
    = foldl (fun totalErrors analyzer => GoInt.add totalErrors (ErrorCount analyzer))
            totalErrors its.
Proof.
  induction its as [|a its IH]; intros totalErrors Hfixed; simpl; [done|].
  apply IH. unfold GoInt.add. apply wrap64_idem.
Qed.

Lemma GetFailedPacketsCount_sum its :
  RetryQueries.GetFailedPacketsCount its = GoInt.wrap64 (RetryQueries.errorSum its).
Proof.
  unfold RetryQueries.GetFailedPacketsCount.
  rewrite <- (GetFailedPacketsCount_fixed its 0); [|reflexivity].
  by rewrite GetFailedPacketsCount_acc.
Qed.

Lemma errorSum_nonneg its :
  Forall (fun a => 0 <= ErrorCount a) its -> 0 <= RetryQueries.errorSum its.
Proof. induction 1 as [|a its Ha _ IH]; simpl; lia. Qed.

(** X12.  [GetFailedPacketsCount] does not depend on the order in which
    the analyzers map is visited: it is the sum of the error counters
    reduced to 64 bits, and the exact sum when the counters are
    non-negative and their sum fits. *)
Theorem GetFailedPacketsCount_is_the_sum_of_error_counters
    (its its' : list Analyzer) :
  Permutation its its' ->
  RetryQueries.GetFailedPacketsCount its = RetryQueries.GetFailedPacketsCount its'
  /\ RetryQueries.GetFailedPacketsCount its = GoInt.wrap64 (RetryQueries.errorSum its)
  /\ (Forall (fun a => 0 <= ErrorCount a) its ->
      RetryQueries.errorSum its <= GoInt.max_int64 ->
      RetryQueries.GetFailedPacketsCount its = RetryQueries.errorSum its).
Proof.
  intros Hperm. rewrite !GetFailedPacketsCount_sum.
  split; [by rewrite (errorSum_perm its its' Hperm)|]. split; [reflexivity|].
  intros Hpos Hfits. apply wrap64_in_range.
  pose proof (errorSum_nonneg its Hpos).
  unfold GoInt.in_range, GoInt.min_int64, GoInt.max_int64 in *. lia.
Qed.

(** ** Packet validator: what a verdict depends on *)

(** ** More on the validator *)

Section Validator2.

Import PacketValidator.

Lemma ValidatePacket_None_iff packet :
  ValidatePacket packet = None <-> countOk packet /\ bodiesOk packet /\ sizeOk packet.
Proof.
  pose proof (len_nonneg (Messages packet)) as Hn.
  destruct (ValidatePacket_cases packet)
    as [[Hc Hv]|[[Hc Hv]|[(Hc & Hb & size & Hv)|[(Hc & Hb & Hs & Hv)|(Hc & Hb & Hs & Hv)]]]];
    rewrite Hv; unfold countOk in *; unfold config.MaxMessagesPerPacket in *;
    split; intros; try discriminate; try tauto; try lia.
Qed.

Lemma sumSizes_lengths msgs1 :
  forall msgs2 totalSize,
    bodyLengths msgs1 = bodyLengths msgs2 ->
    sumSizes msgs1 totalSize = sumSizes msgs2 totalSize.
Proof.
  unfold bodyLengths.
  induction msgs1 as [|m1 msgs1 IH]; intros [|m2 msgs2] totalSize Heq;
    try discriminate; [done|].
  rewrite !fmap_cons in Heq. injection Heq as Hhead Htail.
  simpl. rewrite Hhead. destruct (_ >? _); [done|]. by apply IH.
Qed.

(** The loop fails on the first oversized body and reports its length. *)
Lemma sumSizes_first_oversized msgs :
  forall totalSize err,
    sumSizes msgs totalSize = inl err ->
    exists before msg after,
      msgs = before ++ msg :: after
      /\ Forall bodyFits before
      /\ config.MaxLogMessageLength < GoInt.len_string (Message msg)
      /\ err = MessageTooLong (GoInt.len_string (Message msg)) config.MaxLogMessageLength.
Proof.
  induction msgs as [|m msgs IH]; intros totalSize err Hrun; [discriminate|].
  simpl in Hrun.
  destruct (Z.gtb_spec (GoInt.len_string (Message m)) config.MaxLogMessageLength)
    as [Hgt|Hle].
  - injection Hrun as <-. exists [], m, msgs. repeat split; [constructor|lia].
  - destruct (IH _ _ Hrun) as (before & msg & after & -> & Hfit & Hbig & ->).
    exists (m :: before), msg, after. repeat split; [by constructor|done].
Qed.

Lemma sublist_bodies (l1 l2 : list LogMessage) :
  sublist l1 l2 ->
  (Forall bodyFits l2 -> Forall bodyFits l1)
  /\ bodyBytes l1 <= bodyBytes l2
  /\ GoInt.len l1 <= GoInt.len l2.
Proof.
  unfold GoInt.len.
  induction 1 as [|x l1 l2 _ (IHf & IHb & IHl)|x l1 l2 _ (IHf & IHb & IHl)].
  - repeat split; [done|lia|lia].
  - repeat split.
    + intros [Hx Hall]%Forall_cons. constructor; [done|by apply IHf].
    + simpl. lia.
    + simpl length. lia.
  - repeat split.
    + intros [Hx Hall]%Forall_cons. by apply IHf.
    + simpl. pose proof (len_string_nonneg (Message x)). lia.
    + simpl length. lia.
Qed.

End Validator2.

(** X13.  Validation looks at nothing but the sizes of the message
    bodies: two packets whose bodies have the same lengths in the same
    order get the same answer, error and reported numbers included,
    whatever their ids, retry counts, levels, sources and metadata. *)
Theorem ValidatePacket_depends_only_on_body_lengths (packet packet' : LogPacket) :
  PacketValidator.bodyLengths (Messages packet)
  = PacketValidator.bodyLengths (Messages packet') ->
  PacketValidator.ValidatePacket packet = PacketValidator.ValidatePacket packet'.
Proof.
  intros Hlengths. unfold PacketValidator.ValidatePacket.
  assert (Hlen : GoInt.len (Messages packet) = GoInt.len (Messages packet')).
  { unfold GoInt.len. f_equal.
    rewrite <- (length_fmap (fun msg => GoInt.len_string (Message msg)) (Messages packet)).
    rewrite <- (length_fmap (fun msg => GoInt.len_string (Message msg)) (Messages packet')).
    unfold PacketValidator.bodyLengths in Hlengths. by rewrite Hlengths. }
  rewrite Hlen. by rewrite (sumSizes_lengths _ _ 0 Hlengths).
Qed.

(** X14.  A [MessageTooLong] error is about the first oversized message:
    every message before it fits, and the reported length is that
    message's body size, above the reported maximum
    [MaxLogMessageLength]. *)
Theorem MessageTooLong_reports_the_first_oversized_message
    (packet : LogPacket) (size maximum : Z) :
  PacketValidator.ValidatePacket packet
  = Some (PacketValidator.MessageTooLong size maximum) ->
  exists before msg after,
    Messages packet = before ++ msg :: after
    /\ Forall PacketValidator.bodyFits before
    /\ size = GoInt.len_string (Message msg)
    /\ maximum = config.MaxLogMessageLength
    /\ maximum < size.
Proof.
  unfold PacketValidator.ValidatePacket.
  destruct (GoInt.len (Messages packet) =? 0); [discriminate|].
  destruct (GoInt.len (Messages packet) >? config.MaxMessagesPerPacket); [discriminate|].
  destruct (PacketValidator.sumSizes (Messages packet) 0) as [err|totalSize] eqn:Hrun.
  - intros [= ->].
    destruct (sumSizes_first_oversized _ _ _ Hrun)
      as (before & msg & after & Hsplit & Hfit & Hbig & [= -> ->]).
    exists before, msg, after. repeat split; done.
  - by destruct (totalSize >? config.MaxPacketSizeBytes).
Qed.

(** X15.  Dropping messages from an accepted packet, at least one being
    kept, gives a packet that is accepted too. *)
Theorem accepted_packet_stays_accepted_with_fewer_messages
    (packet : LogPacket) (messages : list LogMessage) (id : string) (retryCount : Z) :
  PacketValidator.ValidatePacket packet = None ->
  sublist messages (Messages packet) ->
  messages <> [] ->
  PacketValidator.ValidatePacket (mkLogPacket id messages retryCount) = None.
Proof.
  intros Hvalid Hsub Hsome.
  apply ValidatePacket_None_iff in Hvalid as (Hcount & Hbodies & Hsize).
  destruct (sublist_bodies _ _ Hsub) as (Hfit & Hbytes & Hlen).
  apply ValidatePacket_None_iff.
  unfold PacketValidator.countOk, PacketValidator.bodiesOk, PacketValidator.sizeOk in *.
  simpl. split; [|split; [by apply Hfit|lia]].
  split; [|lia]. unfold GoInt.len. destruct messages; [done|simpl; lia].
Qed.

(** X16.  With the stock limits the size cap only bites on large
    batches: a packet rejected as [PacketTooLarge] has at least 105
    messages (and at most 1000), each within the per-message limit. *)
Theorem PacketTooLarge_needs_at_least_105_messages (packet : LogPacket) :
  PacketValidator.outcome packet = Some PacketValidator.KPacketTooLarge ->
  105 <= GoInt.len (Messages packet) <= 1000
  /\ Forall PacketValidator.bodyFits (Messages packet)
  /\ PacketValidator.ValidatePacket packet
     = Some (PacketValidator.PacketTooLarge
               (PacketValidator.bodyBytes (Messages packet)) 1048576).
Proof.
  unfold PacketValidator.outcome.
  destruct (ValidatePacket_cases packet)
    as [[Hc Hv]|[[Hc Hv]|[(Hc & Hb & size & Hv)|[(Hc & Hb & Hs & Hv)|(Hc & Hb & Hs & Hv)]]]];
    rewrite Hv; try discriminate.
  intros _. pose proof (bodyBytes_bound _ Hb) as Hbound.
  unfold PacketValidator.countOk, PacketValidator.sizeOk, config.MaxMessagesPerPacket,
    config.MaxPacketSizeBytes, config.MaxLogMessageLength in *.
  split; [lia|]. split; [exact Hb|reflexivity].
Qed.

(** ** Listing the dead-letter store *)

Lemma listing_of_stored (older : list RetryHandler.DeadLetterEntry)
    (entry : RetryHandler.DeadLetterEntry) :
  exists listing,
    handlers.GetDeadLetterPackets (RetryHandler.Entries (older ++ [entry]))
    = (handlers.StatusOK, Some (GoInt.len listing, listing))
    /\ 1 <= GoInt.len listing <= handlers.maxEntries
    /\ last listing = Some entry
    /\ listing `suffix_of` (older ++ [entry]).
Proof.
  unfold handlers.GetDeadLetterPackets, handlers.maxEntries, GoInt.len.
  rewrite length_app. simpl length.
  destruct (Z.gtb_spec (Z.of_nat (length older + 1)) 100) as [Hmany|Hfew].
  - exists (drop (Z.to_nat (Z.of_nat (length older + 1) - 100)) older ++ [entry]).
    rewrite drop_app_le by lia.
    split; [reflexivity|]. rewrite length_app, length_drop. simpl length.
    split; [lia|]. split; [apply last_snoc|].
    exists (take (Z.to_nat (Z.of_nat (length older + 1) - 100)) older).
    by rewrite app_assoc, take_drop.
  - exists (older ++ [entry]). split; [reflexivity|].
    rewrite length_app. simpl length. split; [lia|]. split; [apply last_snoc|done].
Qed.

(** X17.  After a dead-letter append whose write succeeds,
    [GetDeadLetterPackets] answers 200 with between 1 and 100 entries,
    the most recent ones of the store in their order, the last listed
    being the entry just appended; after a write that failed midway it
    answers 500. *)
Theorem GetDeadLetterPackets_lists_the_entry_just_saved
    (now : Time) (file : RetryHandler.FileContent)
    (packet : LogPacket) (finalError : string) :
  (exists listing,
     handlers.GetDeadLetterPackets
       (RetryHandler.saveToDeadLetterFile now RetryHandler.Written file packet finalError)
     = (handlers.StatusOK, Some (GoInt.len listing, listing))
     /\ 1 <= GoInt.len listing <= 100
     /\ last listing = Some (RetryHandler.mkDeadLetterEntry packet finalError now)
     /\ listing `suffix_of`
          RetryHandler.readEntries
            (RetryHandler.saveToDeadLetterFile now RetryHandler.Written
               file packet finalError))
  /\ handlers.GetDeadLetterPackets
       (RetryHandler.saveToDeadLetterFile now RetryHandler.WriteFailed
          file packet finalError)
     = (handlers.StatusInternalServerError, None).
Proof.
  split; [|reflexivity].
  unfold RetryHandler.saveToDeadLetterFile. simpl RetryHandler.readEntries.
  apply listing_of_stored.
Qed.

(** ** Load balancer: construction and reset *)

Section Balancer.

Import LoadBalancer.

Implicit Types (a j : Analyzer) (cw ow : gmap string float64.t) (its : list Analyzer).

(** The loop of [UpdateWeights], entry by entry. *)
Lemma UpdateWeights_lookup ow its :
  forall cw id,
    foldl (fun cw analyzer =>
             if IsHealthy analyzer
             then <[analyzer_ID analyzer := weightOf ow (analyzer_ID analyzer)]> cw
             else cw)
          cw its !! id
    = if decide (id ∈ analyzer_ID <$> healthy its)
      then Some (weightOf ow id)
      else cw !! id.
Proof.
  unfold healthy.
  induction its as [|a its IH]; intros cw id.
  - cbn [foldl List.filter]. rewrite fmap_nil.
    rewrite decide_False; [done|apply not_elem_of_nil].
  - cbn [foldl List.filter]. rewrite IH.
    destruct (IsHealthy a) eqn:Hhealth.
    + rewrite fmap_cons.
      destruct (decide (id ∈ analyzer_ID <$> List.filter IsHealthy its)) as [Hin|Hout].
      * rewrite decide_True; [done|by right].
      * destruct (decide (id = analyzer_ID a)) as [->|Hne].
        -- rewrite decide_True; [|by left]. apply lookup_insert_eq.
        -- rewrite decide_False.
           ++ by rewrite lookup_insert_ne.
           ++ intros Hcons. apply elem_of_cons in Hcons as [?|?]; done.
    + done.
Qed.

(** The two loops of [NewLoadBalancer], entry by entry. *)
Lemma NewLoadBalancer_lookup its :
  NoDup (analyzer_ID <$> its) ->
  forall (m0 : gmap string float64.t),
    (forall a, a ∈ its ->
               foldl (fun cw a => <[analyzer_ID a := Weight a]> cw) m0 its !! analyzer_ID a
               = Some (Weight a))
    /\ (forall id, id ∉ analyzer_ID <$> its ->
                   foldl (fun cw a => <[analyzer_ID a := Weight a]> cw) m0 its !! id
                   = m0 !! id).
Proof.
  induction its as [|x its IH]; intros Hnodup m0.
  - split; [intros a Ha; by apply elem_of_nil in Ha|done].
  - rewrite fmap_cons in Hnodup. apply NoDup_cons in Hnodup as [Hfresh Hnodup].
    cbn [foldl]. destruct (IH Hnodup (<[analyzer_ID x := Weight x]> m0)) as [Hin Hout].
    split.
    + intros a Ha. apply elem_of_cons in Ha as [->|Ha]; [|by apply Hin].
      rewrite (Hout _ Hfresh). apply lookup_insert_eq.
    + intros id Hid. rewrite fmap_cons in Hid.
      apply not_elem_of_cons in Hid as [Hne Hid].
      rewrite (Hout _ Hid). by rewrite lookup_insert_ne.
Qed.

Lemma NewLoadBalancer_weights (registry : gmap string Analyzer) its :
  keyedByID registry -> iterationOf registry its ->
  foldl (fun cw a => <[analyzer_ID a := Weight a]> cw) ∅ its = Weight <$> registry.
Proof.
  intros Hkeyed Hiter.
  destruct (iteration_ids _ _ Hkeyed Hiter) as [Hnodup Hstored].
  destruct (NewLoadBalancer_lookup its Hnodup ∅) as [Hin Hout].
  apply map_eq. intros id. rewrite lookup_fmap.
  destruct (registry !! id) as [a|] eqn:Hlook; simpl.
  - rewrite <- (Hkeyed _ _ Hlook). apply Hin.
    unfold iterationOf in Hiter. rewrite Hiter. apply list_elem_of_fmap.
    exists (id, a). split; [done|]. by apply elem_of_map_to_list.
  - rewrite Hout; [apply lookup_empty|].
    intros Hid. apply list_elem_of_fmap in Hid as (a & -> & Ha).
    by rewrite (Hstored a Ha) in Hlook.
Qed.

End Balancer.

(** X18.  [SelectAnalyzer] never returns an analyzer that is unhealthy or
    not in the registry, never returns one when the healthy original
    weights sum to zero, and never changes the registry, the original
    weights or the current weight of an id that belongs to no healthy
    analyzer. *)
Theorem SelectAnalyzer_never_returns_an_unhealthy_analyzer
    (lb : LoadBalancer.t) (its : list Analyzer) :
  LoadBalancer.keyedByID (LoadBalancer.analyzers lb) ->
  LoadBalancer.iterationOf (LoadBalancer.analyzers lb) its ->
  (forall j,
     (LoadBalancer.SelectAnalyzer its lb).1 = Some j ->
     IsHealthy j = true
     /\ LoadBalancer.analyzers lb !! analyzer_ID j = Some j
     /\ float64.eqb (LoadBalancer.totalOriginal lb its) float64.zero = false)
  /\ LoadBalancer.analyzers (LoadBalancer.SelectAnalyzer its lb).2
     = LoadBalancer.analyzers lb
  /\ LoadBalancer.originalWeights (LoadBalancer.SelectAnalyzer its lb).2
     = LoadBalancer.originalWeights lb
  /\ (forall id,
        id ∉ analyzer_ID <$> LoadBalancer.healthy its ->
        LoadBalancer.weightOf
          (LoadBalancer.currentWeights (LoadBalancer.SelectAnalyzer its lb).2) id
        = LoadBalancer.weightOf (LoadBalancer.currentWeights lb) id).
Proof.
  intros Hkeyed Hiter.
  destruct (iteration_ids _ _ Hkeyed Hiter) as [_ Hstored].
  destruct (SelectAnalyzer_analyzers its lb) as [Hreg Horig].
  split; [|split; [exact Hreg|split; [exact Horig|]]].
  - intros j Hsel.
    destruct (SelectAnalyzer_some lb its j Hkeyed Hiter Hsel) as (Hj & Hweight & _).
    apply healthy_elem_of in Hj as [Hin Hhealthy].
    split; [exact Hhealthy|]. split; [by apply Hstored|exact Hweight].
  - intros id Hout. by apply SelectAnalyzer_outside.
Qed.

(** X19.  [UpdateWeights] sets the current weight of every id of a
    healthy analyzer to its original weight and leaves every other entry
    as it is; the result does not depend on the order of the visit,
    calling it twice is calling it once, and afterwards the current
    weights of the healthy analyzers sum to their original weights. *)
Theorem UpdateWeights_resets_the_healthy_analyzers
    (lb : LoadBalancer.t) (its : list Analyzer) :
  (forall id,
     LoadBalancer.currentWeights (LoadBalancer.UpdateWeights its lb) !! id
     = if decide (id ∈ analyzer_ID <$> LoadBalancer.healthy its)
       then Some (LoadBalancer.weightOf (LoadBalancer.originalWeights lb) id)
       else LoadBalancer.currentWeights lb !! id)
  /\ (forall its',
        Permutation its its' ->
        LoadBalancer.UpdateWeights its' lb = LoadBalancer.UpdateWeights its lb)
  /\ LoadBalancer.UpdateWeights its (LoadBalancer.UpdateWeights its lb)
     = LoadBalancer.UpdateWeights its lb
  /\ LoadBalancer.totalCurrent (LoadBalancer.UpdateWeights its lb) its
     = LoadBalancer.totalOriginal lb its.
Proof.
  assert (Hlookup : forall its0 lb0 id,
     LoadBalancer.currentWeights (LoadBalancer.UpdateWeights its0 lb0) !! id
     = if decide (id ∈ analyzer_ID <$> LoadBalancer.healthy its0)
       then Some (LoadBalancer.weightOf (LoadBalancer.originalWeights lb0) id)
       else LoadBalancer.currentWeights lb0 !! id).
  { intros its0 lb0 id. unfold LoadBalancer.UpdateWeights. cbn [LoadBalancer.currentWeights].
    apply UpdateWeights_lookup. }
  split; [apply Hlookup|]. split; [|split].
  - intros its' Hperm.
    assert (Hcw : LoadBalancer.currentWeights (LoadBalancer.UpdateWeights its' lb)
                  = LoadBalancer.currentWeights (LoadBalancer.UpdateWeights its lb)).
    { apply map_eq. intros id. rewrite !Hlookup.
      pose proof (healthy_perm its its' Hperm) as Hh.
      destruct (decide (id ∈ analyzer_ID <$> LoadBalancer.healthy its)) as [Hin|Hout].
      - rewrite decide_True; [done|]. by rewrite <- Hh.
      - rewrite decide_False; [done|]. by rewrite <- Hh. }
    unfold LoadBalancer.UpdateWeights in *. simpl in *. by rewrite Hcw.
  - assert (Hcw : LoadBalancer.currentWeights
                    (LoadBalancer.UpdateWeights its (LoadBalancer.UpdateWeights its lb))
                  = LoadBalancer.currentWeights (LoadBalancer.UpdateWeights its lb)).
    { apply map_eq. intros id. rewrite !Hlookup.
      by destruct (decide (id ∈ analyzer_ID <$> LoadBalancer.healthy its)). }
    unfold LoadBalancer.UpdateWeights in *. simpl in *. by rewrite Hcw.
  - unfold LoadBalancer.totalCurrent, LoadBalancer.totalOriginal. f_equal.
    apply Forall_fmap_ext_1. apply Forall_forall. intros a Ha.
    unfold LoadBalancer.weightOf at 1. rewrite Hlookup.
    rewrite decide_True; [reflexivity|]. by apply list_elem_of_fmap_2.
Qed.

(** X20.  [NewLoadBalancer] on a registry keyed by id gives every
    analyzer its configured weight as both original and current weight,
    whatever the order of the visit, so that the current and the
    original weights of the healthy analyzers have the same sum. *)
Theorem NewLoadBalancer_starts_from_the_configured_weights
    (registry : gmap string Analyzer) (its : list Analyzer) :
  LoadBalancer.keyedByID registry ->
  LoadBalancer.iterationOf registry its ->
  LoadBalancer.NewLoadBalancer its registry
  = LoadBalancer.mk registry (Weight <$> registry) (Weight <$> registry)
  /\ (forall a,
        a ∈ its ->
        LoadBalancer.weightOf
          (LoadBalancer.currentWeights (LoadBalancer.NewLoadBalancer its registry))
          (analyzer_ID a) = Weight a)
  /\ LoadBalancer.totalCurrent (LoadBalancer.NewLoadBalancer its registry) its
     = LoadBalancer.totalOriginal (LoadBalancer.NewLoadBalancer its registry) its.
Proof.
  intros Hkeyed Hiter.
  assert (Heq : LoadBalancer.NewLoadBalancer its registry
                = LoadBalancer.mk registry (Weight <$> registry) (Weight <$> registry)).
  { unfold LoadBalancer.NewLoadBalancer.
    by rewrite (NewLoadBalancer_weights registry its Hkeyed Hiter). }
  split; [exact Heq|]. rewrite Heq. split; [|reflexivity].
  intros a Ha. destruct (iteration_ids _ _ Hkeyed Hiter) as [_ Hstored].
  unfold LoadBalancer.weightOf. cbn [LoadBalancer.currentWeights].
  by rewrite lookup_fmap, (Hstored a Ha).
Qed.

(** ** [float64]: the sign of a sum *)

Section Rounding.

Import float64.

Lemma shr_1_nonneg mrs : 0 <= shr_m mrs -> 0 <= shr_m (shr_1 mrs).
Proof. destruct mrs as [[|[p|p|]|p] r s]; cbn; lia. Qed.

Lemma iter_shr_1_nonneg (p : positive) :
  forall mrs, 0 <= shr_m mrs -> 0 <= shr_m (SpecFloat.iter_pos shr_1 p mrs).
Proof.
  induction p as [p IH|p IH|]; intros mrs Hm; cbn.
  - apply IH, IH. by apply shr_1_nonneg.
  - by apply IH, IH.
  - by apply shr_1_nonneg.
Qed.

Lemma shr_fexp_nonneg m e l :
  0 <= m -> 0 <= shr_m (shr_fexp prec emax m e l).1.
Proof.
  intros Hm. unfold shr_fexp, shr.
  assert (Hstart : 0 <= shr_m (shr_record_of_loc m l)) by (by destruct l as [|[]]).
  destruct (fexp prec emax (Zdigits2 m + e) - e); cbn; [done| |done].
  by apply iter_shr_1_nonneg.
Qed.

Lemma round_nearest_even_nonneg mx lx : 0 <= mx -> 0 <= round_nearest_even mx lx.
Proof. intros Hm. destruct lx as [|[]]; cbn; [done| |done|lia]. destruct (Z.even mx); lia. Qed.

(** Rounding a non-negative integer under the sign [false] gives a zero,
    a positive number or the positive infinity. *)
Lemma binary_round_aux_nonneg mx ex lx :
  0 <= mx -> nonneg (binary_round_aux prec emax false mx ex lx) = true.
Proof.
  intros Hm. unfold binary_round_aux.
  pose proof (shr_fexp_nonneg mx ex lx Hm) as Hfirst.
  destruct (shr_fexp prec emax mx ex lx) as [mrs' e']. cbn [fst] in Hfirst.
  pose proof (round_nearest_even_nonneg (shr_m mrs') (loc_of_shr_record mrs') Hfirst)
    as Hround.
  pose proof (shr_fexp_nonneg _ e' loc_Exact Hround) as Hsecond.
  destruct (shr_fexp prec emax _ e' loc_Exact) as [mrs'' e'']. cbn [fst] in Hsecond.
  destruct (shr_m mrs'') as [|m|m]; [done| |lia].
  by destruct (e'' <=? emax - prec).
Qed.

(** The sum of two non-negative [float64]s is non-negative, and so
    above -1. *)
Lemma add_nonneg x y : nonneg x = true -> nonneg y = true -> nonneg (add x y) = true.
Proof.
  destruct x as [sx|[]| |[] mx ex], y as [sy|[]| |[] my ey]; try done.
  - by destruct sx, sy.
  - intros _ _. unfold add, SFadd, binary_normalize, binary_round. cbn [cond_Zopp].
    destruct (shl_align mx ex (Z.min ex ey)) as [m1 e1].
    destruct (shl_align my ey (Z.min ex ey)) as [m2 e2]. cbn [fst].
    change (Z.pos m1 + Z.pos m2) with (Z.pos (m1 + m2)). cbv iota.
    destruct (shl_align _ _ _) as [mz ez].
    by apply binary_round_aux_nonneg.
Qed.

Lemma nonneg_above_minus_one x : nonneg x = true -> gtb x (ofZ (-1)) = true.
Proof. by destruct x as [[]|[]| |[] m e]. Qed.

End Rounding.

(** X21.  The sentinel -1 cannot stop a selection among weights that
    are not negative: when some healthy analyzer has a current and an
    original weight that are zero or positive, as every healthy analyzer
    has after [NewLoadBalancer] and after [UpdateWeights] when the
    configured weights are positive, and the healthy original weights do
    not sum to zero, [SelectAnalyzer] returns an analyzer, a healthy one
    of the registry. *)
Theorem selection_succeeds_when_a_healthy_weight_is_not_negative
    (lb : LoadBalancer.t) (its : list Analyzer) :
  LoadBalancer.keyedByID (LoadBalancer.analyzers lb) ->
  LoadBalancer.iterationOf (LoadBalancer.analyzers lb) its ->
  float64.eqb (LoadBalancer.totalOriginal lb its) float64.zero = false ->
  Exists (fun a =>
            float64.nonneg
              (LoadBalancer.weightOf (LoadBalancer.currentWeights lb) (analyzer_ID a)) = true
            /\ float64.nonneg
                 (LoadBalancer.weightOf (LoadBalancer.originalWeights lb) (analyzer_ID a))
               = true)
         (LoadBalancer.healthy its) ->
  exists j,
    (LoadBalancer.SelectAnalyzer its lb).1 = Some j
    /\ IsHealthy j = true
    /\ LoadBalancer.analyzers lb !! analyzer_ID j = Some j.
Proof.
  intros Hkeyed Hiter Hweight Hsome.
  destruct (iteration_ids _ _ Hkeyed Hiter) as [Hnodup Hstored].
  apply healthy_ids_NoDup in Hnodup.
  apply Exists_exists in Hsome as (a & Ha & Hc & Hw).
  assert (Hnonempty : LoadBalancer.healthy its <> []).
  { intros Hempty. rewrite Hempty in Ha. by apply elem_of_nil in Ha. }
  destruct (SelectAnalyzer_run lb its Hiter Hnonempty Hweight)
    as [[Hall _]|(before & j & after & Hsplit & Hres & _)].
  - exfalso.
    apply (Forall_bumped lb its (fun x => float64.gtb x (float64.ofZ (-1)) = false)
                         _ Hnodup) in Hall; [|done].
    assert (Hle := proj1 (Forall_forall _ _) Hall a Ha). cbn beta in Hle.
    pose proof (nonneg_above_minus_one _ (add_nonneg _ _ Hc Hw)) as Hgt.
    unfold LoadBalancer.bumped in Hle. by rewrite Hgt in Hle.
  - exists j. rewrite Hres. split; [done|].
    assert (Hj : j ∈ LoadBalancer.healthy its).
    { rewrite Hsplit. apply elem_of_app. right. by left. }
    apply healthy_elem_of in Hj as [Hin Hhealthy].
    split; [exact Hhealthy|by apply Hstored].
Qed.

(** ** Load balancer: runs that round nothing *)

Section Runs.

Import LoadBalancer.

Implicit Types (a j : Analyzer) (cw ow : gmap string float64.t) (its : list Analyzer).

Local Open Scope Q_scope.

Lemma ofNat_S n : ofNat (S n) == ofNat n + 1.
Proof. unfold ofNat. rewrite Nat2Z.inj_succ, <- Z.add_1_r, inject_Z_plus. reflexivity. Qed.

Lemma ofNat_0 : ofNat 0 == 0.
Proof. reflexivity. Qed.

Lemma iterations_perm (m : gmap string Analyzer) its its' :
  iterationOf m its -> iterationOf m its' -> Permutation its its'.
Proof. unfold iterationOf. intros H1 H2. by rewrite H1, H2. Qed.

Lemma healthy_iterations (m : gmap string Analyzer) its its' a :
  iterationOf m its -> iterationOf m its' -> a ∈ healthy its -> a ∈ healthy its'.
Proof.
  intros H1 H2 Ha.
  by rewrite <- (healthy_perm its its' (iterations_perm m its its' H1 H2)).
Qed.

Lemma exactOriginal_perm lb its its' :
  Permutation its its' -> exactOriginal lb its == exactOriginal lb its'.
Proof.
  intros Hperm. unfold exactOriginal. apply Qsum_perm.
  apply Permutation_map. by apply healthy_perm.
Qed.

Lemma exactOriginal_same lb lb' its :
  originalWeights lb' = originalWeights lb ->
  exactOriginal lb' its = exactOriginal lb its.
Proof. unfold exactOriginal. by intros ->. Qed.

(** One successful call that rounds nothing, seen from any visiting
    order [its]. *)
Lemma SelectAnalyzer_step lb visit its j :
  keyedByID (analyzers lb) ->
  iterationOf (analyzers lb) visit ->
  iterationOf (analyzers lb) its ->
  (SelectAnalyzer visit lb).1 = Some j ->
  exactCall visit lb ->
  forall a,
    a ∈ healthy its ->
    float64.toQ (weightOf (currentWeights (SelectAnalyzer visit lb).2) (analyzer_ID a))
    == float64.toQ (weightOf (currentWeights lb) (analyzer_ID a))
       + float64.toQ (weightOf (originalWeights lb) (analyzer_ID a))
       - (if String.eqb (analyzer_ID j) (analyzer_ID a)
          then exactOriginal lb its else 0).
Proof.
  intros Hkeyed Hvisit Hits Hsel (Htotal & Hbumps & Hsub) a Ha.
  rewrite Hsel in Hsub. destruct Htotal as [_ Htotal]. destruct Hsub as [_ Hsub].
  pose proof (iterations_perm _ _ _ Hits Hvisit) as Hperm.
  destruct (SelectAnalyzer_some lb visit j Hkeyed Hvisit Hsel)
    as (Hj & _ & _ & _ & Hpicked & Hothers).
  apply (healthy_iterations (analyzers lb) its visit a Hits Hvisit) in Ha.
  assert (Hbump := proj1 (Forall_forall _ _) Hbumps a Ha). cbn beta in Hbump.
  destruct Hbump as [_ Hbump].
  destruct (String.eqb_spec (analyzer_ID j) (analyzer_ID a)) as [Heq|Hne].
  - rewrite <- Heq, Hpicked, Hsub, Htotal.
    unfold bumped in Hbump |- *. rewrite <- Heq in Hbump. rewrite Hbump.
    rewrite (exactOriginal_perm lb its visit Hperm). reflexivity.
  - rewrite (Hothers a Ha); [|by apply not_eq_sym]. rewrite Hbump. lra.
Qed.

Lemma timesPicked_cons a j picked :
  ofNat (timesPicked a (j :: picked))
  == (if String.eqb (analyzer_ID j) (analyzer_ID a) then 1 else 0)
     + ofNat (timesPicked a picked).
Proof.
  unfold timesPicked. simpl.
  destruct (String.eqb (analyzer_ID j) (analyzer_ID a)); simpl length.
  - rewrite ofNat_S. lra.
  - lra.
Qed.

End Runs.

Lemma selectMany_accounting (orders : list (list Analyzer)) :
  forall (lb lb' : LoadBalancer.t) (picked its : list Analyzer),
    LoadBalancer.keyedByID (LoadBalancer.analyzers lb) ->
    LoadBalancer.iterationOf (LoadBalancer.analyzers lb) its ->
    Forall (LoadBalancer.iterationOf (LoadBalancer.analyzers lb)) orders ->
    LoadBalancer.exactRun orders lb ->
    LoadBalancer.selectMany orders lb = Some (picked, lb') ->
    forall a,
      a ∈ LoadBalancer.healthy its ->
      (float64.toQ (LoadBalancer.weightOf (LoadBalancer.currentWeights lb') (analyzer_ID a))
       == float64.toQ (LoadBalancer.weightOf (LoadBalancer.currentWeights lb) (analyzer_ID a))
          + LoadBalancer.ofNat (length orders)
            * float64.toQ
                (LoadBalancer.weightOf (LoadBalancer.originalWeights lb) (analyzer_ID a))
          - LoadBalancer.ofNat (LoadBalancer.timesPicked a picked)
            * LoadBalancer.exactOriginal lb its)%Q.
Proof.
  induction orders as [|visit rest IH];
    intros lb lb' picked its Hkeyed Hits Hall Hexact Hrun a Ha.
  - simpl in Hrun. injection Hrun as <- <-.
    unfold LoadBalancer.timesPicked. cbn [length List.filter].
    rewrite ofNat_0. ring.
  - apply Forall_cons in Hall as [Hvisit Hrest].
    destruct Hexact as [Hcall Hexact].
    simpl in Hrun.
    destruct (LoadBalancer.SelectAnalyzer visit lb) as [[j|] lb1] eqn:Hstep; [|done].
    destruct (LoadBalancer.selectMany rest lb1) as [[picked1 lb2]|] eqn:Hmany; [|done].
    injection Hrun as <- <-.
    assert (Hsel : (LoadBalancer.SelectAnalyzer visit lb).1 = Some j) by (by rewrite Hstep).
    pose proof (SelectAnalyzer_step lb visit its j Hkeyed Hvisit Hits Hsel Hcall a Ha)
      as Hweights.
    destruct (SelectAnalyzer_analyzers visit lb) as [Hreg Horig].
    rewrite Hstep in Hreg, Horig, Hweights. simpl in Hreg, Horig, Hweights, Hexact.
    pose proof (exactOriginal_same lb lb1 its Horig) as Hsame.
    rewrite (IH lb1 lb2 picked1 its); [| by rewrite Hreg | by rewrite Hreg
                                       | by rewrite Hreg | exact Hexact | exact Hmany
                                       | exact Ha].
    rewrite Hweights, Hsame, Horig, timesPicked_cons.
    simpl length. rewrite ofNat_S.
    destruct (String.eqb (analyzer_ID j) (analyzer_ID a)); ring.
Qed.

(** X22.  The books of a run of successful selections none of which
    rounds: for every healthy analyzer, the current weight afterwards is
    the current weight before, plus its original weight once per call,
    minus the sum of the healthy original weights once per time it was
    picked. *)
Theorem each_selection_is_paid_for_with_W_when_nothing_is_rounded
    (lb lb' : LoadBalancer.t) (its picked : list Analyzer)
    (orders : list (list Analyzer)) (a : Analyzer) :
  LoadBalancer.keyedByID (LoadBalancer.analyzers lb) ->
  LoadBalancer.iterationOf (LoadBalancer.analyzers lb) its ->
  Forall (LoadBalancer.iterationOf (LoadBalancer.analyzers lb)) orders ->
  LoadBalancer.exactRun orders lb ->
  LoadBalancer.selectMany orders lb = Some (picked, lb') ->
  a ∈ LoadBalancer.healthy its ->
  (float64.toQ (LoadBalancer.weightOf (LoadBalancer.currentWeights lb') (analyzer_ID a))
   == float64.toQ (LoadBalancer.weightOf (LoadBalancer.currentWeights lb) (analyzer_ID a))
      + LoadBalancer.ofNat (length orders)
        * float64.toQ (LoadBalancer.weightOf (LoadBalancer.originalWeights lb) (analyzer_ID a))
      - LoadBalancer.ofNat (LoadBalancer.timesPicked a picked)
        * LoadBalancer.exactOriginal lb its)%Q.
Proof. intros. by apply (selectMany_accounting orders lb lb' picked its). Qed.


(** ** The submission handler *)

Section Handler.

Import api.

(** One round of the loop either counts a failure and leaves the queue
    as it is, or counts a success, reports the id of the packet it
    submitted and has put that packet at the back of the queue. *)
Lemma SubmitLogs_body_cases uuid o d tally packet :
  let '(d', tally') := SubmitLogs_body uuid o d tally packet in
  (Distributor.packetChannel d' = Distributor.packetChannel d
   /\ successCount tally' = successCount tally
   /\ failCount tally' = GoInt.add (failCount tally) 1
   /\ processedPackets tally' = processedPackets tally)
  \/ (exists sent,
        Distributor.packetChannel d' = Distributor.packetChannel d ++ [sent]
        /\ successCount tally' = GoInt.add (successCount tally) 1
        /\ failCount tally' = failCount tally
        /\ processedPackets tally' = processedPackets tally ++ [ID sent]).
Proof.
  unfold SubmitLogs_body.
  destruct (GoInt.len (Messages packet) =? 0); [by left|].
  unfold Distributor.SubmitPacket.
  destruct (PacketValidator.ValidatePacket (assignID uuid packet)); [by left|].
  destruct o; cbn; [right; by eexists| by left | by left].
Qed.

Lemma SubmitLogs_loop_tally rounds :
  forall d tally,
    0 <= successCount tally -> 0 <= failCount tally ->
    successCount tally + failCount tally + GoInt.len rounds <= GoInt.max_int64 ->
    exists sent,
      Distributor.packetChannel (SubmitLogs_loop rounds d tally).1
      = Distributor.packetChannel d ++ sent
      /\ processedPackets (SubmitLogs_loop rounds d tally).2
         = processedPackets tally ++ (ID <$> sent)
      /\ successCount (SubmitLogs_loop rounds d tally).2
         = successCount tally + GoInt.len sent
      /\ failCount (SubmitLogs_loop rounds d tally).2
         = failCount tally + (GoInt.len rounds - GoInt.len sent)
      /\ GoInt.len sent <= GoInt.len rounds.
Proof.
  induction rounds as [|[[uuid o] packet] rest IH]; intros d tally Hs Hf Hfit.
  - exists []. cbn. rewrite !app_nil_r. unfold GoInt.len. cbn. repeat split; lia.
  - cbn [SubmitLogs_loop].
    pose proof (SubmitLogs_body_cases uuid o d tally packet) as Hbody.
    destruct (SubmitLogs_body uuid o d tally packet) as [d1 tally1].
    unfold GoInt.len in *. rewrite length_cons, Nat2Z.inj_succ in Hfit |- *.
    unfold GoInt.max_int64 in Hfit.
    destruct Hbody as [(Hch & Hsucc & Hfail & Hproc)|(one & Hch & Hsucc & Hfail & Hproc)].
    + unfold GoInt.add in Hfail.
      rewrite wrap64_in_range in Hfail by (unfold GoInt.in_range, GoInt.min_int64, GoInt.max_int64; lia).
      destruct (IH d1 tally1) as (sent & H1 & H2 & H3 & H4 & H5);
        [lia | lia | unfold GoInt.max_int64; lia |].
      exists sent. rewrite H1, H2, H3, H4, Hch, Hproc, Hsucc, Hfail.
      repeat split; lia.
    + unfold GoInt.add in Hsucc.
      rewrite wrap64_in_range in Hsucc by (unfold GoInt.in_range, GoInt.min_int64, GoInt.max_int64; lia).
      destruct (IH d1 tally1) as (sent & H1 & H2 & H3 & H4 & H5);
        [lia | lia | unfold GoInt.max_int64; lia |].
      exists (one :: sent).
      rewrite H1, H2, H3, H4, Hch, Hproc, Hsucc, Hfail, fmap_cons, <- !app_assoc.
      rewrite length_cons, Nat2Z.inj_succ. cbn [app].
      repeat split; lia.
Qed.

End Handler.

(** X24.  The answer of [SubmitLogs] adds up.  For a body of one to a
    thousand packets the handler answers with a body in which
    [total_packets] is the number of packets, [successful] and [failed]
    add up to it, and [processed_packets] lists, in order, exactly the
    ids of the packets the call has put on the packets queue; the status
    is 503 when none was queued, 202 when all were, and 207 otherwise. *)
Theorem SubmitLogs_reports_what_it_queued
    (rounds : list (string * Distributor.SelectOutcome * LogPacket)) (d : Distributor.t) :
  0 < GoInt.len rounds <= config.MaxMessagesPerPacket ->
  exists sent,
    handlers.SubmitLogs rounds d
    = (if GoInt.len sent =? 0 then handlers.StatusServiceUnavailable
       else if GoInt.len sent =? GoInt.len rounds then handlers.StatusAccepted
       else handlers.StatusMultiStatus,
       Some {| handlers.total_packets := GoInt.len rounds;
               handlers.successful := GoInt.len sent;
               handlers.failed := GoInt.len rounds - GoInt.len sent;
               handlers.processed_packets := ID <$> sent |},
       (handlers.SubmitLogs rounds d).2)
    /\ Distributor.packetChannel (handlers.SubmitLogs rounds d).2
       = Distributor.packetChannel d ++ sent
    /\ GoInt.len sent <= GoInt.len rounds.
Proof.
  intros [Hpos Hmax]. unfold config.MaxMessagesPerPacket in Hmax.
  pose (tally0 := {| api.successCount := 0; api.failCount := 0; api.processedPackets := [] |}).
  destruct (SubmitLogs_loop_tally rounds d tally0) as (sent & Hch & Hproc & Hsucc & Hfail & Hle);
    [done | done | cbn; unfold GoInt.max_int64; lia |].
  exists sent. unfold handlers.SubmitLogs.
  destruct (GoInt.len rounds =? 0) eqn:Hzero; [lia|].
  destruct (GoInt.len rounds >? config.MaxMessagesPerPacket) eqn:Hmany;
    [unfold config.MaxMessagesPerPacket in Hmany; lia|].
  fold tally0.
  destruct (api.SubmitLogs_loop rounds d tally0) as [d' tally'] eqn:Hloop.
  cbn [fst snd] in *. cbn in Hsucc, Hfail, Hproc.
  rewrite Z.add_0_l in Hsucc, Hfail.
  split; [|by split].
  rewrite Hsucc, Hfail, Hproc. f_equal. f_equal.
  assert (0 <= GoInt.len sent) by (unfold GoInt.len; lia).
  destruct (Z.gtb_spec (GoInt.len rounds - GoInt.len sent) 0) as [Hfailed|Hfailed];
    destruct (Z.eqb_spec (GoInt.len sent) 0) as [Hnone|Hnone];
    destruct (Z.eqb_spec (GoInt.len sent) (GoInt.len rounds)) as [Hall|Hall];
    cbn; first [reflexivity | lia].
Qed.

(** X25.  [SubmitLogs] refuses an empty body and a body of more than a
    thousand packets with status 400, and then submits nothing: the
    distributor is left as it was. *)
Theorem SubmitLogs_refuses_empty_and_oversized_bodies
    (rounds : list (string * Distributor.SelectOutcome * LogPacket)) (d : Distributor.t) :
  GoInt.len rounds = 0 \/ config.MaxMessagesPerPacket < GoInt.len rounds ->
  handlers.SubmitLogs rounds d = (handlers.StatusBadRequest, None, d).
Proof.
  intros Hlen. unfold handlers.SubmitLogs.
  destruct (GoInt.len rounds =? 0) eqn:Hzero; [done|].
  destruct (GoInt.len rounds >? config.MaxMessagesPerPacket) eqn:Hmany; [done|].
  unfold config.MaxMessagesPerPacket in *. lia.
Qed.

(** ** Health monitor *)

Section Health.

Import HealthMonitor.

Implicit Types (m : gmap string Analyzer) (probes : list (string * bool * Time)).

(** The loop of [checkAnalyzerHealth] from any starting point, when no
    key is probed twice. *)
Lemma checkAnalyzerHealth_acc probes :
  forall (healthChanged : bool) m,
    NoDup (fst <$> (fst <$> probes)) ->
    let r :=
      foldl (fun '(healthChanged, m) '(key, isHealthy, now) =>
               match m !! key with
               | Some analyzer =>
                   (healthChanged || negb (Bool.eqb (IsHealthy analyzer) isHealthy),
                    <[key := LoadBalancer.probed isHealthy now analyzer]> m)
               | None => (healthChanged, m)
               end)
            (healthChanged, m) probes in
    (forall key isHealthy now,
       (key, isHealthy, now) ∈ probes ->
       r.2 !! key = LoadBalancer.probed isHealthy now <$> m !! key)
    /\ (forall key, key ∉ fst <$> (fst <$> probes) -> r.2 !! key = m !! key)
    /\ (r.1 = true <->
        healthChanged = true
        \/ exists key isHealthy now analyzer,
             (key, isHealthy, now) ∈ probes /\ m !! key = Some analyzer
             /\ IsHealthy analyzer <> isHealthy).
Proof.
  induction probes as [|[[key isHealthy] now] rest IH]; intros healthChanged m Hnodup r.
  - subst r. cbn. split; [intros ??? Hin; by apply elem_of_nil in Hin|].
    split; [done|]. split; [by left|].
    intros [H|(?&?&?&?&Hin&_)]; [done|by apply elem_of_nil in Hin].
  - rewrite !fmap_cons in Hnodup. cbn [fst] in Hnodup.
    apply NoDup_cons in Hnodup as [Hfresh Hnodup].
    subst r. cbn [foldl].
    set (acc := match m !! key with
                | Some analyzer =>
                    (healthChanged || negb (Bool.eqb (IsHealthy analyzer) isHealthy),
                     <[key := LoadBalancer.probed isHealthy now analyzer]> m)
                | None => (healthChanged, m)
                end).
    assert (Hother : forall key', key' <> key -> acc.2 !! key' = m !! key').
    { intros key' Hne. subst acc. destruct (m !! key); [|done].
      cbn. by rewrite lookup_insert_ne. }
    assert (Hsame : acc.2 !! key = LoadBalancer.probed isHealthy now <$> m !! key).
    { subst acc. destruct (m !! key) as [analyzer|] eqn:Hkey; cbn.
      - by rewrite lookup_insert_eq.
      - by rewrite Hkey. }
    assert (Hflag : acc.1 = true <->
                    healthChanged = true
                    \/ exists analyzer, m !! key = Some analyzer
                                        /\ IsHealthy analyzer <> isHealthy).
    { subst acc. destruct (m !! key) as [analyzer|] eqn:Hkey; cbn.
      - rewrite orb_true_iff. split.
        + intros [H|H]; [by left|right]. exists analyzer. split; [done|].
          intros Heq. rewrite Heq, Bool.eqb_reflx in H. done.
        + intros [H|(a & [= <-] & Hne)]; [by left|right].
          destruct (IsHealthy analyzer), isHealthy; done.
      - split; [by left|]. by intros [H|(a & Hsome & _)]. }
    destruct acc as [healthChanged1 m1] eqn:Hacc. cbn [fst snd] in *.
    destruct (IH healthChanged1 m1 Hnodup) as (Hprobed & Hrest & Hchanged).
    cbn zeta in Hprobed, Hrest, Hchanged.
    split; [|split].
    + intros key' isHealthy' now' Hin.
      apply elem_of_cons in Hin as [[= -> -> ->]|Hin].
      * by rewrite (Hrest key Hfresh).
      * rewrite (Hprobed key' isHealthy' now' Hin).
        rewrite Hother; [done|]. intros ->. apply Hfresh.
        apply list_elem_of_fmap. exists (key, isHealthy'). split; [done|].
        apply list_elem_of_fmap. by exists (key, isHealthy', now').
    + intros key' Hout. rewrite !fmap_cons in Hout. cbn [fst] in Hout.
      apply not_elem_of_cons in Hout as [Hne Hout].
      rewrite (Hrest key' Hout). by apply Hother.
    + rewrite Hchanged, Hflag. split.
      * intros [[H|(analyzer & Hkey & Hne)]|(key' & b & t & analyzer & Hin & Hkey & Hne)].
        -- by left.
        -- right. exists key, isHealthy, now, analyzer. split; [apply list_elem_of_here|done].
        -- right. exists key', b, t, analyzer. split; [by apply list_elem_of_further|].
           split; [|done]. rewrite <- Hother; [done|].
           intros ->. apply Hfresh.
           apply list_elem_of_fmap. exists (key, b). split; [done|].
           apply list_elem_of_fmap. by exists (key, b, t).
      * intros [H|(key' & b & t & analyzer & Hin & Hkey & Hne)]; [by left; left|].
        apply elem_of_cons in Hin as [[= -> -> ->]|Hin].
        -- left; right. by exists analyzer.
        -- right. exists key', b, t, analyzer. split; [done|]. split; [|done].
           rewrite Hother; [done|]. intros ->. apply Hfresh.
           apply list_elem_of_fmap. exists (key, b). split; [done|].
           apply list_elem_of_fmap. by exists (key, b, t).
Qed.

Lemma probesOf_keys m probes :
  probesOf m probes ->
  NoDup (fst <$> (fst <$> probes))
  /\ forall key, key ∈ fst <$> (fst <$> probes) <-> is_Some (m !! key).
Proof.
  unfold probesOf. intros Hperm. split.
  - rewrite Hperm. apply NoDup_fst_map_to_list.
  - intros key. rewrite Hperm. rewrite list_elem_of_fmap. split.
    + intros ([k a] & -> & Hin). apply elem_of_map_to_list in Hin. by exists a.
    + intros [a Ha]. exists (key, a). split; [done|]. by apply elem_of_map_to_list.
Qed.

Lemma checkAnalyzerHealth_spec m probes :
  probesOf m probes ->
  (forall key analyzer,
     m !! key = Some analyzer ->
     exists isHealthy now,
       (key, isHealthy, now) ∈ probes
       /\ (checkAnalyzerHealth probes m).2 !! key
          = Some (LoadBalancer.probed isHealthy now analyzer))
  /\ (forall key, m !! key = None -> (checkAnalyzerHealth probes m).2 !! key = None)
  /\ ((checkAnalyzerHealth probes m).1 = true <->
      exists key isHealthy now analyzer,
        (key, isHealthy, now) ∈ probes /\ m !! key = Some analyzer
        /\ IsHealthy analyzer <> isHealthy).
Proof.
  intros Hprobes. destruct (probesOf_keys m probes Hprobes) as [Hnodup Hkeys].
  destruct (checkAnalyzerHealth_acc probes false m Hnodup) as (Hprobed & Hrest & Hchanged).
  cbn zeta in Hprobed, Hrest, Hchanged.
  unfold checkAnalyzerHealth.
  split; [|split].
  - intros key analyzer Hkey.
    assert (Hin : key ∈ fst <$> (fst <$> probes)) by (apply Hkeys; by exists analyzer).
    apply list_elem_of_fmap in Hin as ([key' isHealthy] & -> & Hin).
    apply list_elem_of_fmap in Hin as ([[key'' isHealthy'] now] & [= <- <-] & Hin).
    exists isHealthy, now. split; [done|].
    cbn [fst] in Hkey |- *. by rewrite (Hprobed _ _ _ Hin), Hkey.
  - intros key Hnone. rewrite Hrest; [done|].
    intros Hin. apply Hkeys in Hin as [a Ha]. by rewrite Hnone in Ha.
  - rewrite Hchanged. split; [intros [H|H]; [done|exact H]|by right].
Qed.

End Health.

(** X26.  One round of [checkAnalyzerHealth] that probes every analyzer
    once: each analyzer keeps its key and every field but [IsHealthy] and
    [LastHealthCheck], which become the outcome and the time of its
    probe; no key is added; a map keyed by id stays keyed by id; and the
    round reports a change exactly when some probe differs from the
    health flag it replaces. *)
Theorem checkAnalyzerHealth_reports_exactly_the_flipped_flags
    (probes : list (string * bool * Time)) (analyzers : gmap string Analyzer) :
  HealthMonitor.probesOf analyzers probes ->
  (forall key analyzer,
     analyzers !! key = Some analyzer ->
     exists isHealthy now,
       (key, isHealthy, now) ∈ probes
       /\ (HealthMonitor.checkAnalyzerHealth probes analyzers).2 !! key
          = Some {| analyzer_ID := analyzer_ID analyzer;
                    Name := Name analyzer;
                    Weight := Weight analyzer;
                    ProcessingTimeMs := ProcessingTimeMs analyzer;
                    IsHealthy := isHealthy;
                    LastHealthCheck := now;
                    ProcessedCount := ProcessedCount analyzer;
                    ErrorCount := ErrorCount analyzer |})
  /\ (forall key,
        analyzers !! key = None ->
        (HealthMonitor.checkAnalyzerHealth probes analyzers).2 !! key = None)
  /\ (LoadBalancer.keyedByID analyzers ->
      LoadBalancer.keyedByID (HealthMonitor.checkAnalyzerHealth probes analyzers).2)
  /\ ((HealthMonitor.checkAnalyzerHealth probes analyzers).1 = true <->
      exists key isHealthy now analyzer,
        (key, isHealthy, now) ∈ probes /\ analyzers !! key = Some analyzer
        /\ IsHealthy analyzer <> isHealthy).
Proof.
  intros Hprobes.
  destruct (checkAnalyzerHealth_spec analyzers probes Hprobes) as (Hsome & Hnone & Hchanged).
  split; [exact Hsome|]. split; [exact Hnone|]. split; [|exact Hchanged].
  intros Hkeyed key a Ha.
  destruct (analyzers !! key) as [analyzer|] eqn:Hkey.
  - destruct (Hsome key analyzer Hkey) as (isHealthy & now & _ & Hnew).
    rewrite Hnew in Ha. injection Ha as <-. cbn. by apply Hkeyed.
  - by rewrite (Hnone key Hkey) in Ha.
Qed.

(** ** The workers of the pipeline *)

(** X27.  One tick of the health checker with the distributor's
    callback, every analyzer being probed once.  The registry becomes the
    probed one and the original weights stay.  If no flag flipped the
    current weights are not touched.  If one did, every analyzer whose
    probe found it healthy has its current weight reset to its original
    weight, and every analyzer whose probe found it unhealthy keeps the
    current weight it had. *)
Theorem health_change_resets_the_weights_of_the_analyzers_found_healthy
    (probes : list (string * bool * Time)) (its : list Analyzer) (lb : LoadBalancer.t) :
  LoadBalancer.keyedByID (LoadBalancer.analyzers lb) ->
  HealthMonitor.probesOf (LoadBalancer.analyzers lb) probes ->
  LoadBalancer.iterationOf
    (HealthMonitor.checkAnalyzerHealth probes (LoadBalancer.analyzers lb)).2 its ->
  LoadBalancer.analyzers (HealthMonitor.tick probes its lb)
  = (HealthMonitor.checkAnalyzerHealth probes (LoadBalancer.analyzers lb)).2
  /\ LoadBalancer.originalWeights (HealthMonitor.tick probes its lb)
     = LoadBalancer.originalWeights lb
  /\ ((HealthMonitor.checkAnalyzerHealth probes (LoadBalancer.analyzers lb)).1 = false ->
      LoadBalancer.currentWeights (HealthMonitor.tick probes its lb)
      = LoadBalancer.currentWeights lb)
  /\ ((HealthMonitor.checkAnalyzerHealth probes (LoadBalancer.analyzers lb)).1 = true ->
      forall (key : string) (isHealthy : bool) (now : Time) (analyzer : Analyzer),
        (key, isHealthy, now) ∈ probes ->
        LoadBalancer.analyzers lb !! key = Some analyzer ->
        LoadBalancer.currentWeights (HealthMonitor.tick probes its lb) !! key
        = if isHealthy
          then Some (LoadBalancer.weightOf (LoadBalancer.originalWeights lb) key)
          else LoadBalancer.currentWeights lb !! key).
Proof.
  intros Hkeyed Hprobes Hits.
  destruct (probesOf_keys _ _ Hprobes) as [Hnodup _].
  destruct (checkAnalyzerHealth_acc probes false (LoadBalancer.analyzers lb) Hnodup)
    as (Hprobed & _ & _).
  cbn zeta in Hprobed.
  change (foldl _ (false, LoadBalancer.analyzers lb) probes)
    with (HealthMonitor.checkAnalyzerHealth probes (LoadBalancer.analyzers lb)) in Hprobed.
  destruct (checkAnalyzerHealth_spec _ _ Hprobes) as (Hsome & Hnone & _).
  assert (Hkeyed' : LoadBalancer.keyedByID
                      (HealthMonitor.checkAnalyzerHealth probes (LoadBalancer.analyzers lb)).2).
  { intros key a Ha.
    destruct (LoadBalancer.analyzers lb !! key) as [analyzer|] eqn:Hkey.
    - destruct (Hsome key analyzer Hkey) as (isHealthy & now & _ & Hnew).
      rewrite Hnew in Ha. injection Ha as <-. cbn. by apply Hkeyed.
    - by rewrite (Hnone key Hkey) in Ha. }
  destruct (iteration_ids _ _ Hkeyed' Hits) as [Hids Hstored].
  unfold HealthMonitor.tick.
  destruct (HealthMonitor.checkAnalyzerHealth probes (LoadBalancer.analyzers lb))
    as [healthChanged m] eqn:Hcheck.
  cbn [fst snd] in *.
  split; [by destruct healthChanged|]. split; [by destruct healthChanged|].
  split; [by intros ->|]. intros -> key isHealthy now analyzer Hin Hkey.
  unfold LoadBalancer.UpdateWeights. cbn [LoadBalancer.currentWeights LoadBalancer.analyzers
                                          LoadBalancer.originalWeights].
  rewrite UpdateWeights_lookup.
  pose proof (Hprobed key isHealthy now Hin) as Hnew. rewrite Hkey in Hnew. cbn in Hnew.
  assert (Hvisited : LoadBalancer.probed isHealthy now analyzer ∈ its).
  { unfold LoadBalancer.iterationOf in Hits. rewrite Hits.
    apply list_elem_of_fmap. exists (key, LoadBalancer.probed isHealthy now analyzer).
    split; [done|]. by apply elem_of_map_to_list. }
  assert (Hid : analyzer_ID (LoadBalancer.probed isHealthy now analyzer) = key).
  { cbn. by apply Hkeyed. }
  destruct isHealthy.
  - rewrite decide_True; [done|].
    rewrite <- Hid. apply list_elem_of_fmap_2. by apply healthy_elem_of.
  - rewrite decide_False; [done|].
    intros Hhealthy. apply list_elem_of_fmap in Hhealthy as (b & Hb & Hbin).
    apply healthy_elem_of in Hbin as [Hbin Hbhealthy].
    pose proof (Hstored b Hbin) as Hbstored. rewrite <- Hb, Hnew in Hbstored.
    injection Hbstored as <-. done.
Qed.

Section Workers.

Import Pipeline.

Lemma distributePacket_selected its o st packet j lb1 :
  LoadBalancer.SelectAnalyzer its (loadBalancer st) = (Some j, lb1) ->
  distributePacket its o st packet
  = {| distributor := distributor st; analyzers := analyzers st; loadBalancer := lb1;
       dispatched := dispatched st ++ [(analyzer_ID j, packet)];
       resultChannel := resultChannel st;
       totalMessagesRouted :=
         GoInt.add (totalMessagesRouted st) (GoInt.len (Messages packet));
       deadLetterFile := deadLetterFile st; isRunning := isRunning st |}.
Proof. unfold distributePacket. by intros ->. Qed.

Lemma selected_is_registered its lb j :
  LoadBalancer.keyedByID (LoadBalancer.analyzers lb) ->
  LoadBalancer.iterationOf (LoadBalancer.analyzers lb) its ->
  (LoadBalancer.SelectAnalyzer its lb).1 = Some j ->
  LoadBalancer.analyzers lb !! analyzer_ID j = Some j /\ IsHealthy j = true.
Proof.
  intros Hkeyed Hits Hsel.
  destruct (SelectAnalyzer_some lb its j Hkeyed Hits Hsel) as (Hj & _).
  apply healthy_elem_of in Hj as [Hin Hhealthy].
  destruct (iteration_ids _ _ Hkeyed Hits) as [_ Hstored].
  split; [by apply Hstored|done].
Qed.

End Workers.

(** X28.  A packet goes through.  On a pipeline with empty queues, a
    valid packet is submitted, a worker hands it to the analyzer the
    balancer selects, the analyzer succeeds, the result is delivered and
    a result worker takes it.  Afterwards the queues are empty again, the
    packet's id is no longer in flight, the packet was received and its
    messages were routed once, the selected analyzer of the balancer's
    registry has processed one more packet, and nothing else moved: no
    retry, no dead letter, and the distributor's own analyzers map, the
    one a snapshot records, does not show the processing. *)
Theorem a_delivered_packet_leaves_the_pipeline_clean
    (enc : PacketProcessor.Encoder) (its : list Analyzer)
    (o : Pipeline.RequeueOutcome) (wr wr' : RetryHandler.WriteOutcome)
    (processedAt interruptedAt failedAt now : Time)
    (st : Pipeline.t) (packet : LogPacket) (j : Analyzer) :
  PacketValidator.ValidatePacket packet = None ->
  Pipeline.packetChannel st = [] ->
  Pipeline.dispatched st = [] ->
  Pipeline.resultChannel st = [] ->
  LoadBalancer.keyedByID (LoadBalancer.analyzers (Pipeline.loadBalancer st)) ->
  LoadBalancer.iterationOf (LoadBalancer.analyzers (Pipeline.loadBalancer st)) its ->
  (LoadBalancer.SelectAnalyzer its (Pipeline.loadBalancer st)).1 = Some j ->
  Pipeline.processResults_step now wr'
    (Pipeline.sendToAnalyzer enc true processedAt interruptedAt failedAt
       Pipeline.Delivered wr
       (Pipeline.processPackets_step its o
          (Pipeline.SubmitPacket Distributor.Enqueued st packet).2))
  = {| Pipeline.distributor :=
         {| Distributor.retryHandler :=
              RetryHandler.UntrackPacket (Pipeline.retryHandler st) (ID packet);
            Distributor.packetChannel := [];
            Distributor.totalPacketsReceived :=
              GoInt.add (Distributor.totalPacketsReceived (Pipeline.distributor st)) 1 |};
       Pipeline.analyzers := Pipeline.analyzers st;
       Pipeline.loadBalancer :=
         {| LoadBalancer.analyzers :=
              <[analyzer_ID j :=
                  {| analyzer_ID := analyzer_ID j; Name := Name j; Weight := Weight j;
                     ProcessingTimeMs := ProcessingTimeMs j; IsHealthy := IsHealthy j;
                     LastHealthCheck := LastHealthCheck j;
                     ProcessedCount := GoInt.add (ProcessedCount j) 1;
                     ErrorCount := ErrorCount j |}]>
                (LoadBalancer.analyzers (Pipeline.loadBalancer st));
            LoadBalancer.currentWeights :=
              LoadBalancer.currentWeights
                (LoadBalancer.SelectAnalyzer its (Pipeline.loadBalancer st)).2;
            LoadBalancer.originalWeights :=
              LoadBalancer.originalWeights (Pipeline.loadBalancer st) |};
       Pipeline.dispatched := [];
       Pipeline.resultChannel := [];
       Pipeline.totalMessagesRouted :=
         GoInt.add (Pipeline.totalMessagesRouted st) (GoInt.len (Messages packet));
       Pipeline.deadLetterFile := Pipeline.deadLetterFile st;
       Pipeline.isRunning := Pipeline.isRunning st |}.
Proof.
  intros Hvalid Hqueue Hdispatched Hresults Hkeyed Hits Hsel.
  destruct (selected_is_registered its _ j Hkeyed Hits Hsel) as [Hstored _].
  destruct (SelectAnalyzer_analyzers its (Pipeline.loadBalancer st)) as [Hreg Horig].
  destruct (LoadBalancer.SelectAnalyzer its (Pipeline.loadBalancer st))
    as [selected lb1] eqn:Hstep.
  cbn [fst snd] in *. subst selected.
  unfold Pipeline.SubmitPacket.
  rewrite (SubmitPacket_enqueued (Pipeline.distributor st) packet Hvalid).
  destruct st as [[r ch total] own lb disp res routed file running].
  unfold Pipeline.packetChannel in Hqueue.
  cbn [Pipeline.distributor Pipeline.loadBalancer Pipeline.dispatched
       Pipeline.resultChannel Distributor.packetChannel] in *.
  subst ch disp res.
  unfold Pipeline.processPackets_step, Pipeline.packetChannel, Pipeline.withDistributor,
    Pipeline.withPacketChannel.
  cbn [snd app Pipeline.distributor Distributor.packetChannel Distributor.retryHandler
       Distributor.totalPacketsReceived Pipeline.analyzers Pipeline.loadBalancer
       Pipeline.dispatched Pipeline.resultChannel Pipeline.totalMessagesRouted
       Pipeline.deadLetterFile Pipeline.isRunning].
  erewrite distributePacket_selected by exact Hstep.
  unfold Pipeline.sendToAnalyzer, Pipeline.withDistributor.
  cbn [app Pipeline.distributor Pipeline.analyzers Pipeline.loadBalancer
       Pipeline.dispatched Pipeline.resultChannel Pipeline.totalMessagesRouted
       Pipeline.deadLetterFile Pipeline.isRunning].
  rewrite Hreg, Hstored.
  unfold PacketProcessor.ProcessPacket, Pipeline.processResults_step.
  cbn [app Success PacketID Pipeline.distributor Pipeline.analyzers Pipeline.loadBalancer
       Pipeline.dispatched Pipeline.resultChannel Pipeline.totalMessagesRouted
       Pipeline.deadLetterFile Pipeline.isRunning].
  unfold Pipeline.withRetryHandler, Pipeline.withDistributor, Pipeline.retryHandler.
  cbn [Pipeline.distributor Pipeline.analyzers Pipeline.loadBalancer Pipeline.dispatched
       Pipeline.resultChannel Pipeline.totalMessagesRouted Pipeline.deadLetterFile
       Pipeline.isRunning Distributor.retryHandler Distributor.packetChannel
       Distributor.totalPacketsReceived].
  rewrite Horig.
  assert (Huntrack :
    RetryHandler.UntrackPacket (RetryHandler.TrackPacket r packet) (ID packet)
    = RetryHandler.UntrackPacket r (ID packet)).
  { unfold RetryHandler.UntrackPacket, RetryHandler.TrackPacket. cbn.
    by rewrite delete_insert_eq. }
  by rewrite Huntrack.
Qed.

(** X29.  A result that cannot be delivered is handled as a failure even
    when the analyzer succeeded.  The analyzer has counted the packet as
    processed, the result channel does not receive the result, and the
    packet, tracked with budget left, stays in flight with its count
    incremented and a retry scheduled after count * 4 seconds: it will be
    processed again. *)
Theorem an_undelivered_success_is_retried
    (enc : PacketProcessor.Encoder) (processedAt interruptedAt failedAt : Time)
    (o : Pipeline.DeliveryOutcome) (wr : RetryHandler.WriteOutcome) (st : Pipeline.t)
    (key : string) (packet tracked : LogPacket) (rest : list (string * LogPacket))
    (analyzer : Analyzer) :
  Pipeline.dispatched st = (key, packet) :: rest ->
  LoadBalancer.analyzers (Pipeline.loadBalancer st) !! key = Some analyzer ->
  Distributor.inFlight (Pipeline.distributor st) !! ID packet = Some tracked ->
  0 <= RetryCount tracked < config.MaxRetries ->
  o <> Pipeline.Delivered ->
  Pipeline.sendToAnalyzer enc true processedAt interruptedAt failedAt o wr st
  = {| Pipeline.distributor :=
         {| Distributor.retryHandler :=
              {| RetryHandler.packetMap :=
                   <[ID packet :=
                       mkLogPacket (ID tracked) (Messages tracked) (RetryCount tracked + 1)]>
                     (Distributor.inFlight (Pipeline.distributor st));
                 RetryHandler.retryChannel :=
                   RetryHandler.retryChannel (Pipeline.retryHandler st);
                 RetryHandler.scheduled :=
                   RetryHandler.scheduled (Pipeline.retryHandler st)
                   ++ [(mkLogPacket (ID tracked) (Messages tracked) (RetryCount tracked + 1),
                        (RetryCount tracked + 1) * (4 * config.Second))] |};
            Distributor.packetChannel := Pipeline.packetChannel st;
            Distributor.totalPacketsReceived :=
              Distributor.totalPacketsReceived (Pipeline.distributor st) |};
       Pipeline.analyzers := Pipeline.analyzers st;
       Pipeline.loadBalancer :=
         {| LoadBalancer.analyzers :=
              <[key :=
                  {| analyzer_ID := analyzer_ID analyzer; Name := Name analyzer;
                     Weight := Weight analyzer;
                     ProcessingTimeMs := ProcessingTimeMs analyzer;
                     IsHealthy := IsHealthy analyzer;
                     LastHealthCheck := LastHealthCheck analyzer;
                     ProcessedCount := GoInt.add (ProcessedCount analyzer) 1;
                     ErrorCount := ErrorCount analyzer |}]>
                (LoadBalancer.analyzers (Pipeline.loadBalancer st));
            LoadBalancer.currentWeights :=
              LoadBalancer.currentWeights (Pipeline.loadBalancer st);
            LoadBalancer.originalWeights :=
              LoadBalancer.originalWeights (Pipeline.loadBalancer st) |};
       Pipeline.dispatched := rest;
       Pipeline.resultChannel := Pipeline.resultChannel st;
       Pipeline.totalMessagesRouted := Pipeline.totalMessagesRouted st;
       Pipeline.deadLetterFile := Pipeline.deadLetterFile st;
       Pipeline.isRunning := Pipeline.isRunning st |}.
Proof.
  intros Hdispatched Hkey Htracked [Hlow Hhigh] Hlost.
  assert (Hlt : RetryCount tracked < config.MaxRetries) by exact Hhigh.
  unfold config.MaxRetries in Hhigh.
  assert (Hrange : GoInt.in_range (RetryCount tracked)).
  { unfold GoInt.in_range, GoInt.min_int64, GoInt.max_int64. lia. }
  assert (Hincr : RetryHandler.incrRetryCount tracked
                  = mkLogPacket (ID tracked) (Messages tracked) (RetryCount tracked + 1)).
  { unfold RetryHandler.incrRetryCount. f_equal.
    apply (incrRetryCount_below tracked Hrange Hlt). }
  assert (Hdelay : RetryHandler.backoffDuration
                     (mkLogPacket (ID tracked) (Messages tracked) (RetryCount tracked + 1))
                   = (RetryCount tracked + 1) * (4 * config.Second)).
  { rewrite backoffDuration_exact by (cbn; lia).
    cbn [RetryCount]. unfold config.RetryBackoffFactor, config.BaseRetryDelay. lia. }
  destruct st as [[r ch total] own lb disp res routed file running].
  unfold Distributor.inFlight, Pipeline.retryHandler, Pipeline.packetChannel in *.
  cbn [Pipeline.distributor Pipeline.loadBalancer Pipeline.dispatched
       Pipeline.resultChannel Pipeline.analyzers Pipeline.totalMessagesRouted
       Pipeline.deadLetterFile Pipeline.isRunning Distributor.retryHandler
       Distributor.packetChannel Distributor.totalPacketsReceived] in *.
  subst disp.
  unfold Pipeline.sendToAnalyzer.
  cbn [Pipeline.dispatched Pipeline.loadBalancer]. rewrite Hkey.
  unfold PacketProcessor.ProcessPacket, Pipeline.handleFailure, Pipeline.failureResult,
    Pipeline.withRetryHandler, Pipeline.withDistributor, Pipeline.retryHandler.
  cbn [Pipeline.distributor Pipeline.loadBalancer Pipeline.dispatched
       Pipeline.resultChannel Pipeline.analyzers Pipeline.totalMessagesRouted
       Pipeline.deadLetterFile Pipeline.isRunning Distributor.retryHandler
       Distributor.packetChannel Distributor.totalPacketsReceived].
  destruct o; [done| |].
  all: erewrite (HandleFailedPacket_retry failedAt wr r file _ tracked);
    [|exact Htracked|exact Hlt].
  all: cbn [PacketID]; by rewrite Hincr, Hdelay.
Qed.

(** X30.  A worker that takes a packet when no analyzer is healthy, or
    when the healthy original weights sum to zero, routes nothing: no
    goroutine is started, no counter moves and the balancer is left as it
    was.  The packet returns to the back of the queue if the delayed send
    goes through; otherwise it is in no queue any more, while the retry
    handler keeps tracking it. *)
Theorem a_packet_without_a_healthy_analyzer_is_requeued_or_stranded
    (its : list Analyzer) (o : Pipeline.RequeueOutcome) (st : Pipeline.t)
    (packet : LogPacket) (rest : list LogPacket) :
  Pipeline.packetChannel st = packet :: rest ->
  LoadBalancer.healthy its = []
  \/ float64.eqb (LoadBalancer.totalOriginal (Pipeline.loadBalancer st) its) float64.zero
     = true ->
  Pipeline.processPackets_step its o st
  = Pipeline.withPacketChannel
      (match o with
       | Pipeline.Requeue_Sent => rest ++ [packet]
       | _ => rest
       end) st
  /\ Distributor.inFlight (Pipeline.distributor (Pipeline.processPackets_step its o st))
     = Distributor.inFlight (Pipeline.distributor st)
  /\ Pipeline.dispatched (Pipeline.processPackets_step its o st) = Pipeline.dispatched st
  /\ Pipeline.totalMessagesRouted (Pipeline.processPackets_step its o st)
     = Pipeline.totalMessagesRouted st
  /\ Pipeline.loadBalancer (Pipeline.processPackets_step its o st)
     = Pipeline.loadBalancer st.
Proof.
  intros Hqueue Hnone.
  assert (Hstep : Pipeline.processPackets_step its o st
                  = Pipeline.withPacketChannel
                      (match o with
                       | Pipeline.Requeue_Sent => rest ++ [packet]
                       | _ => rest
                       end) st).
  { unfold Pipeline.processPackets_step. rewrite Hqueue.
    unfold Pipeline.distributePacket.
    destruct st as [[r ch total] own lb disp res routed file running].
    cbn [Pipeline.withPacketChannel Pipeline.withDistributor Pipeline.loadBalancer] in *.
    rewrite (SelectAnalyzer_none lb its Hnone).
    by destruct o. }
  rewrite Hstep. split; [reflexivity|]. by destruct o.
Qed.

(** ** The further properties at the sample states *)

Lemma tracking_keyed :
  RetryQueries.keyedByID (RetryHandler.packetMap Fixtures.tracking).
Proof.
  intros key packet. unfold Fixtures.tracking, RetryHandler.TrackPacket. cbn.
  rewrite lookup_insert. case_decide as Hkey; [intros [= <-]; exact Hkey|].
  by rewrite lookup_empty.
Qed.

Lemma tracking_within_budget :
  RetryQueries.withinBudget (RetryHandler.packetMap Fixtures.tracking).
Proof.
  intros key packet. unfold Fixtures.tracking, RetryHandler.TrackPacket. cbn.
  rewrite lookup_insert. case_decide as Hkey; [intros [= <-]; by vm_compute|].
  by rewrite lookup_empty.
Qed.

Lemma zero_in_range : GoInt.in_range 0.
Proof. by vm_compute. Qed.

(** X1 at a handler that tracks the sample packet. *)
Lemma retry_handler_stores_packets_under_their_ids_witness :
  RetryQueries.keyedByID
    (RetryHandler.packetMap
       (RetryHandler.HandleFailedPacket 0 RetryHandler.Written Fixtures.tracking
          RetryHandler.Missing Samples.failure).1).
Proof.
  destruct (retry_handler_stores_packets_under_their_ids Fixtures.tracking tracking_keyed)
    as (_ & _ & _ & Hfailed & _).
  apply Hfailed.
Defined.

(** X2 at the same handler. *)
Lemma HandleFailedPacket_keeps_retry_counts_within_budget_witness :
  RetryQueries.withinBudget
    (RetryHandler.packetMap
       (RetryHandler.HandleFailedPacket 0 RetryHandler.Written Fixtures.tracking
          RetryHandler.Missing Samples.failure).1).
Proof.
  destruct (HandleFailedPacket_keeps_retry_counts_within_budget 0 RetryHandler.Written
              Fixtures.tracking RetryHandler.Missing Samples.failure tracking_within_budget)
    as [Hbudget _].
  exact Hbudget.
Defined.

(** X4 at the sample packet: the fourth failure removes it. *)
Lemma retry_budget_is_spent_then_dead_lettered_witness :
  RetryHandler.packetMap
    (RetryHandler.failTimes 4 0 RetryHandler.Written Fixtures.tracking
       RetryHandler.Missing Samples.failure).1 !! PacketID Samples.failure = None.
Proof.
  destruct (retry_budget_is_spent_then_dead_lettered 0 RetryHandler.Written
              Fixtures.tracking RetryHandler.Missing Samples.failure Samples.packet 3)
    as (_ & Hgone & _).
  - reflexivity.
  - exact zero_in_range.
  - reflexivity.
  - exact Hgone.
Defined.

(** X5 at the sample packet submitted with its retries spent. *)
Lemma over_budget_submission_is_dead_lettered_at_first_failure_witness :
  RetryHandler.packetMap
    (RetryHandler.HandleFailedPacket 0 RetryHandler.Written
       (Distributor.retryHandler
          (Distributor.SubmitPacket Distributor.Enqueued Samples.freshDistributor
             Samples.exhausted).2)
       RetryHandler.Missing Samples.failure).1 !! ID Samples.exhausted = None.
Proof.
  destruct (over_budget_submission_is_dead_lettered_at_first_failure 0 RetryHandler.Written
              Samples.freshDistributor RetryHandler.Missing Samples.exhausted Samples.failure)
    as (_ & _ & Hgone & _).
  - reflexivity.
  - reflexivity.
  - by vm_compute.
  - exact Hgone.
Defined.

(** X6 at the sample packet. *)
Lemma retry_round_requeues_the_incremented_packet_witness :
  (RetryHandler.ProcessRetries_step RetryHandler.Resubmitted
     (RetryHandler.scheduleRetryWithCleanup RetryHandler.Fired_Sent
        (RetryHandler.HandleFailedPacket 0 RetryHandler.Written Fixtures.tracking
           RetryHandler.Missing Samples.failure).1)
     []).2
  = [mkLogPacket "pkt-1" [Samples.message] 1].
Proof.
  rewrite (retry_round_requeues_the_incremented_packet 0 RetryHandler.Written
             Fixtures.tracking RetryHandler.Missing Samples.failure Samples.packet []).
  - reflexivity.
  - reflexivity.
  - reflexivity.
  - exact zero_in_range.
  - by vm_compute.
  - reflexivity.
  - reflexivity.
Defined.

(** X7 at the sample packet, the retry channel being full. *)
Lemma dropped_retry_leaves_the_packet_tracked_witness :
  RetryHandler.packetMap
    (RetryHandler.scheduleRetryWithCleanup RetryHandler.Fired_ChannelFull
       (RetryHandler.HandleFailedPacket 0 RetryHandler.Written Fixtures.tracking
          RetryHandler.Missing Samples.failure).1) !! PacketID Samples.failure
  = Some (mkLogPacket "pkt-1" [Samples.message] 1).
Proof.
  rewrite (dropped_retry_leaves_the_packet_tracked 0 RetryHandler.Written
             Fixtures.tracking RetryHandler.Missing Samples.failure Samples.packet
             RetryHandler.Fired_ChannelFull).
  - reflexivity.
  - reflexivity.
  - exact zero_in_range.
  - by vm_compute.
  - reflexivity.
  - discriminate.
Defined.

(** X8 at the sample packet and a fresh distributor. *)
Lemma SubmitPacket_queue_full_untracks_by_id_witness :
  Distributor.inFlight
    (Distributor.SubmitPacket Distributor.TimedOut Samples.freshDistributor Samples.packet).2
  = delete (ID Samples.packet) (Distributor.inFlight Samples.freshDistributor).
Proof.
  destruct (SubmitPacket_queue_full_untracks_by_id Samples.freshDistributor Samples.packet
              sample_packet_valid) as [Hdelete _].
  exact Hdelete.
Defined.

Lemma submitted_keyed :
  RetryQueries.keyedByID (Distributor.inFlight (Pipeline.distributor Fixtures.submitted)).
Proof. exact tracking_keyed. Qed.

Lemma submitted_visit :
  RetryQueries.iterationOf
    (Distributor.inFlight (Pipeline.distributor Fixtures.submitted)) [Samples.packet].
Proof.
  unfold RetryQueries.iterationOf.
  replace (map_to_list (Distributor.inFlight (Pipeline.distributor Fixtures.submitted))).*2
    with [Samples.packet] by (vm_compute; reflexivity).
  reflexivity.
Qed.

(** X9: a restart from the snapshot of the pipeline that holds the sample
    packet. *)
Lemma recovery_from_a_snapshot_restores_the_in_flight_set_witness :
  Distributor.inFlight
    (Pipeline.distributor
       (Pipeline.recoverFromState []
          (Pipeline.getState [Samples.packet] 9 Fixtures.submitted)
          (Pipeline.fresh Samples.registry Samples.balancer)))
  = Distributor.inFlight (Pipeline.distributor Fixtures.submitted).
Proof.
  destruct (recovery_from_a_snapshot_restores_the_in_flight_set [] [Samples.packet] 9
              Fixtures.submitted Samples.registry Samples.balancer
              submitted_keyed submitted_visit) as [Hsame _].
  exact Hsame.
Defined.

(** X10: recovery of the sample snapshot into a fresh pipeline. *)
Lemma recoverFromState_tracks_all_and_enqueues_while_room_witness :
  Pipeline.packetChannel (Pipeline.recoverFromState [] Fixtures.snapshot Fixtures.pipeline)
  = [Samples.packet].
Proof.
  destruct (recoverFromState_tracks_all_and_enqueues_while_room [] Fixtures.snapshot
              Fixtures.pipeline) as (_ & _ & Hqueue & _).
  - by vm_compute.
  - rewrite Hqueue. reflexivity.
Defined.

Lemma snapshot_visit :
  Pipeline.visitOf (Analyzers Fixtures.snapshot) [("a"%string, Fixtures.veteranA)].
Proof.
  unfold Pipeline.visitOf.
  replace (map_to_list (Analyzers Fixtures.snapshot))
    with [("a"%string, Fixtures.veteranA)] by (vm_compute; reflexivity).
  reflexivity.
Qed.

(** X11: analyzer A takes over the counters of the sample snapshot. *)
Lemma recoverFromState_adds_the_snapshot_counters_witness :
  ProcessedCount
    <$> Pipeline.analyzers
          (Pipeline.recoverFromState [("a"%string, Fixtures.veteranA)]
             Fixtures.snapshot Fixtures.pipeline) !! "a"
  = Some 7.
Proof.
  rewrite (recoverFromState_adds_the_snapshot_counters [("a"%string, Fixtures.veteranA)]
             Fixtures.snapshot Fixtures.pipeline "a" snapshot_visit).
  reflexivity.
Defined.

(** X12 at the two sample analyzers, visited in either order. *)
Lemma GetFailedPacketsCount_is_the_sum_of_error_counters_witness :
  RetryQueries.GetFailedPacketsCount [Samples.analyzerA; Samples.analyzerB]
  = RetryQueries.GetFailedPacketsCount [Samples.analyzerB; Samples.analyzerA].
Proof.
  destruct (GetFailedPacketsCount_is_the_sum_of_error_counters
              [Samples.analyzerA; Samples.analyzerB] [Samples.analyzerB; Samples.analyzerA]
              (perm_swap _ _ _)) as [Hsame _].
  exact Hsame.
Defined.

(** X13 at the sample packet and its exhausted copy. *)
Lemma ValidatePacket_depends_only_on_body_lengths_witness :
  PacketValidator.ValidatePacket Samples.packet
  = PacketValidator.ValidatePacket Samples.exhausted.
Proof.
  apply (ValidatePacket_depends_only_on_body_lengths Samples.packet Samples.exhausted).
  reflexivity.
Defined.

(** X14 at the packet of [TestPacketValidator_OversizedMessage]. *)
Lemma MessageTooLong_reports_the_first_oversized_message_witness :
  exists before msg after,
    Messages
      (tests.packetOf
         [tests.messageOf (tests.zeroBytes (Z.to_nat (config.MaxLogMessageLength + 1)))])
    = before ++ msg :: after
    /\ Forall PacketValidator.bodyFits before
    /\ 10001 = GoInt.len_string (Message msg)
    /\ 10000 = config.MaxLogMessageLength
    /\ 10000 < 10001.
Proof.
  apply (MessageTooLong_reports_the_first_oversized_message
           (tests.packetOf
              [tests.messageOf (tests.zeroBytes (Z.to_nat (config.MaxLogMessageLength + 1)))])
           10001 10000).
  vm_compute. reflexivity.
Defined.

(** X15 at the sample packet. *)
Lemma accepted_packet_stays_accepted_with_fewer_messages_witness :
  PacketValidator.ValidatePacket (mkLogPacket "other" [Samples.message] 2) = None.
Proof.
  apply (accepted_packet_stays_accepted_with_fewer_messages Samples.packet
           [Samples.message] "other" 2).
  - reflexivity.
  - reflexivity.
  - discriminate.
Defined.

(** X16 at the packet of [TestPacketValidator_PacketTooLarge]. *)
Lemma PacketTooLarge_needs_at_least_105_messages_witness :
  105 <= GoInt.len
           (Messages
              (tests.packetOf
                 (replicate
                    (Z.to_nat (config.MaxPacketSizeBytes / (config.MaxLogMessageLength / 2) + 1))
                    (tests.messageOf
                       (tests.zeroBytes (Z.to_nat (config.MaxLogMessageLength / 2)))))))
  <= 1000.
Proof.
  destruct (PacketTooLarge_needs_at_least_105_messages
              (tests.packetOf
                 (replicate
                    (Z.to_nat (config.MaxPacketSizeBytes / (config.MaxLogMessageLength / 2) + 1))
                    (tests.messageOf
                       (tests.zeroBytes (Z.to_nat (config.MaxLogMessageLength / 2)))))))
    as [Hcount _].
  - vm_compute. reflexivity.
  - exact Hcount.
Defined.

(** X18 at the sample balancer. *)
Lemma SelectAnalyzer_never_returns_an_unhealthy_analyzer_witness :
  LoadBalancer.analyzers
    (LoadBalancer.SelectAnalyzer [Samples.analyzerA; Samples.analyzerB] Samples.balancer).2
  = LoadBalancer.analyzers Samples.balancer.
Proof.
  destruct (SelectAnalyzer_never_returns_an_unhealthy_analyzer Samples.balancer
              [Samples.analyzerA; Samples.analyzerB]
              sample_registry_keyed sample_registry_visit) as (_ & Hregistry & _).
  exact Hregistry.
Defined.

(** X20 at the sample registry. *)
Lemma NewLoadBalancer_starts_from_the_configured_weights_witness :
  LoadBalancer.NewLoadBalancer [Samples.analyzerA; Samples.analyzerB] Samples.registry
  = LoadBalancer.mk Samples.registry (Weight <$> Samples.registry)
      (Weight <$> Samples.registry).
Proof.
  destruct (NewLoadBalancer_starts_from_the_configured_weights Samples.registry
              [Samples.analyzerA; Samples.analyzerB]
              sample_registry_keyed sample_registry_visit) as [Hfresh _].
  exact Hfresh.
Defined.

Lemma sample_visit_swapped :
  LoadBalancer.iterationOf Samples.registry [Samples.analyzerB; Samples.analyzerA].
Proof.
  unfold LoadBalancer.iterationOf.
  rewrite <- sample_registry_visit. apply perm_swap.
Qed.

Lemma sample_orders :
  Forall (LoadBalancer.iterationOf (LoadBalancer.analyzers Samples.balancer))
    [[Samples.analyzerA; Samples.analyzerB]; [Samples.analyzerB; Samples.analyzerA]].
Proof.
  repeat apply Forall_cons_2; [exact sample_registry_visit|exact sample_visit_swapped|].
  apply Forall_nil_2.
Qed.

Lemma sample_run :
  LoadBalancer.selectMany
    [[Samples.analyzerA; Samples.analyzerB]; [Samples.analyzerB; Samples.analyzerA]]
    Samples.balancer
  = Some ([Samples.analyzerA; Samples.analyzerB],
          (LoadBalancer.SelectAnalyzer [Samples.analyzerB; Samples.analyzerA]
             (LoadBalancer.SelectAnalyzer [Samples.analyzerA; Samples.analyzerB]
                Samples.balancer).2).2).
Proof. vm_compute. reflexivity. Qed.

Lemma sample_run_exact :
  LoadBalancer.exactRun
    [[Samples.analyzerA; Samples.analyzerB]; [Samples.analyzerB; Samples.analyzerA]]
    Samples.balancer.
Proof.
  split; [exact sample_call_exact|]. split; [|exact I].
  split; [split; vm_compute; reflexivity|].
  split.
  - apply Forall_cons_2; [split; vm_compute; reflexivity|].
    apply Forall_cons_2; [split; vm_compute; reflexivity|]. apply Forall_nil_2.
  - vm_compute. split; reflexivity.
Qed.

Lemma stock_registry_keyed : LoadBalancer.keyedByID Samples.stockRegistry.
Proof.
  intros key a Hlook. apply elem_of_list_to_map_2 in Hlook.
  apply list_elem_of_fmap in Hlook as (b & [= -> ->] & _). reflexivity.
Qed.

(** X21 at the registry the service starts with. *)
Lemma selection_succeeds_when_a_healthy_weight_is_not_negative_witness :
  exists j,
    (LoadBalancer.SelectAnalyzer Samples.stock Samples.stockBalancer).1 = Some j
    /\ IsHealthy j = true
    /\ LoadBalancer.analyzers Samples.stockBalancer !! analyzer_ID j = Some j.
Proof.
  apply (selection_succeeds_when_a_healthy_weight_is_not_negative
           Samples.stockBalancer Samples.stock).
  - exact stock_registry_keyed.
  - exact stock_registry_visit.
  - vm_compute. reflexivity.
  - apply Exists_cons_hd. split; vm_compute; reflexivity.
Defined.

(** X22 at the sample balancer: after two calls that picked A once, its
    current weight is 1/2 + 2 * 1/2 - 1 * 1. *)
Lemma each_selection_is_paid_for_with_W_when_nothing_is_rounded_witness :
  (float64.toQ
     (LoadBalancer.weightOf
        (LoadBalancer.currentWeights
           (LoadBalancer.SelectAnalyzer [Samples.analyzerB; Samples.analyzerA]
              (LoadBalancer.SelectAnalyzer [Samples.analyzerA; Samples.analyzerB]
                 Samples.balancer).2).2)
        "a")
   == 1 # 2)%Q.
Proof.
  rewrite (each_selection_is_paid_for_with_W_when_nothing_is_rounded Samples.balancer _
             [Samples.analyzerA; Samples.analyzerB] [Samples.analyzerA; Samples.analyzerB]
             [[Samples.analyzerA; Samples.analyzerB]; [Samples.analyzerB; Samples.analyzerA]]
             Samples.analyzerA
             sample_registry_keyed sample_registry_visit sample_orders sample_run_exact
             sample_run (list_elem_of_here _ _)).
  by vm_compute.
Defined.

Lemma one_round_fits :
  0 < GoInt.len [(Samples.uuid, Distributor.Enqueued, Samples.packet)]
  <= config.MaxMessagesPerPacket.
Proof. by vm_compute. Qed.

(** X24 at a body that holds the sample packet. *)
Lemma SubmitLogs_reports_what_it_queued_witness :
  exists sent,
    Distributor.packetChannel
      (handlers.SubmitLogs [(Samples.uuid, Distributor.Enqueued, Samples.packet)]
         Samples.freshDistributor).2
    = Distributor.packetChannel Samples.freshDistributor ++ sent.
Proof.
  destruct (SubmitLogs_reports_what_it_queued
              [(Samples.uuid, Distributor.Enqueued, Samples.packet)]
              Samples.freshDistributor one_round_fits) as (sent & _ & Hqueue & _).
  exists sent. exact Hqueue.
Defined.

(** X25 at the empty body. *)
Lemma SubmitLogs_refuses_empty_and_oversized_bodies_witness :
  handlers.SubmitLogs [] Samples.freshDistributor
  = (handlers.StatusBadRequest, None, Samples.freshDistributor).
Proof.
  apply (SubmitLogs_refuses_empty_and_oversized_bodies [] Samples.freshDistributor).
  left. reflexivity.
Defined.

Lemma sample_probes : HealthMonitor.probesOf Samples.registry Fixtures.probes.
Proof.
  unfold HealthMonitor.probesOf.
  replace (map_to_list Samples.registry).*1
    with (Fixtures.probes.*1.*1) by (vm_compute; reflexivity).
  reflexivity.
Qed.

Lemma probed_visit :
  LoadBalancer.iterationOf
    (HealthMonitor.checkAnalyzerHealth Fixtures.probes
       (LoadBalancer.analyzers Samples.balancer)).2
    Fixtures.probedVisit.
Proof.
  unfold LoadBalancer.iterationOf.
  replace (map_to_list
             (HealthMonitor.checkAnalyzerHealth Fixtures.probes
                (LoadBalancer.analyzers Samples.balancer)).2).*2
    with Fixtures.probedVisit by (vm_compute; reflexivity).
  reflexivity.
Qed.

(** X26 at the sample registry and a round that finds A down. *)
Lemma checkAnalyzerHealth_reports_exactly_the_flipped_flags_witness :
  LoadBalancer.keyedByID
    (HealthMonitor.checkAnalyzerHealth Fixtures.probes Samples.registry).2.
Proof.
  destruct (checkAnalyzerHealth_reports_exactly_the_flipped_flags Fixtures.probes
              Samples.registry sample_probes) as (_ & _ & Hkeyed & _).
  exact (Hkeyed sample_registry_keyed).
Defined.

(** X27 at the sample balancer: after the tick that finds A down and B
    up, the current weight of B is its original weight. *)
Lemma health_change_resets_the_weights_of_the_analyzers_found_healthy_witness :
  LoadBalancer.currentWeights
    (HealthMonitor.tick Fixtures.probes Fixtures.probedVisit Samples.balancer) !! "b"
  = Some (LoadBalancer.weightOf (LoadBalancer.originalWeights Samples.balancer) "b").
Proof.
  destruct (health_change_resets_the_weights_of_the_analyzers_found_healthy
              Fixtures.probes Fixtures.probedVisit Samples.balancer
              sample_registry_keyed sample_probes probed_visit) as (_ & _ & _ & Hchanged).
  apply (Hchanged eq_refl "b"%string true 5 Samples.analyzerB).
  - apply list_elem_of_further, list_elem_of_here.
  - reflexivity.
Defined.

Lemma sample_selection :
  (LoadBalancer.SelectAnalyzer [Samples.analyzerA; Samples.analyzerB]
     (Pipeline.loadBalancer Fixtures.pipeline)).1 = Some Samples.analyzerA.
Proof. vm_compute. reflexivity. Qed.

(** X28 at the sample pipeline: the sample packet is no longer in
    flight. *)
Lemma a_delivered_packet_leaves_the_pipeline_clean_witness :
  Distributor.inFlight
    (Pipeline.distributor
       (Pipeline.processResults_step 3 RetryHandler.Written
          (Pipeline.sendToAnalyzer Fixtures.encoder true 1 2 3 Pipeline.Delivered
             RetryHandler.Written
             (Pipeline.processPackets_step [Samples.analyzerA; Samples.analyzerB]
                Pipeline.Requeue_Sent
                (Pipeline.SubmitPacket Distributor.Enqueued Fixtures.pipeline
                   Samples.packet).2))))
  = ∅.
Proof.
  rewrite (a_delivered_packet_leaves_the_pipeline_clean Fixtures.encoder
             [Samples.analyzerA; Samples.analyzerB] Pipeline.Requeue_Sent
             RetryHandler.Written RetryHandler.Written 1 2 3 3
             Fixtures.pipeline Samples.packet Samples.analyzerA
             sample_packet_valid eq_refl eq_refl eq_refl
             sample_registry_keyed sample_registry_visit sample_selection).
  vm_compute. reflexivity.
Defined.

Lemma sample_budget : 0 <= RetryCount Samples.packet < config.MaxRetries.
Proof. by vm_compute. Qed.

(** X29 at the sample pipeline, the result channel being full: a retry
    is scheduled after four seconds. *)
Lemma an_undelivered_success_is_retried_witness :
  RetryHandler.delays
    (Pipeline.retryHandler
       (Pipeline.sendToAnalyzer Fixtures.encoder true 1 2 3 Pipeline.Delivery_TimedOut
          RetryHandler.Written Fixtures.handedOver))
  = [4 * config.Second].
Proof.
  rewrite (an_undelivered_success_is_retried Fixtures.encoder 1 2 3
             Pipeline.Delivery_TimedOut RetryHandler.Written Fixtures.handedOver
             "a" Samples.packet Samples.packet [] Samples.analyzerA).
  - reflexivity.
  - vm_compute. reflexivity.
  - vm_compute. reflexivity.
  - vm_compute. reflexivity.
  - exact sample_budget.
  - discriminate.
Defined.

(** X30 at the pipeline whose only analyzer is unhealthy, the queue
    being full when the delay is over: the packet is in no queue. *)
Lemma a_packet_without_a_healthy_analyzer_is_requeued_or_stranded_witness :
  Pipeline.packetChannel
    (Pipeline.processPackets_step [Fixtures.unhealthy] Pipeline.Requeue_QueueFull
       Fixtures.stalled)
  = []
  /\ Distributor.inFlight
       (Pipeline.distributor
          (Pipeline.processPackets_step [Fixtures.unhealthy] Pipeline.Requeue_QueueFull
             Fixtures.stalled))
     = Distributor.inFlight (Pipeline.distributor Fixtures.stalled).
Proof.
  destruct (a_packet_without_a_healthy_analyzer_is_requeued_or_stranded
              [Fixtures.unhealthy] Pipeline.Requeue_QueueFull Fixtures.stalled
              Samples.packet [])
    as (Hstep & Hflight & _).
  - reflexivity.
  - left. reflexivity.
  - split; [by rewrite Hstep|exact Hflight].
Defined.
